(** * YACS schedule optimizer: a shallow embedding of
      [backend/scraper/optimizer.py] and the properties of its
      specification.

    Python integers are [Z]; dictionaries used as maps are [gmap]s,
    dictionaries whose iteration order is observed are association lists in
    insertion order; exceptions are an explicit [result] type.  The Python
    built-ins the module calls ([float], [int], [round], [sum], [str.strip],
    [list.sort], [statistics.mean], [statistics.stdev]) are the operations
    of the class [PyRuntime]; every definition below is written over that
    interface. *)

From Stdlib Require Import ZArith QArith Ascii String List Lia.
From Stdlib Require PrimFloat SpecFloat FloatOps.
From stdpp Require Import base tactics option list gmap strings pretty sorting.

Local Open Scope string_scope.
Local Open Scope list_scope.
Local Open Scope Z_scope.

(** ** Exceptions *)

Inductive exn : Type :=
  | TypeError
  | AttributeError
  | OverflowError
  | KeyError
  | ValueError (msg : string).

Inductive result (A : Type) : Type :=
  | Ok (a : A)
  | Raise (e : exn).
Arguments Ok {A} a.
Arguments Raise {A} e.

Definition rbind {A B : Type} (m : result A) (k : A → result B) : result B :=
  match m with
  | Ok a => k a
  | Raise e => Raise e
  end.

Notation "'do' x <- m ; k" := (rbind m (λ x, k))
  (at level 10, x pattern, m at level 100, k at level 200).

(** [for x in l: acc = step(acc, x)] with a body that may raise. *)
Fixpoint rfold {A S : Type} (step : S → A → result S) (acc : S) (l : list A)
  : result S :=
  match l with
  | [] => Ok acc
  | x :: l' => do acc' <- step acc x; rfold step acc' l'
  end.

(** [[f(x) for x in l]] with an [f] that may raise. *)
Fixpoint rmap {A B : Type} (f : A → result B) (l : list A) : result (list B) :=
  match l with
  | [] => Ok []
  | x :: l' => do y <- f x; do ys <- rmap f l'; Ok (y :: ys)
  end.

(** ** Sorting

    [l.sort(key=..., reverse=True)] is a built-in.  What every [list.sort]
    does, whatever the keys are: it rearranges the list, and it leaves a
    list alone that, read backwards, is already one ascending run (no entry
    is followed by an entry with a greater key).  When [<] is a strict weak
    order on the keys it sorts, and the sort is stable.  On other keys (a
    NaN among the floats) the order of the result is not specified. *)

Section SortContract.
Context {A K : Type} (lt : K → K → bool).
Implicit Types (x y : A * K) (l : list (A * K)).

(** On the keys [ks], [<] is a strict weak order, as it is on floats
    that are not NaN: it is asymmetric, and "not less" is transitive. *)
Definition strict_weak_order_on (ks : list K) : Prop :=
  (∀ a b, a ∈ ks → b ∈ ks → lt a b = true → lt b a = false)
  ∧ (∀ a b c, a ∈ ks → b ∈ ks → c ∈ ks →
       lt a b = false → lt b c = false → lt a c = false).

Definition key_not_less x y : Prop := lt (snd x) (snd y) = false.

(** The key of the entry is tied with [v]. *)
Definition key_tied (v : K) : A * K → bool :=
  λ x, negb (lt v (snd x)) && negb (lt (snd x) v).

Definition no_ascent l : Prop :=
  ∀ i x y, l !! i = Some x → l !! S i = Some y → lt (snd x) (snd y) = false.

Record sort_desc_contract (sort : list (A * K) → list (A * K)) : Prop := {
  sort_permutes : ∀ l, sort l ≡ₚ l;
  sort_keeps_run : ∀ l, no_ascent l → sort l = l;
  sort_orders : ∀ l,
    strict_weak_order_on (map snd l) →
    StronglySorted key_not_less (sort l)
    ∧ ∀ v, v ∈ map snd l →
        filter (λ y, key_tied v y) (sort l) = filter (λ y, key_tied v y) l
}.

End SortContract.

(** ** The Python run time *)

Class PyRuntime : Type := {
  float : Type;
  (** The float nearest to an [int]: [float(n)], and the promotion in
      [int * float]. *)
  float_of_int : Z → float;
  (** The [int] is beyond the range of the floats: [float(n)] raises
      [OverflowError]. *)
  float_overflows : Z → bool;
  (** [float(s)] for a [str]; [None] is [ValueError]. *)
  float_of_str : string → option float;
  (** The float a decimal literal of the source denotes. *)
  float_lit : Q → float;
  fadd : float → float → float;
  fsub : float → float → float;
  fmul : float → float → float;
  (** [x < y], the comparison [list.sort] uses. *)
  fltb : float → float → bool;
  (** [bool(x)]. *)
  float_truth : float → bool;
  (** [float("-inf")]. *)
  neg_inf : float;
  (** [round(x, 2)]. *)
  round2 : float → float;
  (** [float(sum(xs))] for a sequence of floats. *)
  float_sum : list float → float;
  (** [statistics.mean] and [statistics.stdev] of a list of [int]s, as the
      float they are promoted to in the product that follows. *)
  mean : list Z → float;
  stdev : list Z → float;
  (** [int(s)] for a [str]; [None] is [ValueError]. *)
  py_int : string → option Z;
  (** [s.strip()]. *)
  py_strip : string → string;
  (** [l.sort(key=lambda x: x["score"], reverse=True)], the entries paired
      with their scores. *)
  list_sort_desc : ∀ A : Type, list (A * float) → list (A * float);
  list_sort_desc_contract : ∀ A : Type, sort_desc_contract fltb (list_sort_desc A)
}.
Arguments list_sort_desc {_} {A} l.

(** ** Constants *)

Inductive weekday : Type := Mon | Tue | Wed | Thu | Fri.

Global Instance weekday_eq_dec : EqDecision weekday.
Proof. solve_decision. Defined.

(** [MEETING_KEYS], [DAY_NAMES_SHORT] and [DAY_NAMES_LONG] are indexed by
    the day; [day_index] is the position [enumerate] gives. *)
Definition MEETING_KEYS : list weekday := [Mon; Tue; Wed; Thu; Fri].

Definition day_index (d : weekday) : nat :=
  match d with Mon => 0 | Tue => 1 | Wed => 2 | Thu => 3 | Fri => 4 end%nat.

Definition meeting_key (d : weekday) : string :=
  match d with
  | Mon => "monday" | Tue => "tuesday" | Wed => "wednesday"
  | Thu => "thursday" | Fri => "friday"
  end.

Definition DAY_NAMES_LONG (d : weekday) : string :=
  match d with
  | Mon => "Monday" | Tue => "Tuesday" | Wed => "Wednesday"
  | Thu => "Thursday" | Fri => "Friday"
  end.

Definition DEFAULT_REQUIREMENTS_SPEC : list (string * list (list string)) :=
  [ ("cs_requirement", [["CSCI1200"]]);
    ("math_requirement", [["MATH1020"]]);
    ("biol_requirement", [["BIOL1010"; "BIOL1015"]; ["BIOL1010"; "BIOL1016"]]) ].
Definition DEFAULT_HASS_SUBJECT : string := "INQR".
Definition DEFAULT_MAX_SCHEDULES : Z := 25.

Definition EARLY_CLASS_THRESHOLD : Z := 10 * 60.
Definition LATE_CLASS_THRESHOLD : Z := 18 * 60.
Definition ACTIVE_DAY_IDEAL_RANGE : Z * Z := (3, 4).
Definition EARLY_LATE_PENALTY_PER_MIN : Q := 2 # 10.
Definition ACTIVE_DAY_BONUS : Z := 100.
Definition ACTIVE_DAY_PENALTY_PER_DAY : Z := 50.
Definition DISTRIBUTION_WEIGHT : Z := 20.
Definition IDLE_TIME_PENALTY : Q := 5 # 100.
Definition SPAN_PENALTY : Q := 5 # 100.

(** ** Time-interval model *)

Record MeetingTime : Type := {
  day : weekday;
  begin_time : Z;
  end_time : Z
}.

Definition overlaps_with (self other : MeetingTime) : bool :=
  if bool_decide (day self ≠ day other) then false
  else negb ((end_time self <=? begin_time other)
             || (begin_time self >=? end_time other)).

(** ** Raw catalog records

    A record of the registration feed is a JSON object.  Every key the
    optimizer reads is a [field]: the key may be absent, hold JSON [null],
    or hold a value of the type the feed gives it. *)

Inductive field (A : Type) : Type :=
  | Absent
  | Null
  | Val (a : A).
Arguments Absent {A}.
Arguments Null {A}.
Arguments Val {A} a.

(** [d.get(key)]: [None] when the key is absent or null. *)
Definition get {A : Type} (f : field A) : option A :=
  match f with
  | Val a => Some a
  | Absent | Null => None
  end.

(** [d.get(key, default)]: the default replaces an absent key only. *)
Definition get_default {A : Type} (f : field A) (default : A) : option A :=
  match f with
  | Absent => Some default
  | Null => None
  | Val a => Some a
  end.

Section Optimizer.
Context `{RT : PyRuntime}.

(** ** Configuration *)

Record ScoringWeights : Type := {
  early_class_threshold : Z;
  late_class_threshold : Z;
  early_late_penalty_per_min : float;
  active_day_ideal_range : Z * Z;
  active_day_bonus : float;
  active_day_penalty_per_day : float;
  distribution_weight : float;
  idle_time_penalty : float;
  span_penalty : float
}.

Definition default_scoring : ScoringWeights :=
  {| early_class_threshold := EARLY_CLASS_THRESHOLD;
     late_class_threshold := LATE_CLASS_THRESHOLD;
     early_late_penalty_per_min := float_lit EARLY_LATE_PENALTY_PER_MIN;
     active_day_ideal_range := ACTIVE_DAY_IDEAL_RANGE;
     active_day_bonus := float_of_int ACTIVE_DAY_BONUS;
     active_day_penalty_per_day := float_of_int ACTIVE_DAY_PENALTY_PER_DAY;
     distribution_weight := float_of_int DISTRIBUTION_WEIGHT;
     idle_time_penalty := float_lit IDLE_TIME_PENALTY;
     span_penalty := float_lit SPAN_PENALTY |}.

(** A JSON value in a credit or a time field; of a list and of an object
    only whether it is empty is kept. *)
Inductive jvalue : Type :=
  | JInt (n : Z)
  | JFloat (x : float)
  | JBool (b : bool)
  | JStr (s : string)
  | JList (empty : bool)
  | JObject (empty : bool).

(** [bool(v)]. *)
Definition truthy (v : jvalue) : bool :=
  match v with
  | JInt n => negb (n =? 0)
  | JFloat x => float_truth x
  | JBool b => b
  | JStr s => negb (bool_decide (s = ""))
  | JList empty | JObject empty => negb empty
  end.

Record RawMeetingTime : Type := {
  beginTime : field jvalue;
  endTime : field jvalue;
  day_flag : weekday → field bool;   (* the keys of MEETING_KEYS *)
  creditHourSession : field jvalue
}.

Record RawFacultyBlock : Type := {
  meetingTime : field RawMeetingTime
}.

Record RawSection : Type := {
  seatsAvailable : field Z;
  subjectCourse : field string;
  subject : field string;
  courseTitle : field string;
  creditHours : field jvalue;
  courseReferenceNumber : field string;
  (* a list whose elements are objects or null *)
  meetingsFaculty : field (list (option RawFacultyBlock))
}.

(** The empty object [{}]. *)
Definition empty_meeting_time : RawMeetingTime :=
  {| beginTime := Absent; endTime := Absent;
     day_flag := λ _, Absent; creditHourSession := Absent |}.

Definition empty_block : RawFacultyBlock := {| meetingTime := Absent |}.

(** ** Time strings *)

(** [hhmm[:2]] and [hhmm[2:]]. *)
Definition str_take2 (s : string) : string := String.substring 0 2 s.
Definition str_drop2 (s : string) : string :=
  String.substring 2 (String.length s - 2) s.

(** [None] is the [ValueError] of [int]. *)
Definition hhmm_to_minutes (hhmm : string) : option Z :=
  h ← py_int (str_take2 hhmm);
  m ← py_int (str_drop2 hhmm);
  Some (h * 60 + m).

(** [hhmm_to_minutes(v)] for the value of a time key; [Ok None] is the
    [ValueError] of [int].  A number or a boolean cannot be sliced, and
    [int] does not read the slice of a list: [TypeError].  The slice of an
    object is a key it does not have: [KeyError] ([TypeError] before
    Python 3.12, where a slice cannot be a key). *)
Definition hhmm_to_minutes_of (v : jvalue) : result (option Z) :=
  match v with
  | JStr s => Ok (hhmm_to_minutes s)
  | JInt _ | JFloat _ | JBool _ | JList _ => Raise TypeError
  | JObject _ => Raise KeyError
  end.

(** [f"{n:02d}"]. *)
Definition format_02d (n : Z) : string :=
  let s := pretty n in
  if (String.length s <? 2)%nat then "0" +:+ s else s.

Definition minutes_to_hhmm (minutes : Z) : string :=
  format_02d (minutes / 60) +:+ format_02d (minutes mod 60).

(** ** Catalog normalizer *)

Definition _safe_float (value : option jvalue) (default : float)
  : result float :=
  match value with
  | None => Ok default                               (* TypeError *)
  | Some (JInt n) =>
      if float_overflows n then Raise OverflowError  (* not caught *)
      else Ok (float_of_int n)
  | Some (JFloat x) => Ok x
  | Some (JBool b) => Ok (float_of_int (if b then 1 else 0))
  | Some (JStr s) =>
      match float_of_str s with
      | Some x => Ok x
      | None => Ok default                           (* ValueError *)
      end
  | Some (JList _) | Some (JObject _) => Ok default  (* TypeError *)
  end.

(** [mt = (faculty_block or {}).get("meetingTime") or {}]. *)
Definition block_time_dict (faculty_block : option RawFacultyBlock)
  : RawMeetingTime :=
  match get (meetingTime (default empty_block faculty_block)) with
  | Some m => m
  | None => empty_meeting_time
  end.

(** The body of the loop over the faculty blocks: the meeting times one
    block contributes. *)
Definition block_meeting_times (faculty_block : option RawFacultyBlock)
  : result (list MeetingTime) :=
  let mt := block_time_dict faculty_block in
  match get (beginTime mt), get (endTime mt) with
  | Some begin, Some end_ =>
      if negb (truthy begin) || negb (truthy end_) then Ok []
      else
        do begin_minutes <- hhmm_to_minutes_of begin;
        match begin_minutes with
        | None => Ok []                              (* except ValueError *)
        | Some begin_minutes =>
            do end_minutes <- hhmm_to_minutes_of end_;
            match end_minutes with
            | None => Ok []                          (* except ValueError *)
            | Some end_minutes =>
                if begin_minutes >=? end_minutes then Ok []
                else
                  Ok (omap (λ key,
                              match get (day_flag mt key) with
                              | Some true =>
                                  Some {| day := key;
                                          begin_time := begin_minutes;
                                          end_time := end_minutes |}
                              | _ => None
                              end) MEETING_KEYS)
            end
        end
  | _, _ => Ok []                                    (* not begin or not end *)
  end.

(** Iterating [section.get("meetingsFaculty", [])]: [None] is not
    iterable. *)
Definition faculty_blocks (section : RawSection)
  : result (list (option RawFacultyBlock)) :=
  match get_default (meetingsFaculty section) [] with
  | Some blocks => Ok blocks
  | None => Raise TypeError
  end.

(** The loop over the faculty blocks. *)
Definition meetings_of_blocks (blocks : list (option RawFacultyBlock))
  : result (list MeetingTime) :=
  do meetings <- rmap block_meeting_times blocks;
  Ok (concat meetings).

Definition extract_meeting_times (section : RawSection)
  : result (list MeetingTime) :=
  do blocks <- faculty_blocks section;
  meetings_of_blocks blocks.

(** [(meeting or {}).get("meetingTime", {}).get("creditHourSession")]:
    a null [meetingTime] has no [get]. *)
Definition block_credit_session (meeting : option RawFacultyBlock)
  : result (option jvalue) :=
  match get_default (meetingTime (default empty_block meeting))
                    empty_meeting_time with
  | Some mt => Ok (get (creditHourSession mt))
  | None => Raise AttributeError
  end.

Definition compute_section_credits (section : RawSection) : result float :=
  do credits <- _safe_float (get (creditHours section)) (float_of_int 0);
  if float_truth credits then Ok credits
  else
    do blocks <- faculty_blocks section;
    do sessions <- rmap (λ meeting,
                           do v <- block_credit_session meeting;
                           _safe_float v (float_of_int 0)) blocks;
    Ok (float_sum sessions).

(** ** Courses and sections

    A [Section] of the source keeps a reference to its [Course] and reads
    only the course's code and title through it; [CourseLabel] is that
    view.  The two fields are fixed when the course is created. *)

Record CourseLabel : Type := {
  label_subject_course : option string;
  label_title : option string
}.

Record CSection : Type := {
  meeting_times : list MeetingTime;
  course : CourseLabel;
  crn : string
}.

Record Course : Type := {
  subject_course : option string;
  title : option string;
  credits : float;
  sections : list CSection
}.

Definition new_course (subject_course title : option string) (credits : float)
  : Course :=
  {| subject_course := subject_course; title := title;
     credits := credits; sections := [] |}.

Definition course_label (c : Course) : CourseLabel :=
  {| label_subject_course := subject_course c; label_title := title c |}.

(** [str(section.get("courseReferenceNumber", ""))]. *)
Definition crn_text (section : RawSection) : string :=
  match get_default (courseReferenceNumber section) "" with
  | Some s => s
  | None => "None"
  end.

Definition add_section (self : Course) (section : RawSection) : result Course :=
  do meeting_times <- extract_meeting_times section;
  match meeting_times with
  | [] => Ok self
  | _ :: _ =>
      let crn := py_strip (crn_text section) in
      Ok {| subject_course := subject_course self;
            title := title self;
            credits := credits self;
            sections := sections self ++
              [ {| meeting_times := meeting_times;
                   course := course_label self;
                   crn := crn |} ] |}
  end.

Definition conflicts_with (self other : CSection) : bool :=
  existsb (λ mt1, existsb (λ mt2, overlaps_with mt1 mt2) (meeting_times other))
          (meeting_times self).

Record CourseRequirement : Type := {
  subject_course_groups : list (list Course)
}.

Record CourseCombo : Type := {
  courses : list Course
}.

(** ** Combination search engine *)

(** One pass of the outer loop body: the sections of a course, outermost,
    against the partial schedules kept so far. *)
Definition extend_combos (sects : list CSection) (combos : list (list CSection))
  : list (list CSection) :=
  flat_map (λ sect,
    flat_map (λ combo,
      if forallb (λ existing, negb (conflicts_with sect existing)) combo
      then [combo ++ [sect]] else []) combos) sects.

Fixpoint section_combinations_from
    (combos : list (list CSection)) (remaining : list Course)
  : list (list CSection) :=
  match remaining with
  | [] => combos
  | course :: rest =>
      match sections course with
      | [] => []
      | _ :: _ =>
          match extend_combos (sections course) combos with
          | [] => []
          | new_combos => section_combinations_from new_combos rest
          end
      end
  end.

Definition generate_section_combinations (self : CourseCombo)
  : list (list CSection) :=
  section_combinations_from [[]] (courses self).

(** ** Scoring model *)

(** An extension hook: [None] when the call raises an [Exception]. *)
Definition penalty_hook : Type := list CSection → option float.

(** [min] and [max] of a generator over a non-empty list. *)
Definition min_of (l : list Z) : Z :=
  match l with [] => 0 | x :: l' => foldl Z.min x l' end.
Definition max_of (l : list Z) : Z :=
  match l with [] => 0 | x :: l' => foldl Z.max x l' end.
Definition sum_of (l : list Z) : Z := foldl Z.add 0 l.

(** [score -= n * w] for an [int] [n] and a [float] [w]. *)
Definition score_sub (score : float) (n : Z) (w : float) : float :=
  fsub score (fmul (float_of_int n) w).

(** The body of the loop over the meeting times of the schedule. *)
Definition collect_meeting (weights : ScoringWeights)
    (acc : float * list (list (Z * Z))) (mt : MeetingTime)
  : float * list (list (Z * Z)) :=
  let '(score, days) := acc in
  let days :=
    alter (λ d, d ++ [(begin_time mt, end_time mt)]) (day_index (day mt)) days in
  let score :=
    if begin_time mt <? early_class_threshold weights
    then score_sub score (early_class_threshold weights - begin_time mt)
                   (early_late_penalty_per_min weights)
    else score in
  let score :=
    if end_time mt >? late_class_threshold weights
    then score_sub score (end_time mt - late_class_threshold weights)
                   (early_late_penalty_per_min weights)
    else score in
  (score, days).

Definition active_day_score (weights : ScoringWeights) (score : float)
    (day_counts : list Z) : float :=
  let active_days := Z.of_nat (length day_counts) in
  let score :=
    if (fst (active_day_ideal_range weights) <=? active_days)
       && (active_days <=? snd (active_day_ideal_range weights))
    then fadd score (active_day_bonus weights)
    else score_sub score
           (Z.abs (active_days - snd (active_day_ideal_range weights)))
           (active_day_penalty_per_day weights) in
  if 1 <? Z.of_nat (length day_counts)
  then fsub score (fmul (stdev day_counts) (distribution_weight weights))
  else score.

(** The body of the loop over [days]: idle time and span of one day. *)
Definition compactness_day (weights : ScoringWeights)
    (acc : float * list Z) (day_times : list (Z * Z)) : float * list Z :=
  let '(score, spans) := acc in
  match day_times with
  | [] => (score, spans)
  | _ :: _ =>
      let start := min_of (map fst day_times) in
      let end_ := max_of (map snd day_times) in
      let total_class_time := sum_of (map (λ t, snd t - fst t) day_times) in
      let idle_time := (end_ - start) - total_class_time in
      (score_sub score idle_time (idle_time_penalty weights),
       spans ++ [end_ - start])
  end.

(** The body of the loop over the hooks: a hook that raises is logged and
    leaves the score as it is. *)
Definition apply_penalty (schedule : list CSection) (score : float)
    (penalty : penalty_hook) : float :=
  match penalty schedule with
  | Some delta => fadd score delta
  | None => score
  end.

(** The score of a non-empty schedule before the final [round]. *)
Definition unrounded_score (schedule : list CSection) (weights : ScoringWeights)
    (penalties : option (list penalty_hook)) : float :=
  let '(score, days) :=
    foldl (collect_meeting weights)
          (float_of_int 0, replicate 5 [])
          (flat_map meeting_times schedule) in
  let day_counts :=
    map (λ d, Z.of_nat (length d)) (filter (λ d, d ≠ []) days) in
  let score := active_day_score weights score day_counts in
  let '(score, spans) := foldl (compactness_day weights) (score, []) days in
  let score :=
    match spans with
    | [] => score
    | _ :: _ => fsub score (fmul (mean spans) (span_penalty weights))
    end in
  foldl (apply_penalty schedule) score (default [] penalties).

Definition evaluate_schedule (schedule : list CSection)
    (weights : ScoringWeights) (penalties : option (list penalty_hook))
  : float :=
  match schedule with
  | [] => neg_inf
  | _ :: _ => round2 (unrounded_score schedule weights penalties)
  end.

(** ** Options *)

Record OptimizationOptions : Type := {
  requirements_spec : list (string * list (list string));
  hass_subject : string;
  max_schedules : Z;
  scoring : ScoringWeights;
  min_seats_available : Z;
  include_subjects : option (gset string);
  exclude_subjects : option (gset string);
  penalties : list penalty_hook
}.

Definition default_options : OptimizationOptions :=
  {| requirements_spec := DEFAULT_REQUIREMENTS_SPEC;
     hass_subject := DEFAULT_HASS_SUBJECT;
     max_schedules := DEFAULT_MAX_SCHEDULES;
     scoring := default_scoring;
     min_seats_available := 1;
     include_subjects := None;
     exclude_subjects := None;
     penalties := [] |}.

(** The keyword arguments of [optimize_courses]. *)
Record Keywords : Type := {
  kw_options : option OptimizationOptions;
  kw_requirements_spec : option (list (string * list (list string)));
  kw_hass_subject : option string;
  kw_max_schedules : option Z;
  kw_scoring : option ScoringWeights;
  kw_min_seats_available : option Z;
  kw_include_subjects : option (list string);
  kw_exclude_subjects : option (list string);
  kw_penalties : option (list penalty_hook)
}.

Definition no_keywords : Keywords :=
  {| kw_options := None; kw_requirements_spec := None;
     kw_hass_subject := None; kw_max_schedules := None;
     kw_scoring := None; kw_min_seats_available := None;
     kw_include_subjects := None; kw_exclude_subjects := None;
     kw_penalties := None |}.

(** [x or y] for an optional dictionary and an optional string. *)
Definition dict_or {A : Type} (x : option (list A)) (y : list A) : list A :=
  match x with
  | Some [] | None => y
  | Some d => d
  end.
Definition str_or (x : option string) (y : string) : string :=
  match x with
  | Some s => if bool_decide (s = "") then y else s
  | None => y
  end.

Definition _clone_requirements_spec (spec : list (string * list (list string)))
  : list (string * list (list string)) :=
  map (λ '(key, groups), (key, map (λ group, group) groups)) spec.

Definition _resolve_options (kw : Keywords) : OptimizationOptions :=
  let base := default default_options (kw_options kw) in
  {| requirements_spec :=
       _clone_requirements_spec
         (dict_or (kw_requirements_spec kw) (requirements_spec base));
     hass_subject := str_or (kw_hass_subject kw) (hass_subject base);
     max_schedules := default (max_schedules base) (kw_max_schedules kw);
     scoring := default (scoring base) (kw_scoring kw);
     min_seats_available :=
       default (min_seats_available base) (kw_min_seats_available kw);
     include_subjects :=
       match kw_include_subjects kw with
       | Some l => Some (list_to_set l)
       | None => include_subjects base
       end;
     exclude_subjects :=
       match kw_exclude_subjects kw with
       | Some l => Some (list_to_set l)
       | None => exclude_subjects base
       end;
     penalties := default (penalties base) (kw_penalties kw) |}.

(** ** Building the course tables *)

(** [d[key] = value] on a dictionary kept in insertion order. *)
Fixpoint dict_set {K V : Type} `{EqDecision K} (key : K) (value : V)
    (d : list (K * V)) : list (K * V) :=
  match d with
  | [] => [(key, value)]
  | (k, v) :: d' =>
      if decide (k = key) then (key, value) :: d'
      else (k, v) :: dict_set key value d'
  end.

Fixpoint dict_get {K V : Type} `{EqDecision K} (key : K) (d : list (K * V))
  : option V :=
  match d with
  | [] => None
  | (k, v) :: d' => if decide (k = key) then Some v else dict_get key d'
  end.

(** [courses_dict]: keys are the codes of the requirement spec; [None] until
    the first record of the course is seen.  [hass_dict]: in insertion
    order, keyed by whatever [subjectCourse] holds. *)
Record Tables : Type := {
  courses_dict : gmap string (option Course);
  hass_dict : list (option string * Course)
}.

Definition spec_codes (spec : list (string * list (list string))) : list string :=
  flat_map (λ '(_, groups), concat groups) spec.

Definition initial_tables (opts : OptimizationOptions) : Tables :=
  {| courses_dict :=
       list_to_map (map (λ code, (code, None)) (spec_codes (requirements_spec opts)));
     hass_dict := [] |}.

(** A frozenset option that is set and not empty. *)
Definition set_given (s : option (gset string)) : option (gset string) :=
  match s with
  | Some x => if bool_decide (x = ∅) then None else Some x
  | None => None
  end.

Definition in_subjects (subject : option string) (s : gset string) : bool :=
  match subject with
  | Some x => bool_decide (x ∈ s)
  | None => false
  end.

(** The two subject filters: the include set is checked first. *)
Definition subject_filtered (opts : OptimizationOptions)
    (subject : option string) : bool :=
  match set_given (include_subjects opts) with
  | Some s => negb (in_subjects subject s)
  | None => false
  end
  || match set_given (exclude_subjects opts) with
     | Some s => in_subjects subject s
     | None => false
     end.

(** [if subject_course in courses_dict: ...]. *)
Definition add_required (cd : gmap string (option Course))
    (subject_course title : option string) (credits : float)
    (section : RawSection) : result (gmap string (option Course)) :=
  match subject_course with
  | Some code =>
      match cd !! code with
      | Some slot =>
          let c := default (new_course subject_course title credits) slot in
          do c' <- add_section c section;
          Ok (<[code := Some c']> cd)
      | None => Ok cd
      end
  | None => Ok cd
  end.

(** [if subject == opts.hass_subject: ...]. *)
Definition add_hass (opts : OptimizationOptions)
    (hd : list (option string * Course))
    (subject subject_course title : option string) (credits : float)
    (section : RawSection) : result (list (option string * Course)) :=
  if bool_decide (subject = Some (hass_subject opts)) then
    let c := default (new_course subject_course title credits)
                     (dict_get subject_course hd) in
    do c' <- add_section c section;
    Ok (dict_set subject_course c' hd)
  else Ok hd.

(** The body of the loop over [courses_data]. *)
Definition add_record (opts : OptimizationOptions) (t : Tables)
    (section : RawSection) : result Tables :=
  match get_default (seatsAvailable section) 0 with
  | None => Raise TypeError                        (* None < int *)
  | Some seats =>
    if seats <? min_seats_available opts then Ok t
    else
      let subject_course := get (subjectCourse section) in
      let subject := get (subject section) in
      let title := get_default (courseTitle section) "" in
      do credits <- compute_section_credits section;
      if subject_filtered opts subject then Ok t
      else
        do cd <- add_required (courses_dict t) subject_course title credits
                              section;
        do hd <- add_hass opts (hass_dict t) subject subject_course title
                          credits section;
        Ok {| courses_dict := cd; hass_dict := hd |}
  end.

Definition build_tables (opts : OptimizationOptions)
    (courses_data : list RawSection) : result Tables :=
  rfold (add_record opts) (initial_tables opts) courses_data.

(** ** Requirement resolver *)

(** The loop over the codes of a group: [None] when a course is missing or
    has no sections. *)
Fixpoint concrete_group (cd : gmap string (option Course)) (group : list string)
  : option (list Course) :=
  match group with
  | [] => Some []
  | code :: rest =>
      match cd !! code with
      | Some (Some course) =>
          match sections course with
          | [] => None
          | _ :: _ => cons course <$> concrete_group cd rest
          end
      | _ => None
      end
  end.

Definition concrete_groups (cd : gmap string (option Course))
    (groups : list (list string)) : list (list Course) :=
  omap (concrete_group cd) groups.

Definition hass_groups (hd : list (option string * Course)) : list (list Course) :=
  map (λ c, [c]) (filter (λ c, sections c ≠ []) (map snd hd)).

(** The [requirements] dictionary, in insertion order. *)
Definition resolve_requirements (opts : OptimizationOptions) (t : Tables)
  : list (string * CourseRequirement) :=
  let requirements :=
    foldl (λ reqs '(name, groups),
             dict_set name
               {| subject_course_groups := concrete_groups (courses_dict t) groups |}
               reqs)
          [] (requirements_spec opts) in
  dict_set "hass_electives"
    {| subject_course_groups := hass_groups (hass_dict t) |} requirements.

(** The loop over [requirements.values()]: [None] is the early
    [return {}]. *)
Fixpoint course_combinations_from (combos : list (list Course))
    (reqs : list CourseRequirement) : option (list (list Course)) :=
  match reqs with
  | [] => Some combos
  | req :: rest =>
      match subject_course_groups req with
      | [] => None
      | groups =>
          course_combinations_from
            (flat_map (λ group, map (λ combo, combo ++ group) combos) groups)
            rest
      end
  end.

(** ** Ranking and output assembly *)

Record MeetingOut : Type := {
  out_day : string;
  out_begin_time : string;
  out_end_time : string
}.

Record SectionOut : Type := {
  out_crn : string;
  out_subject_course : option string;
  out_title : option string;
  out_meeting_times : list MeetingOut
}.

Record ScheduleOut : Type := {
  out_score : float;
  out_sections : list SectionOut
}.

Definition format_meeting (mt : MeetingTime) : MeetingOut :=
  {| out_day := DAY_NAMES_LONG (day mt);
     out_begin_time := minutes_to_hhmm (begin_time mt);
     out_end_time := minutes_to_hhmm (end_time mt) |}.

Definition format_section (sec : CSection) : SectionOut :=
  {| out_crn := crn sec;
     out_subject_course := label_subject_course (course sec);
     out_title := label_title (course sec);
     out_meeting_times := map format_meeting (meeting_times sec) |}.

Definition format_entry (entry : list CSection * float) : ScheduleOut :=
  {| out_score := snd entry;
     out_sections := map format_section (fst entry) |}.

(** [scored.sort(key=lambda x: x["score"], reverse=True)]. *)
Definition sort_by_score_desc {A : Type} (l : list (A * float))
  : list (A * float) :=
  list_sort_desc l.

(** [l[:n]]. *)
Definition slice_to {A : Type} (n : Z) (l : list A) : list A :=
  if n <? 0 then take (length l - Z.to_nat (- n)) l
  else take (Z.to_nat n) l.

(** [f"Schedule {i}"]. *)
Definition schedule_label (i : nat) : string := "Schedule " +:+ pretty i.

Definition assemble_output (top : list (list CSection * float))
  : list (string * ScheduleOut) :=
  imap (λ i entry, (schedule_label (S i), format_entry entry)) top.

(** ** The optimizer *)

(** The schedules the search finds over all course slates, in the order
    they are found; [None] is the early [return {}] of the course
    combination loop. *)
Definition find_valid_schedules (opts : OptimizationOptions) (t : Tables)
  : option (list (list CSection)) :=
  course_combinations ←
    course_combinations_from [[]] (map snd (resolve_requirements opts t));
  Some (flat_map (λ c, generate_section_combinations {| courses := c |})
                 course_combinations).

Definition score_schedules (opts : OptimizationOptions)
    (valid_schedules : list (list CSection)) : list (list CSection * float) :=
  map (λ s, (s, evaluate_schedule s (scoring opts) (Some (penalties opts))))
      valid_schedules.

Definition optimize_courses (courses_data : list RawSection) (kw : Keywords)
  : result (list (string * ScheduleOut)) :=
  let opts := _resolve_options kw in
  if max_schedules opts <=? 0
  then Raise (ValueError "max_schedules must be positive")
  else
    do t <- build_tables opts courses_data;
    match find_valid_schedules opts t with
    | None => Ok []
    | Some [] => Ok []
    | Some valid_schedules =>
        let scored := sort_by_score_desc (score_schedules opts valid_schedules) in
        Ok (assemble_output (slice_to (max_schedules opts) scored))
    end.

End Optimizer.

(** * Specification vocabulary

    The predicates the properties below are stated with. *)

Section Vocabulary.
Context `{RT : PyRuntime}.

(** ** Candidates of a slate *)

(** The slate's courses and the chosen sections go in step: one section of
    each course, in slate order. *)
Definition one_section_per_course (slate : list Course) (combo : list CSection)
  : Prop :=
  Forall2 (λ c s, s ∈ sections c) slate combo.

(** No two chosen sections have overlapping meeting times. *)
Definition conflict_free (combo : list CSection) : Prop :=
  ∀ i j s t, i ≠ j → combo !! i = Some s → combo !! j = Some t →
    ∀ m1 m2, m1 ∈ meeting_times s → m2 ∈ meeting_times t →
      overlaps_with m1 m2 = false.

(** [suf] extends [pre] one section at a time, each compatible with all
    the sections before it. *)
Fixpoint extends_free (pre suf : list CSection) : Prop :=
  match suf with
  | [] => True
  | s :: suf' =>
      (∀ e, e ∈ pre → conflicts_with s e = false)
      ∧ extends_free (pre ++ [s]) suf'
  end.

(** ** Meeting blocks and materialized sections *)

(** A time of a block is missing when the key is absent or null, or
    holds an empty value ([not begin]). *)
Definition time_missing (f : field jvalue) : Prop :=
  get f = None ∨ ∃ v, get f = Some v ∧ truthy v = false.

Definition time_string (f : field jvalue) (s : string) : Prop :=
  get f = Some (JStr s) ∧ s ≠ "".

(** A time string is in 24-hour [HHMM] form when it is what
    [minutes_to_hhmm] writes for a time of the day: two digits for the
    hour, below 24, and two for the minute, below 60. *)
Definition hhmm_form (s : string) : Prop :=
  ∃ minutes, 0 ≤ minutes < 1440 ∧ s = minutes_to_hhmm minutes.

(** The time of the block is a string that is not in [HHMM] form. *)
Definition time_malformed (f : field jvalue) : Prop :=
  ∃ s, time_string f s ∧ ¬ hhmm_form s.

(** The time of the block is a string that cannot be read: [int] raises
    [ValueError] on its first two characters or on the rest. *)
Definition time_unreadable (f : field jvalue) : Prop :=
  ∃ s, time_string f s
       ∧ (py_int (str_take2 s) = None ∨ py_int (str_drop2 s) = None).

(** The time of the block is a string that is read as [minutes]. *)
Definition time_read (f : field jvalue) (minutes : Z) : Prop :=
  ∃ s, time_string f s ∧ hhmm_to_minutes s = Some minutes.

Definition non_positive_duration (mt : RawMeetingTime) : Prop :=
  ∃ begin_minutes end_minutes,
    time_read (beginTime mt) begin_minutes
    ∧ time_read (endTime mt) end_minutes
    ∧ begin_minutes >= end_minutes.

(** The blocks that are skipped: a time is missing, the begin time cannot
    be read, the end time cannot be read behind a begin time that is a
    string, or the times are read and the begin is not before the end. *)
Definition invalid_block (faculty_block : option RawFacultyBlock) : Prop :=
  let mt := block_time_dict faculty_block in
  time_missing (beginTime mt) ∨ time_missing (endTime mt)
  ∨ time_unreadable (beginTime mt)
  ∨ ((∃ s, time_string (beginTime mt) s) ∧ time_unreadable (endTime mt))
  ∨ non_positive_duration mt.

(** Every time of the block that is not missing is a string. *)
Definition string_or_missing (f : field jvalue) : Prop :=
  time_missing f ∨ ∃ s, time_string f s.

Definition times_are_strings (faculty_block : option RawFacultyBlock) : Prop :=
  let mt := block_time_dict faculty_block in
  string_or_missing (beginTime mt) ∧ string_or_missing (endTime mt).

Definition positive_duration (mt : MeetingTime) : Prop :=
  begin_time mt < end_time mt.

(** What holds of every section that is materialized. *)
Definition valid_section (s : CSection) : Prop :=
  meeting_times s ≠ [] ∧ Forall positive_duration (meeting_times s).

Definition valid_course (c : Course) : Prop := Forall valid_section (sections c).

Definition valid_tables (t : Tables) : Prop :=
  (∀ code c, courses_dict t !! code = Some (Some c) → valid_course c)
  ∧ Forall (λ kc, valid_course (snd kc)) (hass_dict t).

(** ** Credit values *)

(** The number a JSON value is when [float] accepts it. *)
Definition numeric (v : jvalue) : option float :=
  match v with
  | JInt n => Some (float_of_int n)
  | JFloat x => Some x
  | JBool b => Some (float_of_int (if b then 1 else 0))
  | JStr s => float_of_str s
  | JList _ | JObject _ => None
  end.

(** The value is not an [int] that is too large for a [float]. *)
Definition fits_float (f : field jvalue) : Prop :=
  ∀ n, get f = Some (JInt n) → float_overflows n = false.

(** The explicit credit of a record: the [creditHours] field when it is
    present, numeric and not zero. *)
Definition explicit_credits (section : RawSection) : option float :=
  v ← get (creditHours section);
  x ← numeric v;
  if float_truth x then Some x else None.

(** The fallback value of one meeting block: a missing or non-numeric
    [creditHourSession] counts as 0. *)
Definition session_credits (meeting : option RawFacultyBlock) : float :=
  default (float_of_int 0)
          (get (creditHourSession (block_time_dict meeting)) ≫= numeric).

(** The block is null, or its [meetingTime] is absent or an object. *)
Definition meeting_time_not_null (meeting : option RawFacultyBlock) : Prop :=
  meetingTime (default empty_block meeting) ≠ Null.

(** The fallback value of the block can be read without an exception. *)
Definition session_readable (meeting : option RawFacultyBlock) : Prop :=
  meeting_time_not_null meeting
  ∧ fits_float (creditHourSession (block_time_dict meeting)).

(** ** Scores and their order *)

(** The deltas of the hooks that return, in the order of the hooks. *)
Definition hook_deltas (schedule : list CSection) (hooks : list penalty_hook)
  : list float :=
  omap (λ hook, hook schedule) hooks.

(** The score before the hooks are applied. *)
Definition base_score (schedule : list CSection) (weights : ScoringWeights)
  : float :=
  unrounded_score schedule weights None.

(** On the scores [ks], [<] is a strict weak order, as it is on floats
    that are not NaN: it is asymmetric, and "not less" is transitive. *)
Definition score_order_on (ks : list float) : Prop :=
  (∀ a b, a ∈ ks → b ∈ ks → fltb a b = true → fltb b a = false)
  ∧ (∀ a b c, a ∈ ks → b ∈ ks → c ∈ ks →
       fltb a b = false → fltb b c = false → fltb a c = false).

(** Two scores are tied. *)
Definition same_score (v x : float) : bool :=
  negb (fltb v x) && negb (fltb x v).

(** No score is less than a later one. *)
Definition non_increasing (l : list float) : Prop :=
  ∀ i j a b, (i < j)%nat → l !! i = Some a → l !! j = Some b →
    fltb a b = false.

Definition not_less {A : Type} (x y : A * float) : Prop := fltb (snd x) (snd y) = false.

Definition tied {A : Type} (v : float) : A * float → bool := λ x, same_score v (snd x).

(** ** Requirements on the normalized catalog *)

(** The candidates the search finds on the tables [t], none when a
    requirement cannot be fulfilled. *)
Definition candidates (opts : OptimizationOptions) (t : Tables)
  : list (list CSection) :=
  default [] (find_valid_schedules opts t).

(** No section of the course [code] survives: the course is not in the
    table, was never seen, or has no sections. *)
Definition unavailable (t : Tables) (code : string) : Prop :=
  ∀ c, courses_dict t !! code = Some (Some c) → sections c = [].

(** Every group of the requirement has an unavailable course. *)
Definition unsatisfiable (t : Tables) (groups : list (list string)) : Prop :=
  ∀ group, group ∈ groups → ∃ code, code ∈ group ∧ unavailable t code.

(** No course of the elective subject has a section. *)
Definition no_electives (t : Tables) : Prop :=
  ∀ key c, (key, c) ∈ hass_dict t → sections c = [].

(** ** Boolean tests, to run the premises on a concrete catalog *)

Definition is_ok {A : Type} (r : result A) : bool :=
  match r with Ok _ => true | Raise _ => false end.

Definition tables_of (kw : Keywords) (data : list RawSection) : Tables :=
  match build_tables (_resolve_options kw) data with
  | Ok t => t
  | Raise _ => initial_tables (_resolve_options kw)
  end.

Definition output_of (kw : Keywords) (data : list RawSection)
  : list (string * ScheduleOut) :=
  match optimize_courses data kw with
  | Ok out => out
  | Raise _ => []
  end.

(** The scores of the candidates of a run, in the order the candidates
    are found, and the scores of the output. *)
Definition scores_of (kw : Keywords) (data : list RawSection) : list float :=
  map snd (score_schedules (_resolve_options kw)
             (candidates (_resolve_options kw) (tables_of kw data))).

Definition output_scores (out : list (string * ScheduleOut)) : list float :=
  map (λ e, out_score (snd e)) out.

(** [score_order_on], run on the scores. *)
Definition score_order_test (ks : list float) : bool :=
  forallb (λ a,
    forallb (λ b,
      implb (fltb a b) (negb (fltb b a))
      && forallb (λ c,
           implb (negb (fltb a b) && negb (fltb b c)) (negb (fltb a c))) ks)
      ks) ks.

Definition has_no_sections (c : Course) : bool :=
  match sections c with [] => true | _ :: _ => false end.

Definition unavailable_test (t : Tables) (code : string) : bool :=
  match courses_dict t !! code with
  | Some (Some c) => has_no_sections c
  | _ => true
  end.

Definition no_electives_test (t : Tables) : bool :=
  forallb (λ kc, has_no_sections (snd kc)) (hass_dict t).

(** No time of the day is written as the string. *)
Definition not_hhmm_test (s : string) : bool :=
  forallb (λ minutes, negb (String.eqb s (minutes_to_hhmm minutes)))
          (seqZ 0 1440).

End Vocabulary.

(** ** A run time to run the model on: CPython on binary64 floats

    An instance of [PyRuntime] on which the definitions above can be run.
    A [float] is an IEEE 754 binary64 number, with the operations of the
    processor; the conversions round to the nearest float, ties to even,
    as CPython's do.  [statistics.mean] and [statistics.stdev] are those
    of Python 3.11 and later (the exact rational result, rounded once), and
    [sum] is that of Python 3.12 and later (Neumaier's compensated sum).
    Strings hold ASCII text; the limit Python 3.11 puts on the number of
    digits [int] reads (4300 by default) is not applied. *)

Module CPython.

Definition binary64 : Set := PrimFloat.float.

(** *** Floats *)

(** The float nearest to [m * 2^e]. *)
Definition of_mantissa (m e : Z) : binary64 :=
  FloatOps.SF2Prim (SpecFloat.binary_normalize FloatOps.prec FloatOps.emax m e false).

Definition of_Z (n : Z) : binary64 := of_mantissa n 0.

(** [float(n)] raises when the nearest float would be infinite. *)
Definition overflows (n : Z) : bool := PrimFloat.is_infinity (of_Z n).

(** The float nearest to [p / q], for [q > 0]: the quotient is cut after
    at least 64 bits and a last bit records whether anything was cut. *)
Definition of_ratio (p q : Z) : binary64 :=
  let a := Z.abs p in
  if (a =? 0) || (q <=? 0) then PrimFloat.zero
  else
    let s := Z.max 0 (66 + Z.log2 q - Z.log2 a) in
    let n := a * 2 ^ s in
    let sticky := if n mod q =? 0 then 0 else 1 in
    of_mantissa (Z.sgn p * (2 * (n / q) + sticky)) (- s - 1).

(** The float a decimal literal denotes. *)
Definition of_Q (x : Q) : binary64 := of_ratio (Qnum x) (Zpos (Qden x)).

Definition signed (negative : bool) (x : binary64) : binary64 :=
  if negative then PrimFloat.opp x else x.

Definition is_finite (x : binary64) : bool :=
  negb (PrimFloat.is_nan x) && negb (PrimFloat.is_infinity x).

(** [bool(x)]: zero is false, NaN is true. *)
Definition truth (x : binary64) : bool := negb (PrimFloat.eqb x PrimFloat.zero).

(** [a / b] rounded to the nearest integer, ties to even, for [b > 0]. *)
Definition div_half_even (a b : Z) : Z :=
  let q := a / b in
  match 2 * (a mod b) ?= b with
  | Lt => q
  | Gt => q + 1
  | Eq => if Z.even q then q else q + 1
  end.

(** [round(x, 2)]: the exact value of the float is rounded to two
    decimals, ties to even, and the decimal is read back as a float.
    Infinities, NaN and zeros round to themselves, as does a float that
    is an integer. *)
Definition py_round2 (x : binary64) : binary64 :=
  match FloatOps.Prim2SF x with
  | SpecFloat.S754_finite negative m e =>
      if 0 <=? e then x
      else
        signed negative
          (of_ratio (div_half_even (100 * Zpos m) (2 ^ (- e))) 100)
  | _ => x
  end.

(** The float nearest to the square root of [p / q], for [q > 0]. *)
Definition sqrt_ratio (p q : Z) : binary64 :=
  if (p <=? 0) || (q <=? 0) then PrimFloat.zero
  else
    let s := Z.max 0 (70 + (Z.log2 q - Z.log2 p + 1) / 2) in
    let n := p * 4 ^ s in
    let r := Z.sqrt (n / q) in
    let sticky := if r * r * q =? n then 0 else 1 in
    of_mantissa (2 * r + sticky) (- s - 1).

(** [statistics.mean] of [int]s, as a float. *)
Definition py_mean (l : list Z) : binary64 :=
  of_ratio (foldl Z.add 0 l) (Z.of_nat (length l)).

(** [statistics.stdev] of [int]s: the root of the sample variance. *)
Definition py_stdev (l : list Z) : binary64 :=
  let n := Z.of_nat (length l) in
  let s := foldl Z.add 0 l in
  let s2 := foldl Z.add 0 (map (λ x, x * x) l) in
  sqrt_ratio (n * s2 - s * s) (n * (n - 1)).

(** The body of the loop of [sum]: the running sum and the compensation
    of its rounding errors. *)
Definition sum_step (acc : binary64 * binary64) (x : binary64)
  : binary64 * binary64 :=
  let '(f, c) := acc in
  let t := PrimFloat.add f x in
  let c :=
    if PrimFloat.leb (PrimFloat.abs x) (PrimFloat.abs f)
    then PrimFloat.add c (PrimFloat.add (PrimFloat.sub f t) x)
    else PrimFloat.add c (PrimFloat.add (PrimFloat.sub x t) f) in
  (t, c).

Definition py_sum (l : list binary64) : binary64 :=
  let '(f, c) := foldl sum_step (PrimFloat.zero, PrimFloat.zero) l in
  if truth c && is_finite c then PrimFloat.add f c else f.

(** *** Strings *)

Definition is_space (c : ascii) : bool :=
  let n := nat_of_ascii c in
  ((9 <=? n) && (n <=? 13) || (28 <=? n) && (n <=? 32))%nat.

Fixpoint lstrip (s : string) : string :=
  match s with
  | String c s' => if is_space c then lstrip s' else s
  | EmptyString => s
  end.

Definition strip (s : string) : string :=
  String.rev (lstrip (String.rev (lstrip s))).

Definition digit_of (c : ascii) : option Z :=
  let n := Z.of_nat (nat_of_ascii c) in
  if (48 <=? n) && (n <=? 57) then Some (n - 48) else None.

(** The digits behind a first digit, single underscores between them:
    the value, the number of digits and what follows. *)
Fixpoint scan_digits (acc count : Z) (s : string) : Z * Z * string :=
  match s with
  | String "_" (String c s') =>
      match digit_of c with
      | Some d => scan_digits (acc * 10 + d) (count + 1) s'
      | None => (acc, count, s)
      end
  | String c s' =>
      match digit_of c with
      | Some d => scan_digits (acc * 10 + d) (count + 1) s'
      | None => (acc, count, s)
      end
  | EmptyString => (acc, count, s)
  end.

Definition scan_digitpart (s : string) : option (Z * Z * string) :=
  match s with
  | String c s' => d ← digit_of c; Some (scan_digits d 1 s')
  | EmptyString => None
  end.

(** A string that is digits and nothing else. *)
Definition read_digitpart (s : string) : option Z :=
  match scan_digitpart s with
  | Some (n, _, EmptyString) => Some n
  | _ => None
  end.

Definition read_signed (s : string) : option Z :=
  match s with
  | String "-" s' => Z.opp <$> read_digitpart s'
  | String "+" s' => read_digitpart s'
  | _ => read_digitpart s
  end.

(** [int(s)]: white space around an optional sign and digits. *)
Definition read_int (s : string) : option Z := read_signed (strip s).

Definition lower (c : ascii) : ascii :=
  let n := nat_of_ascii c in
  if ((65 <=? n) && (n <=? 90))%nat then ascii_of_nat (n + 32) else c.

Fixpoint lowered (s : string) : string :=
  match s with
  | EmptyString => EmptyString
  | String c s' => String (lower c) (lowered s')
  end.

(** [digitpart ["." [digitpart]]] or ["." digitpart]: the digits as one
    integer, the number of digits in all and behind the point, and what
    follows. *)
Definition scan_number (s : string) : option (Z * Z * Z * string) :=
  match scan_digitpart s with
  | Some (i, ni, String "." rest) =>
      match scan_digitpart rest with
      | Some (f, nf, rest') => Some (i * 10 ^ nf + f, ni + nf, nf, rest')
      | None => Some (i, ni, 0, rest)
      end
  | Some (i, ni, rest) => Some (i, ni, 0, rest)
  | None =>
      match s with
      | String "." rest =>
          '(f, nf, rest') ← scan_digitpart rest; Some (f, nf, nf, rest')
      | _ => None
      end
  end.

(** The exponent behind a number; none is 0. *)
Definition read_exponent (s : string) : option Z :=
  match s with
  | EmptyString => Some 0
  | String c s' => if bool_decide (lower c = "e"%char) then read_signed s' else None
  end.

(** The float nearest to [m * 10^x], for a numeral of [digits] digits. *)
Definition of_decimal (m digits x : Z) : binary64 :=
  if m =? 0 then PrimFloat.zero
  else if 310 <? x then PrimFloat.infinity
  else if x + digits <? -330 then PrimFloat.zero
  else if 0 <=? x then of_ratio (m * 10 ^ x) 1
  else of_ratio m (10 ^ (- x)).

Definition read_unsigned_float (s : string) : option binary64 :=
  if bool_decide (lowered s = "inf") || bool_decide (lowered s = "infinity")
  then Some PrimFloat.infinity
  else if bool_decide (lowered s = "nan") then Some PrimFloat.nan
  else
    '(m, digits, behind, rest) ← scan_number s;
    x ← read_exponent rest;
    Some (of_decimal m digits (x - behind)).

(** [float(s)]. *)
Definition read_float (s : string) : option binary64 :=
  match strip s with
  | String "-" s' => PrimFloat.opp <$> read_unsigned_float s'
  | String "+" s' => read_unsigned_float s'
  | s' => read_unsigned_float s'
  end.

(** *** Sorting

    A list that, read backwards, is one ascending run is left alone, as
    [list.sort] leaves it; any other list is sorted by insertion: an entry
    is placed behind the entries already sorted whose key is not less. *)

Section Sort.
Context {A K : Type} (lt : K → K → bool).
Implicit Types (x y : A * K) (l acc : list (A * K)).

Fixpoint has_ascent l : bool :=
  match l with
  | x :: (y :: _) as l' => lt (snd x) (snd y) || has_ascent l'
  | _ => false
  end.

Fixpoint insert_by_key x l : list (A * K) :=
  match l with
  | [] => [x]
  | y :: l' =>
      if lt (snd y) (snd x) then x :: y :: l'
      else y :: insert_by_key x l'
  end.

Definition insertion_sort_desc l : list (A * K) :=
  foldl (λ sorted x, insert_by_key x sorted) [] l.

Definition sort_desc l : list (A * K) :=
  if has_ascent l then insertion_sort_desc l else l.

Lemma has_ascent_false l : has_ascent l = false ↔ no_ascent lt l.
Proof.
  induction l as [|x [|y l] IH]; simpl.
  - split; [|done]. intros _ i x y Hi. by rewrite lookup_nil in Hi.
  - split; [|done]. intros _ i y z Hi Hj.
    destruct i; simpl in Hj; by rewrite ?lookup_nil in Hj.
  - rewrite orb_false_iff, IH. split.
    + intros [Hxy Hrest] [|i] a b Ha Hb; simpl in Ha, Hb.
      * by injection Ha as <-; injection Hb as <-.
      * by apply (Hrest i).
    + intros Hrun. split; [by apply (Hrun 0%nat)|].
      intros i a b Ha Hb. by apply (Hrun (S i)).
Qed.

Lemma filter_none (P : A * K → Prop) `{∀ x, Decision (P x)} l :
  Forall (λ x, ¬ P x) l → filter P l = [].
Proof.
  induction 1 as [|x l Hx _ IH]; [done|]. by rewrite filter_cons_False.
Qed.

Lemma insert_by_key_perm x l : insert_by_key x l ≡ₚ x :: l.
Proof.
  induction l as [|y l IH]; simpl; [done|].
  destruct (lt (snd y) (snd x)); [done|].
  by rewrite IH, Permutation_swap.
Qed.

Lemma sort_from_perm l : ∀ acc,
  foldl (λ sorted x, insert_by_key x sorted) acc l ≡ₚ acc ++ l.
Proof.
  induction l as [|x l IH]; intros acc; simpl.
  - by rewrite app_nil_r.
  - rewrite IH, insert_by_key_perm. simpl. apply Permutation_middle.
Qed.

Lemma insert_by_key_sorted ks x l :
  strict_weak_order_on lt ks → snd x ∈ ks → Forall (λ y, snd y ∈ ks) l →
  StronglySorted (key_not_less lt) l →
  StronglySorted (key_not_less lt) (insert_by_key x l).
Proof.
  intros [Hasym Htrans] Hx Hl Hsorted.
  induction Hsorted as [|y l Hsorted IH Hy]; simpl.
  - repeat constructor.
  - apply Forall_cons in Hl as [Hyk Hl].
    destruct (lt (snd y) (snd x)) eqn:Hyx.
    + constructor; [by constructor|].
      assert (key_not_less lt x y) as Hxy by (by apply Hasym).
      constructor; [done|].
      apply Forall_forall. intros z Hz.
      apply (Htrans _ (snd y)); [done..| |done|].
      * by apply (proj1 (Forall_forall _ _) Hl).
      * by apply (proj1 (Forall_forall _ _) Hy).
    + constructor; [by apply IH|].
      apply Forall_forall. intros z Hz.
      rewrite insert_by_key_perm in Hz.
      apply elem_of_cons in Hz as [->|Hz]; [done|].
      by apply (proj1 (Forall_forall _ _) Hy).
Qed.

(** Inserting keeps the order of the entries tied at a key: the new entry
    goes behind them. *)
Lemma insert_by_key_stable ks v x l :
  strict_weak_order_on lt ks → v ∈ ks → snd x ∈ ks →
  Forall (λ y, snd y ∈ ks) l →
  StronglySorted (key_not_less lt) l →
  filter (λ y, key_tied lt v y) (insert_by_key x l)
  = filter (λ y, key_tied lt v y) l ++ filter (λ y, key_tied lt v y) [x].
Proof.
  intros [Hasym Htrans] Hv Hx Hl Hsorted.
  induction Hsorted as [|y l Hsorted IH Hy]; simpl; [done|].
  apply Forall_cons in Hl as [Hyk Hl].
  destruct (lt (snd y) (snd x)) eqn:Hyx.
  - (* every entry of [y :: l] has a key less than that of [x] *)
    rewrite (filter_cons _ x). destruct (decide (key_tied lt v x)) as [Hvx|Hvx].
    + assert (filter (λ y, key_tied lt v y) (y :: l) = []) as ->.
      { apply filter_none, Forall_forall. intros z Hz Hvz.
        unfold key_tied in Hvx, Hvz.
        apply Is_true_true, andb_true_iff in Hvx as [Hvx1 Hvx2].
        apply Is_true_true, andb_true_iff in Hvz as [Hvz1 Hvz2].
        apply negb_true_iff in Hvx1, Hvx2, Hvz1, Hvz2.
        assert (snd z ∈ ks) as Hzk.
        { apply elem_of_cons in Hz as [->|Hz]; [done|].
          by apply (proj1 (Forall_forall _ _) Hl). }
        assert (lt (snd y) (snd z) = false) as Hyz.
        { apply elem_of_cons in Hz as [->|Hz].
          - destruct (lt (snd y) (snd y)) eqn:E; [|done].
            by rewrite (Hasym (snd y) (snd y)) in E.
          - by apply (proj1 (Forall_forall _ _) Hy). }
        assert (lt (snd z) (snd x) = false) as Hzx
          by (by apply (Htrans _ v)).
        assert (lt (snd y) (snd x) = false) as Hyx'
          by (by apply (Htrans _ (snd z))).
        congruence. }
      by rewrite (filter_cons_True _ x), filter_nil.
    + by rewrite (filter_cons_False _ x), filter_nil, app_nil_r.
  - rewrite !(filter_cons _ y), IH by done.
    by destruct (decide (key_tied lt v y)).
Qed.

(** The insertion sort, from a sorted accumulator. *)
Lemma sort_from_spec ks l : ∀ acc,
  strict_weak_order_on lt ks →
  Forall (λ y, snd y ∈ ks) acc → Forall (λ y, snd y ∈ ks) l →
  StronglySorted (key_not_less lt) acc →
  let sorted := foldl (λ sorted x, insert_by_key x sorted) acc l in
  StronglySorted (key_not_less lt) sorted
  ∧ ∀ v, v ∈ ks →
      filter (λ y, key_tied lt v y) sorted
      = filter (λ y, key_tied lt v y) acc ++ filter (λ y, key_tied lt v y) l.
Proof.
  induction l as [|x l IH]; intros acc Hks Hacc Hl Hsorted; simpl.
  - split; [done|]. intros v _. by rewrite filter_nil, app_nil_r.
  - apply Forall_cons in Hl as [Hx Hl].
    assert (Forall (λ y, snd y ∈ ks) (insert_by_key x acc)) as Hacc'.
    { apply Forall_forall. intros z Hz. rewrite insert_by_key_perm in Hz.
      apply elem_of_cons in Hz as [->|Hz]; [done|].
      by apply (proj1 (Forall_forall _ _) Hacc). }
    destruct (IH (insert_by_key x acc)) as [Hs Hst]; try done.
    { by eapply insert_by_key_sorted. }
    split; [done|]. intros v Hv.
    rewrite Hst by done.
    rewrite (insert_by_key_stable ks) by done.
    by rewrite <- app_assoc, <- filter_app.
Qed.

(** A run is sorted when "not less" is transitive on its keys. *)
Lemma no_ascent_sorted l :
  strict_weak_order_on lt (map snd l) → no_ascent lt l →
  StronglySorted (key_not_less lt) l.
Proof.
  induction l as [|x l IH]; intros [Hasym Htrans] Hrun; [constructor|].
  assert (StronglySorted (key_not_less lt) l) as Hsorted.
  { apply IH.
    - split.
      + intros a b Ha Hb. apply Hasym; by right.
      + intros a b c Ha Hb Hc. apply Htrans; by right.
    - intros i a b Ha Hb. by apply (Hrun (S i)). }
  constructor; [done|].
  destruct l as [|y l]; [constructor|].
  assert (key_not_less lt x y) as Hxy by (by apply (Hrun 0%nat)).
  constructor; [done|].
  apply StronglySorted_inv in Hsorted as [_ Hy].
  apply Forall_forall. intros z Hz.
  apply (Htrans _ (snd y)); simpl.
  - by left.
  - right; by left.
  - right; right. by apply list_elem_of_fmap_2.
  - done.
  - by apply (proj1 (Forall_forall _ _) Hy).
Qed.

Lemma sort_desc_contract_holds : sort_desc_contract lt sort_desc.
Proof.
  split; unfold sort_desc; intros l.
  - destruct (has_ascent l); [|done].
    unfold insertion_sort_desc. by rewrite sort_from_perm.
  - intros Hrun. by rewrite (proj2 (has_ascent_false l) Hrun).
  - intros Hks. destruct (has_ascent l) eqn:Hasc.
    + apply (sort_from_spec (map snd l)); try done.
      * apply Forall_forall. intros y Hy. by apply list_elem_of_fmap_2.
      * constructor.
    + split; [|done]. apply no_ascent_sorted; [done|].
      by apply has_ascent_false.
Qed.

End Sort.

Definition runtime : PyRuntime :=
  {| float := binary64;
     float_of_int := of_Z;
     float_overflows := overflows;
     float_of_str := read_float;
     float_lit := of_Q;
     fadd := PrimFloat.add;
     fsub := PrimFloat.sub;
     fmul := PrimFloat.mul;
     fltb := PrimFloat.ltb;
     float_truth := truth;
     neg_inf := PrimFloat.neg_infinity;
     round2 := py_round2;
     float_sum := py_sum;
     mean := py_mean;
     stdev := py_stdev;
     py_int := read_int;
     py_strip := strip;
     list_sort_desc := λ A, sort_desc PrimFloat.ltb;
     list_sort_desc_contract := λ A, sort_desc_contract_holds PrimFloat.ltb |}.

End CPython.

(** ** Example inputs *)

Section Inputs.
Import CPython.
Local Existing Instance runtime.

Definition flags (days : list weekday) : weekday → field bool :=
  λ d, if bool_decide (d ∈ days) then Val true else Val false.

Definition block (begin end_ : string) (days : list weekday)
    (session : field jvalue) : option RawFacultyBlock :=
  Some {| meetingTime :=
            Val {| beginTime := Val (JStr begin); endTime := Val (JStr end_);
                   day_flag := flags days;
                   creditHourSession := session |} |}.

(** A record with one meeting block. *)
Definition record (code subject crn begin end_ : string) (days : list weekday)
    (credit_hours session : field jvalue) : RawSection :=
  {| seatsAvailable := Val 5;
     subjectCourse := Val code;
     subject := Val subject;
     courseTitle := Val "Title";
     creditHours := credit_hours;
     courseReferenceNumber := Val crn;
     meetingsFaculty := Val [block begin end_ days session] |}.

(** One required course with one section, and two elective courses: the
    first section of the first elective overlaps the required course. *)
Definition demo_data : list RawSection :=
  [ record "CSCI1200" "CSCI" " 100 " "0900" "0950" [Mon] (Val (JInt 4)) Absent;
    record "INQR1100" "INQR" "200" "0930" "1020" [Mon] Null (Val (JInt 4));
    record "INQR1100" "INQR" "201" "0900" "0950" [Tue; Thu] Null (Val (JInt 4));
    record "INQR1200" "INQR" "202" "1000" "1050" [Mon; Wed; Fri]
           (Val (JInt 4)) Absent ].

Definition demo_keywords (spec : list (string * list (list string)))
    (max : Z) : Keywords :=
  {| kw_options := None; kw_requirements_spec := Some spec;
     kw_hass_subject := None; kw_max_schedules := Some max;
     kw_scoring := None; kw_min_seats_available := None;
     kw_include_subjects := None; kw_exclude_subjects := None;
     kw_penalties := None |}.

Definition cs_spec : list (string * list (list string)) :=
  [("cs_requirement", [["CSCI1200"]])].

(** The example of the specification: A1 on Monday 09:00-09:50, B1 on
    Monday 09:30-10:20, B2 on Tuesday 09:00-09:50. *)
Definition meeting (d : weekday) (b e : Z) : MeetingTime :=
  {| day := d; begin_time := b; end_time := e |}.

Definition section_of (code crn : string) (mts : list MeetingTime) : CSection :=
  {| meeting_times := mts;
     course := {| label_subject_course := Some code; label_title := Some "" |};
     crn := crn |}.

Definition A1 := section_of "A" "A1" [meeting Mon 540 590].
Definition B1 := section_of "B" "B1" [meeting Mon 570 620].
Definition B2 := section_of "B" "B2" [meeting Tue 540 590].

Definition course_of (code : string) (sects : list CSection) : Course :=
  {| subject_course := Some code; title := Some "";
     credits := float_of_int 4; sections := sects |}.

(** A good block followed by a block whose begin time, "9:30", [int]
    cannot read. *)
Definition mixed_record : RawSection :=
  {| seatsAvailable := Val 5; subjectCourse := Val "CSCI1200";
     subject := Val "CSCI"; courseTitle := Val "Title";
     creditHours := Val (JInt 4); courseReferenceNumber := Val "100";
     meetingsFaculty :=
       Val ([block "0900" "0950" [Mon; Thu] Absent]
            ++ block "9:30" "1020" [Tue] Absent :: []) |}.

(** A block whose times are not in [HHMM] form, though [int] reads their
    parts: 12 hours 3 minutes, and 99 hours 99 minutes. *)
Definition odd_times_block : option RawFacultyBlock :=
  block "123" "9999" [Mon] Absent.

(** A block whose begin time is the number 900, not the string. *)
Definition number_time_block : option RawFacultyBlock :=
  Some {| meetingTime :=
            Val {| beginTime := Val (JInt 900); endTime := Val (JStr "0950");
                   day_flag := flags [Mon]; creditHourSession := Absent |} |}.

(** [creditHours] is an integer of 401 digits. *)
Definition huge_credit_record : RawSection :=
  record "BIOL1015" "BIOL" "301" "1400" "1650" [Wed]
         (Val (JInt (10 ^ 400))) Absent.

(** [creditHours] is 0 and the meeting block carries 3 session hours. *)
Definition zero_credit_record : RawSection :=
  record "BIOL1015" "BIOL" "300" "1400" "1650" [Wed]
         (Val (JInt 0)) (Val (JInt 3)).

(** A record whose credits are not numeric, with a block of 4 session
    hours, a null block and a block without [meetingTime]. *)
Definition fallback_record : RawSection :=
  {| seatsAvailable := Val 5;
     subjectCourse := Val "MATH1020";
     subject := Val "MATH";
     courseTitle := Val "Title";
     creditHours := Val (JStr "TBA");
     courseReferenceNumber := Val "400";
     meetingsFaculty :=
       Val [ block "0800" "0950" [Tue; Fri] (Val (JInt 4));
             None;
             Some {| meetingTime := Absent |} ] |}.

Definition demo_kw : Keywords := demo_keywords cs_spec 1.

(** A required course and three elective courses of one section each:
    three candidates.  The hook gives the candidate with the second
    elective the score NaN; the first elective meets early and scores less
    than the third. *)
Definition nan_data : list RawSection :=
  [ record "CSCI1200" "CSCI" "100" "0900" "0950" [Mon] (Val (JInt 4)) Absent;
    record "INQR1100" "INQR" "200" "0800" "0850" [Tue] (Val (JInt 4)) Absent;
    record "INQR1200" "INQR" "201" "1200" "1250" [Wed] (Val (JInt 4)) Absent;
    record "INQR1300" "INQR" "202" "1200" "1250" [Thu] (Val (JInt 4)) Absent ].

Definition nan_hook : penalty_hook :=
  λ schedule,
    if existsb (λ s, String.eqb (crn s) "201") schedule
    then Some PrimFloat.nan
    else Some (float_of_int 0).

Definition nan_kw : Keywords :=
  {| kw_options := None; kw_requirements_spec := Some cs_spec;
     kw_hass_subject := None; kw_max_schedules := Some 5;
     kw_scoring := None; kw_min_seats_available := None;
     kw_include_subjects := None; kw_exclude_subjects := None;
     kw_penalties := Some [nan_hook] |}.

(** A [max_schedules] that is not positive is refused before the catalog
    is read: the record below has a null [seatsAvailable], on which
    normalization would raise [TypeError]. *)
Definition null_seats_record : RawSection :=
  {| seatsAvailable := Null; subjectCourse := Val "CSCI1200";
     subject := Val "CSCI"; courseTitle := Val "Title";
     creditHours := Val (JInt 4); courseReferenceNumber := Val "100";
     meetingsFaculty := Val [] |}.

Definition math_spec : list (string * list (list string)) :=
  [("cs_requirement", [["CSCI1200"]]);
   ("math_requirement", [["MATH1020"]; ["MATH1010"; "CSCI1200"]])].

(** The catalog without the elective records. *)
Definition required_only_data : list RawSection := take 1 demo_data.

End Inputs.

(** * Further vocabulary *)

Section Coverage.
Context `{RT : PyRuntime}.

(** The number of ways to pick one section per course of a slate. *)
Definition section_product (slate : list Course) : nat :=
  foldr (λ c n, (length (sections c) * n)%nat) 1%nat slate.

(** No section of a course of the slate conflicts with a section of a
    later course of the slate. *)
Fixpoint pairwise_compatible (slate : list Course) : Prop :=
  match slate with
  | [] => True
  | c :: rest =>
      (∀ c' s s', c' ∈ rest → s ∈ sections c → s' ∈ sections c' →
         conflicts_with s' s = false)
      ∧ pairwise_compatible rest
  end.

(** One group of each requirement, in the order of the requirements. *)
Definition one_group_per_requirement (reqs : list CourseRequirement)
    (choice : list (list Course)) : Prop :=
  Forall2 (λ req group, group ∈ subject_course_groups req) reqs choice.

Definition group_product (reqs : list CourseRequirement) : nat :=
  foldr (λ req n, (length (subject_course_groups req) * n)%nat) 1%nat reqs.

(** The course slates of a run: [None] is the early [return {}]. *)
Definition course_slates (opts : OptimizationOptions) (t : Tables)
  : option (list (list Course)) :=
  course_combinations_from [[]] (map snd (resolve_requirements opts t)).

(** Every section of the course refers back to the course. *)
Definition labelled (c : Course) : Prop :=
  Forall (λ s, course s = course_label c) (sections c).

(** The keys of the course tables agree with what is stored under them. *)
Definition consistent_tables (opts : OptimizationOptions) (t : Tables) : Prop :=
  dom (courses_dict t) = list_to_set (spec_codes (requirements_spec opts))
  ∧ (∀ code c, courses_dict t !! code = Some (Some c) →
       subject_course c = Some code ∧ labelled c)
  ∧ NoDup (map fst (hass_dict t))
  ∧ Forall (λ kc, subject_course (snd kc) = fst kc ∧ labelled (snd kc))
           (hass_dict t).

(** The record is below the seat threshold of the options; a record
    without [seatsAvailable] counts as having no seat. *)
Definition below_seat_threshold (opts : OptimizationOptions)
    (section : RawSection) : Prop :=
  ∃ seats, get_default (seatsAvailable section) 0 = Some seats
           ∧ seats < min_seats_available opts.

(** The weights with another rate for early and late meetings. *)
Definition with_early_late_rate (weights : ScoringWeights) (rate : float)
  : ScoringWeights :=
  {| early_class_threshold := early_class_threshold weights;
     late_class_threshold := late_class_threshold weights;
     early_late_penalty_per_min := rate;
     active_day_ideal_range := active_day_ideal_range weights;
     active_day_bonus := active_day_bonus weights;
     active_day_penalty_per_day := active_day_penalty_per_day weights;
     distribution_weight := distribution_weight weights;
     idle_time_penalty := idle_time_penalty weights;
     span_penalty := span_penalty weights |}.

(** The meeting is neither early nor late. *)
Definition within_thresholds (weights : ScoringWeights) (mt : MeetingTime)
  : Prop :=
  early_class_threshold weights ≤ begin_time mt
  ∧ end_time mt ≤ late_class_threshold weights.

(** A call with an options object and no other keyword. *)
Definition options_only (options : OptimizationOptions) : Keywords :=
  {| kw_options := Some options; kw_requirements_spec := None;
     kw_hass_subject := None; kw_max_schedules := None;
     kw_scoring := None; kw_min_seats_available := None;
     kw_include_subjects := None; kw_exclude_subjects := None;
     kw_penalties := None |}.

(** [int] reads the two-digit numerals [f"{n:02d}"] writes. *)
Definition int_reads_two_digits : Prop :=
  ∀ n, 0 ≤ n < 100 → py_int (format_02d n) = Some n.

(** The day flag of the block is set. *)
Definition flagged (mt : RawMeetingTime) (d : weekday) : Prop :=
  get (day_flag mt d) = Some true.

#[global] Instance flagged_dec mt d : Decision (flagged mt d).
Proof. unfold flagged. apply _. Defined.

End Coverage.

(** * Calendar export: [backend/scraper/ics_gen.py]

    The functions of the exporter that decide something: reading the day
    names and time strings of the optimizer's output, and projecting a
    weekday into the term.  A [date] is its proleptic Gregorian ordinal
    ([date.toordinal()]); strings are ASCII text. *)

Section Calendar.
Context `{RT : PyRuntime}.

Definition DAY_NAME_TO_INDEX : gmap string Z :=
  list_to_map
    [ ("monday", 0); ("tuesday", 1); ("wednesday", 2); ("thursday", 3);
      ("friday", 4); ("saturday", 5); ("sunday", 6) ].

Definition INDEX_TO_RRULE_DAY : list string :=
  ["MO"; "TU"; "WE"; "TH"; "FR"; "SA"; "SU"].

(** [s.lower()]. *)
Definition char_lower (c : ascii) : ascii :=
  let n := nat_of_ascii c in
  if ((65 <=? n) && (n <=? 90))%nat then ascii_of_nat (n + 32) else c.

Fixpoint str_lower (s : string) : string :=
  match s with
  | EmptyString => EmptyString
  | String c s' => String (char_lower c) (str_lower s')
  end.

(** [s.isdigit()]: not empty, and digits only. *)
Definition char_isdigit (c : ascii) : bool :=
  let n := nat_of_ascii c in ((48 <=? n) && (n <=? 57))%nat.

Fixpoint all_digits (s : string) : bool :=
  match s with
  | EmptyString => true
  | String c s' => char_isdigit c && all_digits s'
  end.

Definition str_isdigit (s : string) : bool :=
  negb (bool_decide (s = "")) && all_digits s.

(** [datetime.time(hour, minute)]. *)
Record PyTime : Type := {
  hour : Z;
  minute : Z
}.

Definition make_time (hour minute : Z) : result PyTime :=
  if negb ((0 <=? hour) && (hour <=? 23))
  then Raise (ValueError "hour must be in 0..23")
  else if negb ((0 <=? minute) && (minute <=? 59))
  then Raise (ValueError "minute must be in 0..59")
  else Ok {| hour := hour; minute := minute |}.

(** [int(s)], raising. *)
Definition int_of_str (s : string) : result Z :=
  match py_int s with
  | Some n => Ok n
  | None =>
      Raise (ValueError ("invalid literal for int() with base 10: '"
                         +:+ s +:+ "'"))
  end.

Definition parse_hhmm (hhmm : string) : result PyTime :=
  let hhmm := py_strip hhmm in
  if negb (String.length hhmm =? 4)%nat || negb (str_isdigit hhmm)
  then Raise (ValueError ("Invalid time format: " +:+ hhmm))
  else
    do h <- int_of_str (str_take2 hhmm);
    do m <- int_of_str (str_drop2 hhmm);
    make_time h m.

(** [INDEX_TO_RRULE_DAY[index]] for an index of [DAY_NAME_TO_INDEX]. *)
Definition sanitize_day (day_name : string) : result (Z * string) :=
  match DAY_NAME_TO_INDEX !! str_lower (py_strip day_name) with
  | None => Raise (ValueError ("Unknown day name: " +:+ day_name))
  | Some index =>
      Ok (index, default "" (INDEX_TO_RRULE_DAY !! Z.to_nat index))
  end.

(** [date.min] and [date.max], as ordinals. *)
Definition DATE_MIN : Z := 1.
Definition DATE_MAX : Z := 3652059.

(** [d.weekday()]: Monday is 0. *)
Definition weekday_of (d : Z) : Z := (d + 6) mod 7.

(** [d + timedelta(days=n)]: [None] is [OverflowError]. *)
Definition date_add (d n : Z) : option Z :=
  let r := d + n in
  if (DATE_MIN <=? r) && (r <=? DATE_MAX) then Some r else None.

Definition next_weekday_on_or_after (start target_weekday : Z) : option Z :=
  let delta := (target_weekday - weekday_of start) mod 7 in
  date_add start delta.

Definition last_weekday_on_or_before (end_ target_weekday : Z) : option Z :=
  let delta := (weekday_of end_ - target_weekday) mod 7 in
  date_add end_ (- delta).

(** [first_date] and [last_date] of [build_event_lines]: the first
    occurrence of the event and the date its recurrence runs until. *)
Definition event_first_last (term_start term_end weekday_index : Z)
  : option (Z * Z) :=
  first_date ← next_weekday_on_or_after term_start weekday_index;
  last_date ← last_weekday_on_or_before term_end weekday_index;
  let last_date := if last_date <? first_date then first_date else last_date in
  Some (first_date, last_date).

(** The metadata [load_section_metadata] keeps for a CRN. *)
Record SectionMeta : Type := {
  start_date : option Z;
  end_date : option Z;
  location : option string
}.

(** The CRNs of the sections of the schedules; an empty CRN is left
    out. *)
Definition scheduled_crns (schedules : list (string * ScheduleOut))
  : gset string :=
  list_to_set
    (filter (λ crn, crn ≠ "")
       (flat_map (λ kv, map out_crn (out_sections (snd kv))) schedules)).

Definition derive_term_bounds (schedules : list (string * ScheduleOut))
    (metadata : list (string * SectionMeta)) : option Z * option Z :=
  let crns := scheduled_crns schedules in
  let starts :=
    omap (λ '(crn, meta),
            if bool_decide (crn ∈ crns) then start_date meta else None)
         metadata in
  let ends :=
    omap (λ '(crn, meta),
            if bool_decide (crn ∈ crns) then end_date meta else None)
         metadata in
  (match starts with [] => None | _ :: _ => Some (min_of starts) end,
   match ends with [] => None | _ :: _ => Some (max_of ends) end).

(** [strip] leaves a string of digits, and the day names of the
    optimizer's output, as they are. *)
Definition strip_keeps_digits : Prop :=
  ∀ s, str_isdigit s = true → py_strip s = s.

Definition strip_keeps_day_names : Prop :=
  ∀ d, py_strip (DAY_NAMES_LONG d) = DAY_NAMES_LONG d.

(** The date is one on which the target weekday falls. *)
Definition falls_on (target_weekday d : Z) : Prop :=
  weekday_of d = target_weekday mod 7.

(** The weekday falls on a date of the term. *)
Definition occurs_in_term (term_start term_end target_weekday : Z) : Prop :=
  ∃ d, term_start ≤ d ≤ term_end ∧ falls_on target_weekday d.

(** The metadata entry is that of a scheduled section. *)
Definition scheduled_meta (schedules : list (string * ScheduleOut))
    (metadata : list (string * SectionMeta)) (meta : SectionMeta) : Prop :=
  ∃ crn, (crn, meta) ∈ metadata ∧ crn ∈ scheduled_crns schedules.

End Calendar.

(** ** Further example inputs *)

Section MoreInputs.
Import CPython.
Local Existing Instance runtime.

Definition B3 := section_of "B" "B3" [meeting Wed 540 590].

(** A section at noon, neither early nor late, and a section of another
    course that meets at the same time as [A1]. *)
Definition C1 := section_of "C" "C1" [meeting Wed 720 770].
Definition Z9 := section_of "Z" "Z9" [meeting Mon 540 590].

(** A record of the elective subject without a seat left. *)
Definition sold_out_record : RawSection :=
  {| seatsAvailable := Val 0; subjectCourse := Val "INQR1300";
     subject := Val "INQR"; courseTitle := Val "Title";
     creditHours := Val (JInt 4); courseReferenceNumber := Val "203";
     meetingsFaculty := Val [block "1200" "1250" [Tue] Absent] |}.

Definition demo_kw5 : Keywords := demo_keywords cs_spec 5.

(** The course slates of a run on a catalog that normalizes. *)
Definition slates_of (kw : Keywords) (data : list RawSection)
  : list (list Course) :=
  default [] (course_slates (_resolve_options kw) (tables_of kw data)).

(** Thursday 1 January 2026 and Saturday 2 May 2026. *)
Definition jan_1_2026 : Z := 739617.
Definition may_2_2026 : Z := 739738.

End MoreInputs.

(** * Properties *)

Section TimeIntervals.

Lemma overlaps_with_sym a b : overlaps_with a b = overlaps_with b a.
Proof.
  unfold overlaps_with.
  destruct (decide (day a = day b)) as [Hd|Hd].
  - rewrite !bool_decide_eq_false_2 by (rewrite Hd; tauto || tauto).
    destruct (Z.leb_spec (end_time a) (begin_time b)),
             (Z.geb_spec (begin_time a) (end_time b)),
             (Z.leb_spec (end_time b) (begin_time a)),
             (Z.geb_spec (begin_time b) (end_time a)); simpl; auto; lia.
  - rewrite !bool_decide_eq_true_2; auto.
Qed.

(** C2: [overlaps_with] is symmetric, it is false when the days differ, and
    two meetings of one day that touch at an endpoint do not conflict. *)
Theorem overlaps_with_symmetric_halfopen :
  (∀ a b, overlaps_with a b = overlaps_with b a)
  ∧ (∀ a b, day a ≠ day b → overlaps_with a b = false)
  ∧ (∀ a b, day a = day b →
       end_time a = begin_time b ∨ end_time b = begin_time a →
       overlaps_with a b = false).
Proof.
  split; [|split]; unfold overlaps_with.
  - apply overlaps_with_sym.
  - intros a b Hd. by rewrite bool_decide_eq_true_2.
  - intros a b Hd Htouch.
    rewrite bool_decide_eq_false_2 by tauto.
    destruct (Z.leb_spec (end_time a) (begin_time b)),
             (Z.geb_spec (begin_time a) (end_time b)); simpl; auto; lia.
Qed.

End TimeIntervals.

(** ** Combination search engine *)

Section SearchEngine.
Context `{RT : PyRuntime}.

Lemma conflicts_with_false s t :
  conflicts_with s t = false ↔
  ∀ m1 m2, m1 ∈ meeting_times s → m2 ∈ meeting_times t →
    overlaps_with m1 m2 = false.
Proof.
  unfold conflicts_with. split.
  - intros H m1 m2 H1 H2.
    destruct (overlaps_with m1 m2) eqn:E; [|done].
    assert (existsb (λ mt1, existsb (λ mt2, overlaps_with mt1 mt2)
                               (meeting_times t)) (meeting_times s) = true)
      as Ht; [|congruence].
    apply existsb_exists. exists m1. split; [by apply list_elem_of_In|].
    apply existsb_exists. exists m2. split; [by apply list_elem_of_In|done].
  - intros H. apply not_true_is_false. intros Ht.
    apply existsb_exists in Ht as (m1 & H1 & Ht).
    apply existsb_exists in Ht as (m2 & H2 & Ht).
    rewrite (H m1 m2) in Ht by (by apply list_elem_of_In). done.
Qed.

Lemma conflicts_with_sym s t : conflicts_with s t = conflicts_with t s.
Proof.
  destruct (conflicts_with t s) eqn:E.
  - apply existsb_exists in E as (m1 & H1 & E).
    apply existsb_exists in E as (m2 & H2 & E).
    apply existsb_exists. exists m2. split; [done|].
    apply existsb_exists. exists m1. split; [done|].
    by rewrite overlaps_with_sym.
  - apply conflicts_with_false. intros m1 m2 H1 H2.
    rewrite overlaps_with_sym.
    by apply (proj1 (conflicts_with_false t s) E).
Qed.

(** A section is compatible with a partial schedule when it conflicts with
    none of its members: the test of the inner loop. *)
Lemma compatible_spec sect combo :
  forallb (λ existing, negb (conflicts_with sect existing)) combo = true ↔
  ∀ e, e ∈ combo → conflicts_with sect e = false.
Proof.
  rewrite forallb_forall. split.
  - intros H e He. apply negb_true_iff, H. by apply list_elem_of_In.
  - intros H e He. apply negb_true_iff, H. by apply list_elem_of_In.
Qed.

Lemma elem_of_extend_combos x sects combos :
  x ∈ extend_combos sects combos ↔
  ∃ sect combo, x = combo ++ [sect] ∧ sect ∈ sects ∧ combo ∈ combos
                ∧ ∀ e, e ∈ combo → conflicts_with sect e = false.
Proof.
  unfold extend_combos. rewrite list_elem_of_In, in_flat_map. split.
  - intros (sect & Hs & Hx). apply in_flat_map in Hx as (combo & Hc & Hx).
    destruct (forallb _ combo) eqn:E; [|by destruct Hx].
    destruct Hx as [<-|[]]. exists sect, combo.
    rewrite !list_elem_of_In. split_and!; try done.
    by apply compatible_spec.
  - intros (sect & combo & -> & Hs & Hc & Hfree).
    exists sect. split; [by apply list_elem_of_In|].
    apply in_flat_map. exists combo. split; [by apply list_elem_of_In|].
    apply compatible_spec in Hfree. rewrite Hfree. by left.
Qed.

Lemma extend_combos_nil sects : extend_combos sects [] = [].
Proof. unfold extend_combos. by induction sects. Qed.

Lemma section_combinations_from_nil remaining :
  section_combinations_from [] remaining = [].
Proof.
  destruct remaining as [|c rest]; simpl; [done|].
  destruct (sections c); [done|]. by rewrite extend_combos_nil.
Qed.

Lemma elem_of_section_combinations_from remaining : ∀ combos combo,
  combo ∈ section_combinations_from combos remaining ↔
  ∃ pre suf, combo = pre ++ suf ∧ pre ∈ combos
             ∧ one_section_per_course remaining suf
             ∧ extends_free pre suf.
Proof.
  unfold one_section_per_course.
  induction remaining as [|course rest IH]; intros combos combo; simpl.
  - split.
    + intros H. exists combo, []. rewrite app_nil_r. split_and!; simpl; auto.
    + intros (pre & suf & -> & Hpre & Hsuf & _).
      apply Forall2_nil_inv_l in Hsuf as ->. by rewrite app_nil_r.
  - assert (combo ∈ section_combinations_from
                      (extend_combos (sections course) combos) rest ↔
            ∃ pre suf, combo = pre ++ suf ∧ pre ∈ combos
              ∧ Forall2 (λ c s, s ∈ sections c) (course :: rest) suf
              ∧ extends_free pre suf) as Hstep.
    { rewrite IH. split.
      - intros (pre' & suf' & -> & Hpre' & Hsuf' & Hfree').
        apply elem_of_extend_combos in Hpre'
          as (sect & pre & -> & Hs & Hpre & Hfree).
        exists pre, (sect :: suf'). rewrite <- app_assoc. simpl.
        split_and!; auto.
      - intros (pre & suf & -> & Hpre & Hsuf & Hfree).
        apply Forall2_cons_inv_l in Hsuf as (sect & suf' & Hs & Hsuf' & ->).
        destruct Hfree as [Hfree Hfree'].
        exists (pre ++ [sect]), suf'. rewrite <- app_assoc. simpl.
        split_and!; auto.
        apply elem_of_extend_combos. by exists sect, pre. }
    destruct (sections course) as [|s0 ss] eqn:Hsects.
    + split; [by intros ?%elem_of_nil|].
      intros (pre & suf & -> & Hpre & Hsuf & _).
      apply Forall2_cons_inv_l in Hsuf as (sect & suf' & Hs & _ & ->).
      rewrite Hsects in Hs. by apply elem_of_nil in Hs.
    + destruct (extend_combos (s0 :: ss) combos) as [|n ns] eqn:Hnew.
      * by rewrite <- Hstep, section_combinations_from_nil.
      * done.
Qed.

Lemma extends_free_nil_conflict_free pre suf :
  conflict_free pre → extends_free pre suf → conflict_free (pre ++ suf).
Proof.
  revert pre. induction suf as [|s suf IH]; intros pre Hpre Hext.
  - by rewrite app_nil_r.
  - destruct Hext as [Hs Hext].
    replace (pre ++ s :: suf) with ((pre ++ [s]) ++ suf)
      by (by rewrite <- app_assoc).
    apply IH; [|done].
    intros i j a b Hij Ha Hb m1 m2 H1 H2.
    assert (∀ k x y, k < length pre → (pre ++ [s]) !! k = Some x →
              (pre ++ [s]) !! length pre = Some y → y = s ∧ x ∈ pre)%nat
      as Hsplit.
    { intros k x y Hk Hx Hy. rewrite lookup_app_l in Hx by done.
      rewrite lookup_app_r, Nat.sub_diag in Hy by done.
      split; [by inversion Hy|]. by eapply list_elem_of_lookup_2. }
    assert (i < length (pre ++ [s]) ∧ j < length (pre ++ [s]))%nat as [Hi Hj]
      by (split; eapply lookup_lt_Some; eauto).
    rewrite length_app in Hi, Hj. simpl in Hi, Hj.
    destruct (decide (i < length pre)%nat) as [Hi'|Hi'],
             (decide (j < length pre)%nat) as [Hj'|Hj'].
    + rewrite lookup_app_l in Ha, Hb by done. by eapply (Hpre i j).
    + assert (j = length pre) as -> by lia.
      destruct (Hsplit i a b Hi' Ha Hb) as [-> Hin].
      rewrite overlaps_with_sym.
      by apply (proj1 (conflicts_with_false s a) (Hs a Hin)).
    + assert (i = length pre) as -> by lia.
      destruct (Hsplit j b a Hj' Hb Ha) as [-> Hin].
      by apply (proj1 (conflicts_with_false s b) (Hs b Hin)).
    + lia.
Qed.

Lemma conflict_free_extends_free pre suf :
  conflict_free (pre ++ suf) → extends_free pre suf.
Proof.
  revert pre. induction suf as [|s suf IH]; intros pre Hfree; simpl; [done|].
  split.
  - intros e [k Hk]%list_elem_of_lookup.
    apply conflicts_with_false. intros m1 m2 H1 H2.
    assert (k < length pre)%nat as Hlt by (by eapply lookup_lt_Some).
    apply (Hfree (length pre) k s e); auto; [lia| |].
    + by rewrite lookup_app_r, Nat.sub_diag.
    + by rewrite lookup_app_l.
  - apply IH. by rewrite <- app_assoc.
Qed.

Lemma no_sections_no_combinations remaining : ∀ combos,
  (∃ c, c ∈ remaining ∧ sections c = []) →
  section_combinations_from combos remaining = [].
Proof.
  induction remaining as [|course rest IH]; intros combos (c & Hc & Hnone).
  - by apply elem_of_nil in Hc.
  - simpl. destruct (sections course) as [|s0 ss] eqn:Hsects; [done|].
    destruct (extend_combos (s0 :: ss) combos) as [|n ns]; [done|].
    apply IH. exists c. split; [|done].
    apply elem_of_cons in Hc as [->|Hc]; [congruence|done].
Qed.

(** C1: the candidates of a slate are exactly the lists that pick one
    section per course, in slate order, of which no two have overlapping
    meeting times; a slate with a course that has no sections has no
    candidate. *)
Theorem generate_section_combinations_exact (self : CourseCombo) :
  (∀ combo,
     combo ∈ generate_section_combinations self ↔
     one_section_per_course (courses self) combo ∧ conflict_free combo)
  ∧ ((∃ c, c ∈ courses self ∧ sections c = []) →
     generate_section_combinations self = []).
Proof.
  unfold generate_section_combinations. split.
  - intros combo. rewrite elem_of_section_combinations_from. split.
    + intros (pre & suf & -> & ->%list_elem_of_singleton & Hsuf & Hext).
      split; [done|].
      apply extends_free_nil_conflict_free; [|done].
      intros i j s t _ Hi. by rewrite lookup_nil in Hi.
    + intros [Hone Hfree]. exists [], combo.
      split_and!; [done|by apply list_elem_of_singleton|done|].
      by apply conflict_free_extends_free.
  - apply no_sections_no_combinations.
Qed.

End SearchEngine.

(** ** Catalog normalizer *)

Section Normalizer.
Context `{RT : PyRuntime}.

Lemma hhmm_to_minutes_None s :
  hhmm_to_minutes s = None
  ↔ py_int (str_take2 s) = None ∨ py_int (str_drop2 s) = None.
Proof.
  unfold hhmm_to_minutes.
  destruct (py_int (str_take2 s)), (py_int (str_drop2 s)); simpl;
    split; try done; try (by intros [|]); by (intros _; (by left) || by right).
Qed.

Lemma time_string_truthy f s v :
  time_string f s → get f = Some v → v = JStr s ∧ truthy v = true.
Proof.
  intros [Hs Hne] Hv. rewrite Hs in Hv. injection Hv as <-.
  split; [done|]. simpl. by rewrite bool_decide_eq_false_2.
Qed.

Lemma time_missing_falsy f v :
  time_missing f → get f = Some v → truthy v = false.
Proof. intros [Hf|(w & Hw & Hfalse)] Hv; congruence. Qed.

Lemma invalid_block_skipped b :
  invalid_block b → block_meeting_times b = Ok [].
Proof.
  unfold invalid_block, block_meeting_times.
  generalize (block_time_dict b). intros mt H.
  destruct (get (beginTime mt)) as [bv|] eqn:Eb; [|done].
  destruct (get (endTime mt)) as [ev|] eqn:Ee; [|done].
  destruct H as [Hm|[Hm|H]].
  { by rewrite (time_missing_falsy _ _ Hm Eb). }
  { rewrite (time_missing_falsy _ _ Hm Ee). by destruct (truthy bv). }
  destruct (truthy bv) eqn:Hbv; [|done].
  destruct (truthy ev) eqn:Hev; [|done]. simpl.
  destruct H as [Hu|[[[s Hs] Hu]|Hn]].
  - destruct Hu as (s & Hs & Hnone).
    destruct (time_string_truthy _ _ _ Hs Eb) as [-> _]. simpl.
    apply hhmm_to_minutes_None in Hnone. by rewrite Hnone.
  - destruct (time_string_truthy _ _ _ Hs Eb) as [-> _]. simpl.
    destruct (hhmm_to_minutes s); [|done].
    destruct Hu as (e & He & Hnone).
    destruct (time_string_truthy _ _ _ He Ee) as [-> _]. simpl.
    apply hhmm_to_minutes_None in Hnone. by rewrite Hnone.
  - destruct Hn as (bm & em & (s & Hs & Hbm) & (e & He & Hem) & Hge).
    destruct (time_string_truthy _ _ _ Hs Eb) as [-> _].
    destruct (time_string_truthy _ _ _ He Ee) as [-> _]. simpl.
    rewrite Hbm, Hem.
    destruct (Z.geb_spec bm em); [done|lia].
Qed.

(** A block whose times are strings, as far as it has them, raises
    nothing. *)
Lemma block_meeting_times_total b :
  times_are_strings b → ∃ mts, block_meeting_times b = Ok mts.
Proof.
  unfold times_are_strings, block_meeting_times.
  generalize (block_time_dict b). intros mt [Hb He].
  destruct (get (beginTime mt)) as [bv|] eqn:Eb; [|by eexists].
  destruct (get (endTime mt)) as [ev|] eqn:Ee; [|by eexists].
  destruct Hb as [Hm|[s Hs]].
  { rewrite (time_missing_falsy _ _ Hm Eb). by eexists. }
  destruct He as [Hm|[e He]].
  { rewrite (time_missing_falsy _ _ Hm Ee).
    destruct (truthy bv); by eexists. }
  destruct (time_string_truthy _ _ _ Hs Eb) as [-> ->].
  destruct (time_string_truthy _ _ _ He Ee) as [-> ->]. simpl.
  destruct (hhmm_to_minutes s); [|by eexists].
  destruct (hhmm_to_minutes e); [|by eexists].
  destruct (_ >=? _); by eexists.
Qed.

Lemma block_meeting_times_positive b mts :
  block_meeting_times b = Ok mts → Forall positive_duration mts.
Proof.
  unfold block_meeting_times. generalize (block_time_dict b). intros mt.
  destruct (get (beginTime mt)) as [bv|]; [|by intros [= <-]].
  destruct (get (endTime mt)) as [ev|]; [|by intros [= <-]].
  destruct (_ || _); [by intros [= <-]|].
  destruct (hhmm_to_minutes_of bv) as [[bm|]|]; cbn [rbind];
    [|by intros [= <-]|done].
  destruct (hhmm_to_minutes_of ev) as [[em|]|]; cbn [rbind];
    [|by intros [= <-]|done].
  destruct (Z.geb_spec bm em) as [|Hlt]; [by intros [= <-]|].
  set (meetings := omap _ _). intros [= <-].
  apply Forall_forall. intros m Hm. unfold meetings in Hm.
  apply list_elem_of_omap in Hm as (key & _ & Hm).
  destruct (get (day_flag mt key)) as [[]|]; simplify_eq.
  unfold positive_duration. simpl. lia.
Qed.

(** A block that contributes a meeting has a day flag set. *)
Lemma block_meeting_times_unflagged b mts :
  block_meeting_times b = Ok mts →
  (∀ d, ¬ flagged (block_time_dict b) d) → mts = [].
Proof.
  unfold block_meeting_times. generalize (block_time_dict b). intros mt.
  destruct (get (beginTime mt)) as [bv|]; [|by intros [= <-]].
  destruct (get (endTime mt)) as [ev|]; [|by intros [= <-]].
  destruct (_ || _); [by intros [= <-]|].
  destruct (hhmm_to_minutes_of bv) as [[bm|]|]; cbn [rbind];
    [|by intros [= <-]|done].
  destruct (hhmm_to_minutes_of ev) as [[em|]|]; cbn [rbind];
    [|by intros [= <-]|done].
  destruct (bm >=? em); [by intros [= <-]|].
  set (meetings := omap _ _). intros [= <-] Hnone.
  destruct meetings as [|m rest] eqn:Hm; [done|]. exfalso.
  assert (m ∈ meetings) as Hin by (rewrite Hm; by left).
  unfold meetings in Hin.
  apply list_elem_of_omap in Hin as (key & _ & Hkey).
  apply (Hnone key). unfold flagged.
  by destruct (get (day_flag mt key)) as [[]|].
Qed.

(** A block whose times are strings, as far as it has them, and that
    contributes no meeting is one of the blocks that are skipped, or has
    no day flag set. *)
Lemma block_meeting_times_empty b :
  times_are_strings b →
  block_meeting_times b = Ok [] →
  invalid_block b ∨ ∀ d, ¬ flagged (block_time_dict b) d.
Proof.
  unfold times_are_strings, invalid_block, block_meeting_times.
  generalize (block_time_dict b). intros mt [Hb He].
  destruct Hb as [Hbm|[s Hs]]; [by left; left|].
  destruct He as [Hem|[e He]]; [by left; right; left|].
  rewrite (proj1 Hs), (proj1 He). cbn [truthy].
  rewrite !bool_decide_eq_false_2 by apply Hs || apply He.
  cbn [negb orb hhmm_to_minutes_of rbind].
  destruct (hhmm_to_minutes s) as [bm|] eqn:Hbm; cbn [rbind].
  2: { intros _. left. right; right; left.
       exists s. split; [done|]. by apply hhmm_to_minutes_None. }
  destruct (hhmm_to_minutes e) as [em|] eqn:Hem.
  2: { intros _. left. right; right; right; left.
       split; [by exists s|].
       exists e. split; [done|]. by apply hhmm_to_minutes_None. }
  destruct (Z.geb_spec bm em) as [Hge|Hlt].
  { intros _. left. do 4 right. exists bm, em.
    split_and!; [by exists s | by exists e | lia]. }
  set (meetings := omap _ _). intros Hnil. right. intros d Hd.
  assert ({| day := d; begin_time := bm; end_time := em |} ∈ meetings)
    as Hin.
  { apply list_elem_of_omap. exists d. split.
    - apply list_elem_of_In. destruct d; simpl; tauto.
    - unfold flagged in Hd. by rewrite Hd. }
  assert (meetings = []) as Hempty by congruence.
  rewrite Hempty in Hin. by apply elem_of_nil in Hin.
Qed.

Lemma meetings_of_blocks_cons b blocks :
  meetings_of_blocks (b :: blocks)
  = do mts <- block_meeting_times b;
    do rest <- meetings_of_blocks blocks;
    Ok (mts ++ rest).
Proof.
  unfold meetings_of_blocks. simpl.
  destruct (block_meeting_times b); simpl; [|done].
  by destruct (rmap block_meeting_times blocks).
Qed.

Lemma meetings_of_blocks_skip before b after :
  block_meeting_times b = Ok [] →
  meetings_of_blocks (before ++ b :: after)
  = meetings_of_blocks (before ++ after).
Proof.
  intros Hb. induction before as [|x before IH]; simpl.
  - rewrite meetings_of_blocks_cons, Hb. simpl.
    by destruct (meetings_of_blocks after).
  - by rewrite !meetings_of_blocks_cons, IH.
Qed.

Lemma meetings_of_blocks_total blocks :
  Forall times_are_strings blocks → ∃ mts, meetings_of_blocks blocks = Ok mts.
Proof.
  induction 1 as [|b blocks Hb _ [rest IH]].
  - by eexists.
  - destruct (block_meeting_times_total b Hb) as [mts Hmts].
    rewrite meetings_of_blocks_cons, Hmts, IH. by eexists.
Qed.

Lemma meetings_of_blocks_positive blocks : ∀ mts,
  meetings_of_blocks blocks = Ok mts → Forall positive_duration mts.
Proof.
  induction blocks as [|b blocks IH]; intros mts.
  - by intros [= <-].
  - rewrite meetings_of_blocks_cons.
    destruct (block_meeting_times b) as [l|] eqn:Hb; simpl; [|done].
    destruct (meetings_of_blocks blocks) as [rest|]; simpl; [|done].
    intros [= <-]. apply Forall_app. split; [|by apply IH].
    by eapply block_meeting_times_positive.
Qed.

Lemma extract_meeting_times_positive section mts :
  extract_meeting_times section = Ok mts → Forall positive_duration mts.
Proof.
  unfold extract_meeting_times, faculty_blocks.
  destruct (get_default _ _) as [blocks|]; simpl; [|done].
  apply meetings_of_blocks_positive.
Qed.

Lemma add_section_valid self section self' :
  add_section self section = Ok self' →
  valid_course self → valid_course self'.
Proof.
  unfold add_section, valid_course.
  destruct (extract_meeting_times section) as [mts|] eqn:Hx; simpl; [|done].
  destruct mts as [|m mts]; intros [= <-] Hself; [done|]. simpl.
  apply Forall_app. split; [done|].
  apply Forall_singleton. split; simpl; [done|].
  by eapply extract_meeting_times_positive.
Qed.

Lemma new_course_valid sc t c : valid_course (new_course sc t c).
Proof. by apply Forall_nil. Qed.

Lemma dict_get_elem_of {K V : Type} `{EqDecision K} (key : K) (d : list (K * V)) v :
  dict_get key d = Some v → (key, v) ∈ d.
Proof.
  induction d as [|[k w] d IH]; simpl; [done|].
  destruct (decide (k = key)) as [->|]; intros Hv.
  - simplify_eq. by left.
  - right. by apply IH.
Qed.

Lemma dict_set_Forall {K V : Type} `{EqDecision K} (P : K * V → Prop)
    (key : K) (v : V) (d : list (K * V)) :
  P (key, v) → Forall P d → Forall P (dict_set key v d).
Proof.
  intros Hv. induction 1 as [|[k w] d Hk Hd IH]; simpl.
  - by apply Forall_singleton.
  - destruct (decide (k = key)); by constructor.
Qed.

Lemma add_required_valid cd sc ti cr section cd' :
  add_required cd sc ti cr section = Ok cd' →
  (∀ code c, cd !! code = Some (Some c) → valid_course c) →
  ∀ code c, cd' !! code = Some (Some c) → valid_course c.
Proof.
  unfold add_required. intros Hadd Hcd.
  destruct sc as [code|]; [|by simplify_eq].
  destruct (cd !! code) as [slot|] eqn:Eslot; [|by simplify_eq].
  destruct (add_section _ section) as [c'|] eqn:Ec'; simpl in Hadd; [|done].
  injection Hadd as <-. intros code' c Hc.
  destruct (decide (code = code')) as [<-|Hne].
  - rewrite lookup_insert_eq in Hc. simplify_eq.
    eapply add_section_valid; [done|].
    destruct slot as [c0|]; simpl; [by eapply Hcd|apply new_course_valid].
  - rewrite lookup_insert_ne in Hc by done. by eapply Hcd.
Qed.

Lemma add_hass_valid opts hd su sc ti cr section hd' :
  add_hass opts hd su sc ti cr section = Ok hd' →
  Forall (λ kc, valid_course (snd kc)) hd →
  Forall (λ kc, valid_course (snd kc)) hd'.
Proof.
  unfold add_hass. intros Hadd Hhd.
  destruct (bool_decide _); [|by simplify_eq].
  destruct (add_section _ section) as [c'|] eqn:Ec'; simpl in Hadd; [|done].
  injection Hadd as <-. apply dict_set_Forall; [|done]. simpl.
  eapply add_section_valid; [done|].
  destruct (dict_get sc hd) as [c0|] eqn:Eget; simpl;
    [|apply new_course_valid].
  apply dict_get_elem_of in Eget.
  by apply (proj1 (Forall_forall _ _) Hhd _ Eget).
Qed.

Lemma add_record_valid opts t section t' :
  add_record opts t section = Ok t' → valid_tables t → valid_tables t'.
Proof.
  unfold add_record. intros Hadd [Hcd Hhd].
  destruct (get_default (seatsAvailable section) 0) as [seats|]; [|done].
  destruct (seats <? _); [by simplify_eq|].
  destruct (compute_section_credits section) as [cr|]; simpl in Hadd; [|done].
  destruct (subject_filtered _ _); [by simplify_eq|].
  destruct (add_required _ _ _ _ _) as [cd|] eqn:Ecd; simpl in Hadd; [|done].
  destruct (add_hass _ _ _ _ _ _ _) as [hd|] eqn:Ehd; simpl in Hadd; [|done].
  injection Hadd as <-. split; simpl.
  - by eapply add_required_valid.
  - by eapply add_hass_valid.
Qed.

Lemma build_tables_valid opts courses_data t :
  build_tables opts courses_data = Ok t → valid_tables t.
Proof.
  unfold build_tables.
  assert (valid_tables (initial_tables opts)) as Hinit.
  { split; simpl; [|done]. intros code c Hc.
    apply elem_of_list_to_map_2 in Hc.
    by apply list_elem_of_fmap in Hc as (? & ? & _). }
  revert Hinit. generalize (initial_tables opts).
  induction courses_data as [|section rest IH]; intros t0 Ht0; simpl.
  - by intros [= <-].
  - destruct (add_record opts t0 section) as [t1|] eqn:E1; simpl; [|done].
    apply IH. by eapply add_record_valid.
Qed.

(** C8, as amended: a meeting block is skipped, without an exception, when
    its begin or end time is missing or empty, when [int] cannot read its
    begin time, or its end time behind a begin time that is a string, and
    when its begin is not before its end; among the blocks whose times are
    strings these, and the blocks without a day flag, are the only ones
    that contribute nothing.  The extraction raises nothing when every
    time that is not missing is a string.  Every section the
    normalizer materializes has a meeting time, and all its meeting times
    satisfy begin < end; a record with no valid meeting time is not added
    as a section. *)
Theorem normalizer_drops_invalid_meetings :
  (∀ b, invalid_block b → block_meeting_times b = Ok [])
  ∧ (∀ b, times_are_strings b →
       (block_meeting_times b = Ok []
        ↔ invalid_block b ∨ ∀ d, ¬ flagged (block_time_dict b) d))
  ∧ (∀ section before b after,
       meetingsFaculty section = Val (before ++ b :: after) →
       invalid_block b →
       extract_meeting_times section = meetings_of_blocks (before ++ after))
  ∧ (∀ section blocks,
       get_default (meetingsFaculty section) [] = Some blocks →
       Forall times_are_strings blocks →
       ∃ mts, extract_meeting_times section = Ok mts)
  ∧ (∀ section mts,
       extract_meeting_times section = Ok mts →
       Forall positive_duration mts)
  ∧ (∀ self section,
       extract_meeting_times section = Ok [] →
       add_section self section = Ok self)
  ∧ (∀ self section self',
       add_section self section = Ok self' →
       valid_course self → valid_course self')
  ∧ (∀ opts courses_data t,
       build_tables opts courses_data = Ok t → valid_tables t).
Proof.
  split_and!.
  - apply invalid_block_skipped.
  - intros b Hstrings. split; [by apply block_meeting_times_empty|].
    intros [Hinv|Hnone]; [by apply invalid_block_skipped|].
    destruct (block_meeting_times_total b Hstrings) as [mts Hmts].
    by rewrite Hmts, (block_meeting_times_unflagged b mts Hmts Hnone).
  - intros section before b after Hblocks Hinv.
    unfold extract_meeting_times, faculty_blocks. rewrite Hblocks. simpl.
    by apply meetings_of_blocks_skip, invalid_block_skipped.
  - intros section blocks Hblocks Hstrings.
    unfold extract_meeting_times, faculty_blocks. rewrite Hblocks. simpl.
    by apply meetings_of_blocks_total.
  - apply extract_meeting_times_positive.
  - intros self section Hx. unfold add_section. by rewrite Hx.
  - apply add_section_valid.
  - apply build_tables_valid.
Qed.

End Normalizer.

(** ** Credits *)

Section Credits.
Context `{RT : PyRuntime}.

Lemma _safe_float_numeric f d :
  fits_float f →
  _safe_float (get f) d = Ok (default d (get f ≫= numeric)).
Proof.
  unfold fits_float. intros Hfits.
  destruct (get f) as [[n|x|b|s|e|e]|]; simpl; try done.
  - by rewrite Hfits.
  - by destruct (float_of_str s).
Qed.

Lemma block_credit_session_not_null meeting :
  meeting_time_not_null meeting →
  block_credit_session meeting
  = Ok (get (creditHourSession (block_time_dict meeting))).
Proof.
  unfold meeting_time_not_null, block_credit_session, block_time_dict.
  by destruct (meetingTime (default empty_block meeting)).
Qed.

Lemma session_sum_readable blocks :
  Forall session_readable blocks →
  rmap (λ meeting, do v <- block_credit_session meeting;
                   _safe_float v (float_of_int 0)) blocks
  = Ok (map session_credits blocks).
Proof.
  induction 1 as [|b blocks [Hnot_null Hfits] _ IH]; simpl; [done|].
  rewrite block_credit_session_not_null by done. simpl.
  by rewrite _safe_float_numeric, IH.
Qed.

(** The float of an [int] zero is false. *)
Hypothesis zero_is_false : float_truth (float_of_int 0) = false.

Lemma explicit_credits_none section :
  explicit_credits section = None →
  float_truth (default (float_of_int 0)
                       (get (creditHours section) ≫= numeric)) = false.
Proof.
  unfold explicit_credits.
  destruct (get (creditHours section)) as [v|]; [|done]. simpl.
  destruct (numeric v) as [x|]; simpl; [|done].
  by destruct (float_truth x).
Qed.

(** C9, as amended: the credit value is the explicit [creditHours] field
    when that is present, numeric and not zero; otherwise it is the sum of
    the [creditHourSession] values of the meeting blocks, a missing or
    non-numeric one counting as 0.  No exception is raised when the list of
    blocks and the [meetingTime] of each block are not null and no credit
    value is an [int] too large for a [float]. *)
Theorem compute_section_credits_prefers_explicit (section : RawSection) :
  (∀ x, fits_float (creditHours section) →
        explicit_credits section = Some x →
        compute_section_credits section = Ok x)
  ∧ (∀ blocks,
       fits_float (creditHours section) →
       explicit_credits section = None →
       get_default (meetingsFaculty section) [] = Some blocks →
       Forall session_readable blocks →
       compute_section_credits section
       = Ok (float_sum (map session_credits blocks)))
  ∧ (∀ meeting,
       get (creditHourSession (block_time_dict meeting)) = None
       ∨ (∃ v, get (creditHourSession (block_time_dict meeting)) = Some v
               ∧ numeric v = None) →
       session_credits meeting = float_of_int 0).
Proof.
  split_and!.
  - unfold explicit_credits, compute_section_credits. intros x Hfits Hx.
    rewrite _safe_float_numeric by done. simpl.
    destruct (get (creditHours section)) as [v|]; [|done]. simpl in *.
    destruct (numeric v) as [y|]; simpl in *; [|done].
    destruct (float_truth y) eqn:Hy; by simplify_eq.
  - intros blocks Hfits Hnone Hblocks Hreadable.
    unfold compute_section_credits.
    rewrite _safe_float_numeric by done. simpl.
    rewrite explicit_credits_none by done.
    unfold faculty_blocks. rewrite Hblocks. simpl.
    by rewrite session_sum_readable.
  - unfold session_credits. intros meeting [->|(v & -> & Hv)]; [done|].
    simpl. by rewrite Hv.
Qed.

End Credits.

(** ** Scoring model *)

Section Scoring.
Context `{RT : PyRuntime}.

Lemma apply_penalties_deltas schedule hooks : ∀ score,
  foldl (apply_penalty schedule) score hooks
  = foldl fadd score (hook_deltas schedule hooks).
Proof.
  unfold hook_deltas.
  induction hooks as [|h hooks IH]; intros score; simpl; [done|].
  unfold apply_penalty at 2. destruct (h schedule); simpl; apply IH.
Qed.

Lemma apply_penalties_raising schedule before hook after score :
  hook schedule = None →
  foldl (apply_penalty schedule) score (before ++ hook :: after)
  = foldl (apply_penalty schedule) score (before ++ after).
Proof.
  intros Hraise. rewrite !foldl_app. simpl.
  unfold apply_penalty at 2. by rewrite Hraise.
Qed.

Lemma unrounded_score_hooks schedule weights hooks :
  unrounded_score schedule weights (Some hooks)
  = foldl (apply_penalty schedule) (base_score schedule weights) hooks.
Proof.
  unfold base_score, unrounded_score. simpl.
  destruct (foldl (collect_meeting weights) _ _) as [score days].
  by destruct (foldl (compactness_day weights) _ _) as [score' spans].
Qed.


(** C7: a hook that raises adds nothing to the score and does not stop the
    scoring: the score is the one computed with the hook removed, and it
    is the base score plus the deltas of the hooks that return, rounded. *)
Theorem evaluate_schedule_isolates_hooks
    (schedule : list CSection) (weights : ScoringWeights)
    (before after : list penalty_hook) (hook : penalty_hook) :
  schedule ≠ [] →
  hook schedule = None →
  evaluate_schedule schedule weights (Some (before ++ hook :: after))
  = evaluate_schedule schedule weights (Some (before ++ after))
  ∧ evaluate_schedule schedule weights (Some (before ++ hook :: after))
    = round2 (foldl fadd (base_score schedule weights)
                (hook_deltas schedule before ++ hook_deltas schedule after)).
Proof.
  intros Hne Hraise.
  destruct schedule as [|s schedule]; [done|].
  unfold evaluate_schedule. rewrite !unrounded_score_hooks.
  rewrite apply_penalties_raising by done. split; [done|].
  rewrite apply_penalties_deltas. unfold hook_deltas. by rewrite omap_app.
Qed.

End Scoring.

(** ** Ranking *)

Section Ranking.
Context `{RT : PyRuntime}.

Section Sort.
Context {A : Type}.
Implicit Types (x y : A * float) (l acc : list (A * float)).

(** The sort rearranges the entries, whatever their scores are. *)
Lemma sort_by_score_desc_perm l : sort_by_score_desc l ≡ₚ l.
Proof. apply (sort_permutes _ _ (list_sort_desc_contract A)). Qed.

(** A list in which no entry is followed by an entry with a greater score
    is returned as it is. *)
Lemma sort_by_score_desc_run l :
  no_ascent fltb l → sort_by_score_desc l = l.
Proof. apply (sort_keeps_run _ _ (list_sort_desc_contract A)). Qed.

Lemma sort_by_score_desc_spec l :
  score_order_on (map snd l) →
  sort_by_score_desc l ≡ₚ l
  ∧ StronglySorted not_less (sort_by_score_desc l)
  ∧ ∀ v, v ∈ map snd l →
      filter (λ y, tied v y) (sort_by_score_desc l)
      = filter (λ y, tied v y) l.
Proof.
  intros Hks. split; [apply sort_by_score_desc_perm|].
  apply (sort_orders _ _ (list_sort_desc_contract A) l Hks).
Qed.

End Sort.
End Ranking.

(** ** The optimizer *)

Section Pipeline.
Context `{RT : PyRuntime}.

Lemma sort_by_score_desc_nil {A : Type} :
  sort_by_score_desc (@nil (A * float)) = [].
Proof. apply Permutation_nil_r, sort_by_score_desc_perm. Qed.

Lemma slice_to_nil {A : Type} n : slice_to n (@nil A) = [].
Proof. unfold slice_to. destruct (n <? 0); by rewrite take_nil. Qed.

(** With a positive [max_schedules] and a catalog that normalizes, the
    optimizer returns the top of the sorted candidates. *)
Lemma optimize_courses_ok courses_data kw t :
  0 < max_schedules (_resolve_options kw) →
  build_tables (_resolve_options kw) courses_data = Ok t →
  optimize_courses courses_data kw
  = Ok (assemble_output
          (slice_to (max_schedules (_resolve_options kw))
             (sort_by_score_desc
                (score_schedules (_resolve_options kw)
                   (candidates (_resolve_options kw) t))))).
Proof.
  intros Hmax Hbuild. unfold optimize_courses, candidates.
  destruct (Z.leb_spec (max_schedules (_resolve_options kw)) 0); [lia|].
  rewrite Hbuild. simpl.
  destruct (find_valid_schedules _ t) as [[|s valid]|]; simpl; try done.
  all: by rewrite sort_by_score_desc_nil, slice_to_nil.
Qed.

Lemma optimize_courses_max_positive courses_data kw out :
  optimize_courses courses_data kw = Ok out →
  0 < max_schedules (_resolve_options kw).
Proof.
  unfold optimize_courses.
  destruct (Z.leb_spec (max_schedules (_resolve_options kw)) 0); [done|lia].
Qed.

(** *** Unfulfillable requirements *)

Lemma concrete_group_unavailable t group :
  (∃ code, code ∈ group ∧ unavailable t code) →
  concrete_group (courses_dict t) group = None.
Proof.
  intros (code & Hin & Hun).
  induction group as [|code' rest IH]; [by apply elem_of_nil in Hin|].
  simpl. apply elem_of_cons in Hin as [<-|Hin].
  - destruct (courses_dict t !! code) as [[c|]|] eqn:Ec; try done.
    by rewrite (Hun c Ec).
  - destruct (courses_dict t !! code') as [[c|]|]; try done.
    destruct (sections c); [done|]. by rewrite IH.
Qed.

Lemma concrete_groups_unsatisfiable t groups :
  unsatisfiable t groups → concrete_groups (courses_dict t) groups = [].
Proof.
  unfold concrete_groups. intros Hun.
  induction groups as [|group rest IH]; [done|]. simpl.
  rewrite concrete_group_unavailable by (apply Hun; by left).
  apply IH. intros g Hg. apply Hun. by right.
Qed.

Lemma hass_groups_no_electives t :
  no_electives t → hass_groups (hass_dict t) = [].
Proof.
  unfold no_electives, hass_groups. generalize (hass_dict t). intros hd Hno.
  induction hd as [|[key c] hd IH]; [done|]. simpl.
  rewrite filter_cons_False.
  - apply IH. intros k c' Hin. apply (Hno k). by right.
  - intros Hne. apply Hne, (Hno key). by left.
Qed.

Lemma dict_set_elem_of {K V : Type} `{EqDecision K} (key : K) (v : V)
    (d : list (K * V)) :
  (key, v) ∈ dict_set key v d.
Proof.
  induction d as [|[k w] d IH]; simpl; [by left|].
  destruct (decide (k = key)); [by left|by right].
Qed.

Lemma dict_set_other {K V : Type} `{EqDecision K} (key k : K) (v w : V)
    (d : list (K * V)) :
  k ≠ key → (k, w) ∈ d → (k, w) ∈ dict_set key v d.
Proof.
  intros Hne. induction d as [|[k' w'] d IH]; simpl;
    [by intros ?%elem_of_nil|].
  intros [Heq|Hin]%elem_of_cons.
  - simplify_eq. rewrite decide_False by done. by left.
  - destruct (decide (k' = key)); right; auto.
Qed.

(** The requirement built from an entry of the spec is in the dictionary
    the loop leaves, when the names of the spec are distinct. *)
Lemma requirements_loop_elem_of (f : list (list string) → CourseRequirement)
    (spec : list (string * list (list string))) (name : string) groups :
  ∀ reqs : list (string * CourseRequirement),
  NoDup (map fst spec) → (name, groups) ∈ spec →
  (name, f groups)
  ∈ foldl (λ reqs '(name, groups), dict_set name (f groups) reqs) reqs spec.
Proof.
  assert (∀ (spec : list (string * list (list string)))
            (reqs : list (string * CourseRequirement)) r,
            (name, r) ∈ reqs → name ∉ map fst spec →
            (name, r) ∈ foldl (λ reqs '(name, groups),
                                 dict_set name (f groups) reqs) reqs spec)
    as Hkeep.
  { clear. induction spec as [|[n g] spec IH]; intros reqs r Hr Hn; [done|].
    simpl. simpl in Hn. apply not_elem_of_cons in Hn as [Hne Hn].
    apply IH; [|done]. by apply dict_set_other. }
  induction spec as [|[n g] spec IH]; intros reqs Hnodup Hin.
  - by apply elem_of_nil in Hin.
  - simpl in *. apply NoDup_cons in Hnodup as [Hn Hnodup].
    apply elem_of_cons in Hin as [Heq|Hin].
    + simplify_eq. apply Hkeep; [|done]. apply dict_set_elem_of.
    + by apply IH.
Qed.

Lemma course_combinations_from_none reqs : ∀ combos,
  (∃ req, req ∈ reqs ∧ subject_course_groups req = []) →
  course_combinations_from combos reqs = None.
Proof.
  induction reqs as [|req rest IH]; intros combos (r & Hin & Hr).
  - by apply elem_of_nil in Hin.
  - simpl. destruct (subject_course_groups req) as [|g gs] eqn:Hg; [done|].
    apply IH. exists r. split; [|done].
    apply elem_of_cons in Hin as [->|Hin]; [congruence|done].
Qed.

(** A requirement of the dictionary with no group leaves no candidate. *)
Lemma unfulfillable_no_candidates opts t name req :
  (name, req) ∈ resolve_requirements opts t →
  subject_course_groups req = [] →
  find_valid_schedules opts t = None.
Proof.
  intros Hin Hreq. unfold find_valid_schedules.
  rewrite (course_combinations_from_none _ [[]]); [done|].
  exists req. split; [|done].
  by apply (list_elem_of_fmap_2 snd) in Hin.
Qed.

Lemma no_candidates_empty_output courses_data kw t :
  0 < max_schedules (_resolve_options kw) →
  build_tables (_resolve_options kw) courses_data = Ok t →
  find_valid_schedules (_resolve_options kw) t = None →
  optimize_courses courses_data kw = Ok [].
Proof.
  intros Hmax Hbuild Hnone. unfold optimize_courses.
  destruct (Z.leb_spec (max_schedules (_resolve_options kw)) 0); [lia|].
  rewrite Hbuild. simpl. by rewrite Hnone.
Qed.

Lemma named_requirement_resolved opts t name groups :
  NoDup (map fst (requirements_spec opts)) →
  (name, groups) ∈ requirements_spec opts →
  name ≠ "hass_electives" →
  (name, {| subject_course_groups := concrete_groups (courses_dict t) groups |})
  ∈ resolve_requirements opts t.
Proof.
  intros Hnodup Hin Hname. unfold resolve_requirements.
  apply dict_set_other; [done|].
  by apply (requirements_loop_elem_of
              (λ groups, {| subject_course_groups :=
                              concrete_groups (courses_dict t) groups |})).
Qed.

Lemma elective_requirement_resolved opts t :
  ("hass_electives", {| subject_course_groups := hass_groups (hass_dict t) |})
  ∈ resolve_requirements opts t.
Proof. apply dict_set_elem_of. Qed.

(** C3, as amended: with a positive [max_schedules], when a requirement of
    the spec not named "hass_electives", or the synthesized elective
    requirement, resolves to no concrete group on the normalized catalog,
    the optimizer returns the empty mapping. *)
Theorem unsatisfiable_requirement_empty_output
    (courses_data : list RawSection) (kw : Keywords) (t : Tables) :
  let opts := _resolve_options kw in
  0 < max_schedules opts →
  NoDup (map fst (requirements_spec opts)) →
  build_tables opts courses_data = Ok t →
  (∃ name groups, (name, groups) ∈ requirements_spec opts
                  ∧ name ≠ "hass_electives" ∧ unsatisfiable t groups)
  ∨ no_electives t →
  optimize_courses courses_data kw = Ok [].
Proof.
  intros opts Hmax Hnodup Hbuild Hreq.
  apply (no_candidates_empty_output _ _ t); [done..|].
  destruct Hreq as [(name & groups & Hin & Hname & Hun)|Hno].
  - eapply unfulfillable_no_candidates.
    + by apply named_requirement_resolved.
    + simpl. by apply concrete_groups_unsatisfiable.
  - eapply unfulfillable_no_candidates.
    + apply elective_requirement_resolved.
    + simpl. by apply hass_groups_no_electives.
Qed.

(** C10, as amended: with a positive [max_schedules], when no course of the
    elective subject has a section after normalization and filtering, the
    optimizer returns the empty mapping, whatever the named requirements
    are. *)
Theorem no_elective_sections_empty_output
    (courses_data : list RawSection) (kw : Keywords) (t : Tables) :
  0 < max_schedules (_resolve_options kw) →
  build_tables (_resolve_options kw) courses_data = Ok t →
  no_electives t →
  optimize_courses courses_data kw = Ok [].
Proof.
  intros Hmax Hbuild Hno.
  apply (no_candidates_empty_output _ _ t); [done..|].
  eapply unfulfillable_no_candidates.
  - apply elective_requirement_resolved.
  - simpl. by apply hass_groups_no_electives.
Qed.

(** C5: when the resolved [max_schedules] is zero or negative the optimizer
    raises [ValueError], whatever the catalog is, also one whose
    normalization would raise; that is not the empty mapping. *)
Theorem nonpositive_max_schedules_raises
    (courses_data : list RawSection) (kw : Keywords) :
  max_schedules (_resolve_options kw) ≤ 0 →
  optimize_courses courses_data kw
  = Raise (ValueError "max_schedules must be positive")
  ∧ optimize_courses courses_data kw ≠ Ok []
  ∧ ∀ other_data, optimize_courses other_data kw
                  = optimize_courses courses_data kw.
Proof.
  intros Hmax. unfold optimize_courses.
  destruct (Z.leb_spec (max_schedules (_resolve_options kw)) 0); [|lia].
  done.
Qed.

End Pipeline.

(** ** Output assembly *)

Section Output.
Context `{RT : PyRuntime}.

Lemma imap_pair_fst {A B C : Type} (g : nat → B) (h : A → C) (l : list A) :
  map fst (imap (λ i e, (g i, h e)) l) = map g (seq 0 (length l)).
Proof.
  revert g. induction l as [|x l IH]; intros g; simpl; [done|].
  f_equal. rewrite <- seq_shift, map_map. apply (IH (g ∘ S)).
Qed.

Lemma imap_pair_snd {A B C : Type} (g : nat → B) (h : A → C) (l : list A) :
  map snd (imap (λ i e, (g i, h e)) l) = map h l.
Proof.
  revert g. induction l as [|x l IH]; intros g; simpl; [done|].
  f_equal. apply (IH (g ∘ S)).
Qed.

Lemma assemble_output_labels top :
  map fst (assemble_output top) = map schedule_label (seq 1 (length top)).
Proof.
  unfold assemble_output.
  rewrite (imap_pair_fst (λ i, schedule_label (S i)) format_entry).
  by rewrite <- seq_shift, map_map.
Qed.

Lemma assemble_output_entries top :
  map snd (assemble_output top) = map format_entry top.
Proof.
  unfold assemble_output.
  apply (imap_pair_snd (λ i, schedule_label (S i)) format_entry).
Qed.

Lemma assemble_output_length top :
  length (assemble_output top) = length top.
Proof. unfold assemble_output. apply length_imap. Qed.

Lemma sorted_non_increasing {A : Type} (l : list (A * float)) :
  StronglySorted not_less l → non_increasing (map snd l).
Proof.
  induction 1 as [|x l Hsorted IH Hx]; intros i j a b Hij Ha Hb.
  - simpl in Ha. by rewrite lookup_nil in Ha.
  - destruct j as [|j]; [lia|]. simpl in Hb.
    destruct i as [|i]; simpl in Ha.
    + simplify_eq.
      apply list_lookup_fmap_Some in Hb as (y & -> & Hy).
      apply list_elem_of_lookup_2 in Hy.
      by apply (proj1 (Forall_forall _ _) Hx).
    + apply (IH i j); [lia|done..].
Qed.

Lemma non_increasing_app_l (l1 l2 : list float) :
  non_increasing (l1 ++ l2) → non_increasing l1.
Proof.
  intros H i j a b Hij Ha Hb.
  apply (H i j); [done|by apply lookup_app_l_Some..].
Qed.

(** C4, as amended: the output has at most [max_schedules] entries and
    its keys are "Schedule 1", "Schedule 2", ... in order; its entries are
    the first of a rearrangement of the scored candidates, cut only when
    that has more than [max_schedules] entries; and, when float [<] is a
    strict weak order on the scores of the candidates, as it is when none
    is NaN, the scores of the output do not increase and candidates of
    equal score stay in the order they were found. *)
Theorem optimize_courses_ranked
    (courses_data : list RawSection) (kw : Keywords) (t : Tables)
    (out : list (string * ScheduleOut)) :
  let opts := _resolve_options kw in
  let scored := score_schedules opts (candidates opts t) in
  build_tables opts courses_data = Ok t →
  optimize_courses courses_data kw = Ok out →
  Z.of_nat (length out) ≤ max_schedules opts
  ∧ map fst out = map schedule_label (seq 1 (length out))
  ∧ ∃ ranked rest,
      map snd out = map format_entry ranked
      ∧ ranked ++ rest ≡ₚ scored
      ∧ (rest ≠ [] → Z.of_nat (length ranked) = max_schedules opts)
      ∧ (score_order_on (map snd scored) →
         non_increasing (map (λ e, out_score (snd e)) out)
         ∧ non_increasing (map snd (ranked ++ rest))
         ∧ ∀ v, v ∈ map snd scored →
             filter (λ y, tied v y) (ranked ++ rest)
             = filter (λ y, tied v y) scored).
Proof.
  intros opts scored Hbuild Hout.
  pose proof (optimize_courses_max_positive _ _ _ Hout) as Hmax.
  pose proof (optimize_courses_ok _ _ t Hmax Hbuild) as Hok.
  fold opts in Hok, Hmax. fold scored in Hok.
  set (top := assemble_output _) in Hok.
  rewrite Hout in Hok. injection Hok as ->. subst top.
  unfold slice_to. destruct (Z.ltb_spec (max_schedules opts) 0); [lia|].
  set (n := Z.to_nat (max_schedules opts)).
  set (sorted := sort_by_score_desc scored) in *.
  assert (take n sorted ++ drop n sorted = sorted) as Hsplit
    by apply take_drop.
  split_and!.
  - rewrite assemble_output_length, length_take. lia.
  - by rewrite assemble_output_labels, assemble_output_length.
  - exists (take n sorted), (drop n sorted). rewrite Hsplit.
    split_and!.
    + apply assemble_output_entries.
    + apply sort_by_score_desc_perm.
    + intros Hrest. rewrite length_take.
      destruct (decide (n < length sorted)%nat) as [Hlt|Hge]; [lia|].
      rewrite drop_ge in Hrest by lia. done.
    + intros Horder.
      destruct (sort_by_score_desc_spec scored Horder)
        as (_ & Hsorted & Hstable).
      assert (non_increasing (map snd sorted)) as Hdesc
        by (by apply sorted_non_increasing).
      split_and!; [|done..].
      replace (map (λ e, out_score (snd e)) (assemble_output (take n sorted)))
        with (map snd (take n sorted)).
      * apply (non_increasing_app_l _ (map snd (drop n sorted))).
        by rewrite <- map_app, Hsplit.
      * rewrite <- (map_map snd out_score), assemble_output_entries, map_map.
        done.
Qed.

(** When no candidate scores less than the candidate found after it, on
    every run time the output lists the candidates in the order they were
    found: the sort has nothing to move, whether or not the scores are
    ordered by [<]. *)
Lemma optimize_courses_keeps_run
    (courses_data : list RawSection) (kw : Keywords) (t : Tables)
    (out : list (string * ScheduleOut)) :
  let opts := _resolve_options kw in
  let scored := score_schedules opts (candidates opts t) in
  build_tables opts courses_data = Ok t →
  optimize_courses courses_data kw = Ok out →
  no_ascent fltb scored →
  map snd out = map format_entry (slice_to (max_schedules opts) scored).
Proof.
  intros opts scored Hbuild Hout Hrun.
  pose proof (optimize_courses_max_positive _ _ _ Hout) as Hmax.
  pose proof (optimize_courses_ok _ _ t Hmax Hbuild) as Hok.
  fold opts in Hok. fold scored in Hok.
  rewrite (sort_by_score_desc_run scored Hrun) in Hok.
  set (top := assemble_output _) in Hok.
  rewrite Hout in Hok. injection Hok as ->. subst top.
  apply assemble_output_entries.
Qed.

End Output.

(** * Running the model *)

Section Tests.
Context `{RT : PyRuntime}.

Lemma build_tables_tables_of kw data :
  is_ok (build_tables (_resolve_options kw) data) = true →
  build_tables (_resolve_options kw) data = Ok (tables_of kw data).
Proof. unfold tables_of. by destruct (build_tables _ data). Qed.

Lemma optimize_courses_output_of kw data :
  is_ok (optimize_courses data kw) = true →
  optimize_courses data kw = Ok (output_of kw data).
Proof. unfold output_of. by destruct (optimize_courses data kw). Qed.

Lemma unavailable_test_sound t code :
  unavailable_test t code = true → unavailable t code.
Proof.
  unfold unavailable_test, unavailable, has_no_sections. intros Ht c Hc.
  rewrite Hc in Ht. by destruct (sections c).
Qed.

Lemma not_hhmm_test_sound s : not_hhmm_test s = true → ¬ hhmm_form s.
Proof.
  unfold not_hhmm_test. rewrite forallb_forall.
  intros Hall (minutes & Hrange & Hs).
  assert (In minutes (seqZ 0 1440)) as Hin
    by (apply list_elem_of_In, elem_of_seqZ; lia).
  apply Hall in Hin. apply negb_true_iff in Hin.
  apply String.eqb_neq in Hin. done.
Qed.

Lemma score_order_test_sound ks : score_order_test ks = true → score_order_on ks.
Proof.
  unfold score_order_test. rewrite forallb_forall. intros Hall. split.
  - intros a b Ha%list_elem_of_In Hb%list_elem_of_In Hab.
    specialize (Hall a Ha). rewrite forallb_forall in Hall.
    specialize (Hall b Hb). apply andb_prop in Hall as [Hasym _].
    rewrite Hab in Hasym. by apply negb_true_iff in Hasym.
  - intros a b c Ha%list_elem_of_In Hb%list_elem_of_In Hc%list_elem_of_In
      Hab Hbc.
    specialize (Hall a Ha). rewrite forallb_forall in Hall.
    specialize (Hall b Hb). apply andb_prop in Hall as [_ Htrans].
    rewrite forallb_forall in Htrans. specialize (Htrans c Hc).
    rewrite Hab, Hbc in Htrans. by apply negb_true_iff in Htrans.
Qed.

Lemma no_electives_test_sound t :
  no_electives_test t = true → no_electives t.
Proof.
  unfold no_electives_test, no_electives, has_no_sections.
  rewrite forallb_forall. intros Ht key c Hin.
  apply list_elem_of_In, Ht in Hin. simpl in Hin. by destruct (sections c).
Qed.

End Tests.

(** The runs below are on the run time [CPython]. *)

Section Examples.
Import CPython.
Local Existing Instance runtime.

(** *** Search engine *)

Example spec_slate_candidates :
  generate_section_combinations
    {| courses := [course_of "A" [A1]; course_of "B" [B1; B2]] |}
  = [[A1; B2]].
Proof. reflexivity. Qed.

Example touching_meetings_do_not_overlap :
  overlaps_with (meeting Mon 540 600) (meeting Mon 600 650) = false
  ∧ overlaps_with (meeting Mon 540 601) (meeting Mon 600 650) = true.
Proof. split; reflexivity. Qed.

Lemma generate_section_combinations_witness :
  (one_section_per_course [course_of "A" [A1]; course_of "B" [B1; B2]] [A1; B2]
   ∧ conflict_free [A1; B2])
  ∧ generate_section_combinations
      {| courses := [course_of "A" [A1]; course_of "B" []] |} = [].
Proof.
  split.
  - apply (proj1 (generate_section_combinations_exact
                    {| courses := [course_of "A" [A1]; course_of "B" [B1; B2]] |})
             [A1; B2]).
    rewrite spec_slate_candidates. by left.
  - apply (proj2 (generate_section_combinations_exact
                    {| courses := [course_of "A" [A1]; course_of "B" []] |})).
    exists (course_of "B" []). split; [|reflexivity].
    right. by left.
Defined.

(** *** Normalizer *)

Lemma normalizer_witness :
  extract_meeting_times mixed_record
  = Ok [meeting Mon 540 590; meeting Thu 540 590]
  ∧ valid_tables (tables_of (demo_keywords cs_spec 5) demo_data).
Proof.
  destruct (normalizer_drops_invalid_meetings (RT := runtime))
    as (_ & _ & Hskip & _ & _ & _ & _ & Htables).
  split.
  - rewrite (Hskip mixed_record _ _ _ eq_refl); [reflexivity|].
    right. right. left. exists "9:30".
    split; [split; [reflexivity|done] | left; reflexivity].
  - apply (Htables (_resolve_options (demo_keywords cs_spec 5)) demo_data).
    apply build_tables_tables_of. vm_compute. reflexivity.
Defined.

(** C8, the claim as stated fails: the two times of the block are strings
    that are not in [HHMM] form, and the block is not skipped: it
    contributes a meeting from 12:03 to 100:39. *)
Lemma malformed_times_materialized :
  time_malformed (beginTime (block_time_dict odd_times_block))
  ∧ time_malformed (endTime (block_time_dict odd_times_block))
  ∧ block_meeting_times odd_times_block = Ok [meeting Mon 723 6039].
Proof.
  split_and!.
  - exists "123". split; [by split|].
    apply not_hhmm_test_sound. vm_compute. reflexivity.
  - exists "9999". split; [by split|].
    apply not_hhmm_test_sound. vm_compute. reflexivity.
  - reflexivity.
Qed.

(** A time that is a number, not a string, raises [TypeError], which the
    extraction does not catch. *)
Example number_time_raises :
  block_meeting_times number_time_block = Raise TypeError.
Proof. reflexivity. Qed.

(** *** Credits *)

(** C9, the claim as stated fails: the explicit field is present and
    numeric (0), and the extracted value is the fallback sum (3). *)
Lemma zero_credit_hours_falls_back :
  get (creditHours zero_credit_record) = Some (JInt 0)
  ∧ numeric (JInt 0) = Some (float_of_int 0)
  ∧ compute_section_credits zero_credit_record = Ok (float_of_int 3)
  ∧ float_of_int 3 ≠ float_of_int 0.
Proof. split_and!; try reflexivity. discriminate. Qed.

Lemma compute_section_credits_witness :
  float_truth (float_of_int 0) = false
  ∧ compute_section_credits zero_credit_record = Ok (float_of_int 3)
  ∧ compute_section_credits fallback_record = Ok (float_of_int 4)
  ∧ compute_section_credits (record "A" "B" "1" "0800" "0850" [Mon]
                               (Val (JStr "3")) (Val (JInt 4)))
    = Ok (float_of_int 3).
Proof.
  assert (float_truth (float_of_int 0) = false) as Hzero by reflexivity.
  split; [exact Hzero|]. split_and!.
  - apply (proj1 (proj2 (compute_section_credits_prefers_explicit
                           Hzero zero_credit_record))
             [block "1400" "1650" [Wed] (Val (JInt 3))]).
    + intros n [= <-]. reflexivity.
    + reflexivity.
    + reflexivity.
    + repeat constructor; try discriminate.
      intros n [= <-]. reflexivity.
  - apply (proj1 (proj2 (compute_section_credits_prefers_explicit
                           Hzero fallback_record))
             [ block "0800" "0950" [Tue; Fri] (Val (JInt 4));
               None;
               Some {| meetingTime := Absent |} ]).
    + intros n [=].
    + reflexivity.
    + reflexivity.
    + repeat constructor; try discriminate.
      intros n [= <-]. reflexivity.
  - apply (proj1 (compute_section_credits_prefers_explicit Hzero _));
      [intros n [=] | reflexivity].
Defined.

(** An [int] too large for a [float] makes [float] raise [OverflowError],
    which [_safe_float] does not catch. *)
Example huge_credit_hours_raises :
  compute_section_credits huge_credit_record = Raise OverflowError.
Proof. vm_compute. reflexivity. Qed.

(** A null [meetingTime] raises in the credit fallback, where the meeting
    time extraction skips the block. *)
Example null_meeting_time_raises :
  let section :=
    {| seatsAvailable := Val 5; subjectCourse := Val "MATH1020";
       subject := Val "MATH"; courseTitle := Val "Title";
       creditHours := Null; courseReferenceNumber := Val "401";
       meetingsFaculty := Val [Some {| meetingTime := Null |}] |} in
  compute_section_credits section = Raise AttributeError
  ∧ extract_meeting_times section = Ok [].
Proof. split; reflexivity. Qed.

(** *** Scoring *)

(** The scoring example of the specification: Monday, Wednesday and Friday
    10:00-10:50 scores more than the same with Tuesday 07:00-07:50 added. *)
Example spec_scoring_example :
  let mwf := [meeting Mon 600 650; meeting Wed 600 650; meeting Fri 600 650] in
  evaluate_schedule [section_of "A" "1" mwf] default_scoring None
  = float_lit (975 # 10)
  ∧ fltb (evaluate_schedule
            [section_of "A" "1" (mwf ++ [meeting Tue 420 470])]
            default_scoring None)
         (evaluate_schedule [section_of "A" "1" mwf] default_scoring None)
    = true.
Proof. split; reflexivity. Qed.

Lemma evaluate_schedule_hooks_witness :
  let schedule := [section_of "A" "1" [meeting Mon 600 650]] in
  let bonus : penalty_hook := λ _, Some (float_of_int 1) in
  let malus : penalty_hook := λ _, Some (float_of_int (-2)) in
  let failing : penalty_hook := λ _, None in
  evaluate_schedule schedule default_scoring (Some [bonus; failing; malus])
  = evaluate_schedule schedule default_scoring (Some [bonus; malus])
  ∧ evaluate_schedule schedule default_scoring (Some [bonus; failing; malus])
    = round2 (foldl fadd (base_score schedule default_scoring)
                [float_of_int 1; float_of_int (-2)]).
Proof.
  intros schedule bonus malus failing.
  apply (evaluate_schedule_isolates_hooks schedule default_scoring
           [bonus] [malus] failing).
  - discriminate.
  - reflexivity.
Defined.

(** *** The optimizer *)

Lemma demo_score_order : score_order_on (scores_of demo_kw5 demo_data).
Proof. apply score_order_test_sound. vm_compute. reflexivity. Qed.

Lemma optimize_courses_ranked_witness :
  optimize_courses demo_data demo_kw5 = Ok (output_of demo_kw5 demo_data)
  ∧ scores_of demo_kw5 demo_data
    = [float_lit (615 # 10); float_lit (7245 # 100)]
  ∧ output_scores (output_of demo_kw5 demo_data)
    = [float_lit (7245 # 100); float_lit (615 # 10)]
  ∧ map fst (output_of demo_kw5 demo_data)
    = map schedule_label (seq 1 (length (output_of demo_kw5 demo_data)))
  ∧ non_increasing (output_scores (output_of demo_kw5 demo_data)).
Proof.
  assert (build_tables (_resolve_options demo_kw5) demo_data
          = Ok (tables_of demo_kw5 demo_data)) as Hbuild
    by (apply build_tables_tables_of; vm_compute; reflexivity).
  assert (optimize_courses demo_data demo_kw5
          = Ok (output_of demo_kw5 demo_data)) as Hout
    by (apply optimize_courses_output_of; vm_compute; reflexivity).
  destruct (optimize_courses_ranked demo_data demo_kw5
              (tables_of demo_kw5 demo_data) (output_of demo_kw5 demo_data)
              Hbuild Hout)
    as (Hlen & Hkeys & ranked & rest & _ & _ & _ & Horder).
  destruct (Horder demo_score_order) as (Hdesc & _).
  split_and!; [done | vm_compute; reflexivity | vm_compute; reflexivity
              | done | done].
Defined.

(** C4, the claim as stated fails: a hook gives the second of three
    candidates the score NaN.  No candidate then scores less than the one
    found after it, [list.sort] leaves the three in the order they were
    found, and the first entry of the output scores less than the
    third. *)
Lemma nan_score_breaks_ranking :
  scores_of nan_kw nan_data
  = [float_lit (-1385 # 10); PrimFloat.nan; float_lit (-1145 # 10)]
  ∧ output_scores (output_of nan_kw nan_data) = scores_of nan_kw nan_data
  ∧ map fst (output_of nan_kw nan_data)
    = ["Schedule 1"; "Schedule 2"; "Schedule 3"]
  ∧ fltb (float_lit (-1385 # 10)) (float_lit (-1145 # 10)) = true
  ∧ ¬ non_increasing (output_scores (output_of nan_kw nan_data)).
Proof.
  assert (output_scores (output_of nan_kw nan_data)
          = [float_lit (-1385 # 10); PrimFloat.nan; float_lit (-1145 # 10)])
    as Hscores by (vm_compute; reflexivity).
  split_and!; try (vm_compute; reflexivity).
  rewrite Hscores. intros Hdesc.
  by specialize (Hdesc 0%nat 2%nat _ _ ltac:(lia) eq_refl eq_refl).
Qed.

Example demo_output_labels :
  map fst (output_of (demo_keywords cs_spec 5) demo_data)
  = ["Schedule 1"; "Schedule 2"].
Proof. vm_compute. reflexivity. Qed.

Lemma nonpositive_max_schedules_witness :
  build_tables (_resolve_options (demo_keywords cs_spec (-1)))
               [null_seats_record] = Raise TypeError
  ∧ optimize_courses [null_seats_record] (demo_keywords cs_spec (-1))
    = Raise (ValueError "max_schedules must be positive")
  ∧ optimize_courses demo_data (demo_keywords cs_spec 0)
    = Raise (ValueError "max_schedules must be positive").
Proof.
  split; [reflexivity|]. split.
  - apply (nonpositive_max_schedules_raises [null_seats_record]
             (demo_keywords cs_spec (-1))).
    discriminate.
  - apply (nonpositive_max_schedules_raises demo_data
             (demo_keywords cs_spec 0)).
    discriminate.
Defined.

(** *** Unfulfillable requirements *)

(** C3, the claim as stated fails: normalization completes, each group of
    the math requirement has a course without sections, and with
    [max_schedules] 0 the optimizer raises instead of returning the empty
    mapping. *)
Lemma unsatisfiable_requirement_zero_max_raises :
  is_ok (build_tables (_resolve_options (demo_keywords math_spec 0)) demo_data)
  = true
  ∧ unavailable_test (tables_of (demo_keywords math_spec 0) demo_data)
                     "MATH1020" = true
  ∧ unavailable_test (tables_of (demo_keywords math_spec 0) demo_data)
                     "MATH1010" = true
  ∧ optimize_courses demo_data (demo_keywords math_spec 0)
    = Raise (ValueError "max_schedules must be positive").
Proof. split_and!; [vm_compute; reflexivity..|reflexivity]. Qed.

(** A requirement of the spec named "hass_electives" is replaced by the
    synthesized one: it cannot be fulfilled, and schedules are returned. *)
Example hass_electives_key_overwritten :
  let kw := demo_keywords [("hass_electives", [["MATH1020"]])] 5 in
  unavailable_test (tables_of kw demo_data) "MATH1020" = true
  ∧ map fst (output_of kw demo_data)
    = ["Schedule 1"; "Schedule 2"; "Schedule 3"].
Proof. split; vm_compute; reflexivity. Qed.

Lemma unsatisfiable_requirement_witness :
  unsatisfiable (tables_of (demo_keywords math_spec 5) demo_data)
                [["MATH1020"]; ["MATH1010"; "CSCI1200"]]
  ∧ optimize_courses demo_data (demo_keywords math_spec 5) = Ok [].
Proof.
  assert (unsatisfiable (tables_of (demo_keywords math_spec 5) demo_data)
            [["MATH1020"]; ["MATH1010"; "CSCI1200"]]) as Hun.
  { intros group Hgroup.
    apply elem_of_cons in Hgroup as [->|Hgroup].
    - exists "MATH1020". split; [by left|].
      apply unavailable_test_sound. vm_compute. reflexivity.
    - apply list_elem_of_singleton in Hgroup as ->.
      exists "MATH1010". split; [by left|].
      apply unavailable_test_sound. vm_compute. reflexivity. }
  split; [exact Hun|].
  apply (unsatisfiable_requirement_empty_output demo_data
           (demo_keywords math_spec 5)
           (tables_of (demo_keywords math_spec 5) demo_data)).
  - reflexivity.
  - apply (bool_decide_unpack _). vm_compute. exact I.
  - apply build_tables_tables_of. vm_compute. reflexivity.
  - left. exists "math_requirement", [["MATH1020"]; ["MATH1010"; "CSCI1200"]].
    split_and!; [|discriminate|exact Hun].
    right. by left.
Defined.

(** C10, the claim as stated fails: normalization completes, no elective
    course has a section, the course of the named requirement has one, and
    with [max_schedules] 0 the optimizer raises instead of returning the
    empty mapping. *)
Lemma no_electives_zero_max_raises :
  is_ok (build_tables (_resolve_options (demo_keywords cs_spec 0))
                      required_only_data) = true
  ∧ no_electives_test (tables_of (demo_keywords cs_spec 0) required_only_data)
    = true
  ∧ unavailable_test (tables_of (demo_keywords cs_spec 0) required_only_data)
                     "CSCI1200" = false
  ∧ optimize_courses required_only_data (demo_keywords cs_spec 0)
    = Raise (ValueError "max_schedules must be positive").
Proof. split_and!; [vm_compute; reflexivity..|reflexivity]. Qed.

Lemma no_elective_sections_witness :
  no_electives (tables_of (demo_keywords cs_spec 5) required_only_data)
  ∧ optimize_courses required_only_data (demo_keywords cs_spec 5) = Ok [].
Proof.
  assert (no_electives (tables_of (demo_keywords cs_spec 5) required_only_data))
    as Hno by (apply no_electives_test_sound; vm_compute; reflexivity).
  split; [exact Hno|].
  apply (no_elective_sections_empty_output required_only_data
           (demo_keywords cs_spec 5)
           (tables_of (demo_keywords cs_spec 5) required_only_data)).
  - reflexivity.
  - apply build_tables_tables_of. vm_compute. reflexivity.
  - exact Hno.
Defined.

End Examples.

(** * Further properties *)

(** ** Combination search engine: counts *)

Section SearchCounts.
Context `{RT : PyRuntime}.

Lemma length_flat_map_const {A B : Type} (f : A → list B) (l : list A) n :
  (∀ x, x ∈ l → length (f x) = n) →
  length (flat_map f l) = (length l * n)%nat.
Proof.
  induction l as [|x l IH]; intros Hf; simpl; [done|].
  rewrite length_app, Hf by (by left). rewrite IH; [lia|].
  intros y Hy. apply Hf. by right.
Qed.

Lemma length_flat_map_le {A B : Type} (f : A → list B) (l : list A) n :
  (∀ x, x ∈ l → length (f x) ≤ n)%nat →
  (length (flat_map f l) ≤ length l * n)%nat.
Proof.
  induction l as [|x l IH]; intros Hf; simpl; [done|].
  rewrite length_app.
  assert (length (f x) ≤ n)%nat by (apply Hf; by left).
  assert (length (flat_map f l) ≤ length l * n)%nat; [|lia].
  apply IH. intros y Hy. apply Hf. by right.
Qed.

Lemma length_extend_combos_le sects combos :
  (length (extend_combos sects combos) ≤ length sects * length combos)%nat.
Proof.
  unfold extend_combos. apply length_flat_map_le. intros sect _.
  replace (length combos) with (length combos * 1)%nat by lia.
  apply length_flat_map_le. intros combo _.
  destruct (forallb _ combo); simpl; lia.
Qed.

Lemma length_section_combinations_from_le remaining : ∀ combos,
  (length (section_combinations_from combos remaining)
   ≤ length combos * section_product remaining)%nat.
Proof.
  induction remaining as [|course rest IH]; intros combos;
    cbn [section_combinations_from section_product foldr]; [lia|].
  fold (section_product rest).
  destruct (sections course) as [|s0 ss] eqn:Hsects; [apply Nat.le_0_l|].
  pose proof (length_extend_combos_le (s0 :: ss) combos) as Hext.
  destruct (extend_combos (s0 :: ss) combos) as [|n ns] eqn:Hnew;
    [apply Nat.le_0_l|].
  etrans; [apply IH|]. nia.
Qed.

(** With every section compatible, every extension is admitted. *)
Lemma extend_combos_all_compatible sects combos :
  (∀ sect combo e, sect ∈ sects → combo ∈ combos → e ∈ combo →
     conflicts_with sect e = false) →
  extend_combos sects combos
  = flat_map (λ sect, map (λ combo, combo ++ [sect]) combos) sects.
Proof.
  intros Hfree. unfold extend_combos.
  assert (∀ (l : list CSection), (∀ x, x ∈ l → x ∈ sects) →
            flat_map (λ sect,
              flat_map (λ combo,
                if forallb (λ existing, negb (conflicts_with sect existing)) combo
                then [combo ++ [sect]] else []) combos) l
            = flat_map (λ sect, map (λ combo, combo ++ [sect]) combos) l) as H.
  { induction l as [|sect l IH]; intros Hl; simpl; [done|].
    rewrite IH by (intros x Hx; apply Hl; by right). f_equal.
    assert (sect ∈ sects) as Hsect by (apply Hl; by left).
    assert (∀ (k : list (list CSection)), (∀ x, x ∈ k → x ∈ combos) →
              flat_map (λ combo,
                if forallb (λ existing, negb (conflicts_with sect existing)) combo
                then [combo ++ [sect]] else []) k
              = map (λ combo, combo ++ [sect]) k) as Hk.
    { induction k as [|combo k IHk]; intros Hin; simpl; [done|].
      rewrite IHk by (intros x Hx; apply Hin; by right).
      assert (forallb (λ existing, negb (conflicts_with sect existing)) combo
              = true) as ->; [|done].
      apply compatible_spec. intros e He.
      apply (Hfree sect combo e); [done| |done]. apply Hin. by left. }
    by apply Hk. }
  by apply H.
Qed.

Lemma elem_of_flat_map_snoc (sects : list CSection)
    (combos : list (list CSection)) x :
  x ∈ flat_map (λ sect, map (λ combo, combo ++ [sect]) combos) sects →
  ∃ sect combo, x = combo ++ [sect] ∧ sect ∈ sects ∧ combo ∈ combos.
Proof.
  rewrite list_elem_of_In, in_flat_map. intros (sect & Hs & Hx).
  apply in_map_iff in Hx as (combo & <- & Hc).
  exists sect, combo. by rewrite !list_elem_of_In.
Qed.

Lemma length_section_combinations_from_compatible remaining : ∀ combos,
  pairwise_compatible remaining →
  (∀ combo e c s, combo ∈ combos → e ∈ combo → c ∈ remaining →
     s ∈ sections c → conflicts_with s e = false) →
  length (section_combinations_from combos remaining)
  = (length combos * section_product remaining)%nat.
Proof.
  induction remaining as [|course rest IH]; intros combos Hpair Hcombos;
    cbn [section_combinations_from section_product foldr]; [lia|].
  fold (section_product rest).
  destruct Hpair as [Hcourse Hrest].
  destruct (sections course) as [|s0 ss] eqn:Hsects; [simpl; lia|].
  assert (extend_combos (s0 :: ss) combos
          = flat_map (λ sect, map (λ combo, combo ++ [sect]) combos) (s0 :: ss))
    as Hext.
  { apply extend_combos_all_compatible. intros sect combo e Hs Hc He.
    rewrite <- Hsects in Hs.
    apply (Hcombos combo e course sect Hc He); [by left|done]. }
  assert (length (extend_combos (s0 :: ss) combos)
          = (length (s0 :: ss) * length combos)%nat) as Hlen.
  { rewrite Hext. apply length_flat_map_const. intros x _.
    apply length_map. }
  assert (length (section_combinations_from
                    (extend_combos (s0 :: ss) combos) rest)
          = (length (extend_combos (s0 :: ss) combos)
             * section_product rest)%nat) as Hrec.
  { apply IH; [done|]. intros combo e c s Hcombo He Hc Hs.
    rewrite Hext in Hcombo.
    apply elem_of_flat_map_snoc in Hcombo as (sect & pre & -> & Hsect & Hpre).
    apply elem_of_app in He as [He|He].
    - apply (Hcombos pre e c s Hpre He); [by right|done].
    - apply list_elem_of_singleton in He as ->.
      by apply (Hcourse c sect s). }
  destruct (extend_combos (s0 :: ss) combos) as [|n ns] eqn:Hnew.
  - simpl length in Hlen |- *. nia.
  - rewrite Hrec, Hlen. simpl length. nia.
Qed.

(** X1: the search never returns more candidates than there are ways to
    pick one section per course, and every candidate has one section per
    course of the slate. *)
Theorem generate_section_combinations_bounded (self : CourseCombo) :
  (length (generate_section_combinations self)
   ≤ section_product (courses self))%nat
  ∧ ∀ combo, combo ∈ generate_section_combinations self →
      length combo = length (courses self).
Proof.
  unfold generate_section_combinations. split.
  - pose proof (length_section_combinations_from_le (courses self) [[]]) as H.
    simpl in H. lia.
  - intros combo Hin.
    apply elem_of_section_combinations_from in Hin
      as (pre & suf & -> & ->%list_elem_of_singleton & Hsuf & _).
    simpl. symmetry. by eapply Forall2_length.
Qed.

(** X2: when no section of a course of the slate conflicts with a section
    of another course of the slate, the search returns every way to pick
    one section per course: their number is the product of the section
    counts. *)
Theorem generate_section_combinations_no_conflicts (self : CourseCombo) :
  pairwise_compatible (courses self) →
  length (generate_section_combinations self)
  = section_product (courses self).
Proof.
  intros Hpair. unfold generate_section_combinations.
  rewrite length_section_combinations_from_compatible; [simpl; lia|done|].
  intros combo e c s ->%list_elem_of_singleton He.
  by apply elem_of_nil in He.
Qed.

(** X3: when every section of one course of the slate conflicts with every
    section of another course of the slate, the slate has no candidate. *)
Theorem generate_section_combinations_all_conflicting
    (self : CourseCombo) (i j : nat) (ci cj : Course) :
  i ≠ j →
  courses self !! i = Some ci → courses self !! j = Some cj →
  (∀ s t, s ∈ sections ci → t ∈ sections cj → conflicts_with s t = true) →
  generate_section_combinations self = [].
Proof.
  intros Hij Hi Hj Hall.
  destruct (generate_section_combinations self) as [|combo rest] eqn:Hgen;
    [done|].
  assert (combo ∈ generate_section_combinations self) as Hin
    by (rewrite Hgen; by left).
  unfold generate_section_combinations in Hin.
  apply elem_of_section_combinations_from in Hin
    as (pre & suf & -> & ->%list_elem_of_singleton & Hsuf & Hext).
  simpl in *.
  apply (extends_free_nil_conflict_free [] suf) in Hext;
    [|intros ? ? ? ? _ H; by rewrite lookup_nil in H].
  simpl in Hext. unfold one_section_per_course in Hsuf.
  destruct (Forall2_lookup_l _ _ _ _ _ Hsuf Hi) as (s & Hs & Hsin).
  destruct (Forall2_lookup_l _ _ _ _ _ Hsuf Hj) as (t & Ht & Htin).
  pose proof (Hall s t Hsin Htin) as Hconf.
  assert (conflicts_with s t = false); [|congruence].
  apply conflicts_with_false. intros m1 m2 H1 H2.
  by apply (Hext i j s t).
Qed.

End SearchCounts.

(** ** Requirement resolver *)

Section Resolver.
Context `{RT : PyRuntime}.

(** X4: a group of course codes is kept exactly when every code names a
    course of the table that has a section, and the concrete group lists
    those courses in the order of the codes. *)
Theorem concrete_group_resolved
    (cd : gmap string (option Course)) (group : list string)
    (cs : list Course) :
  concrete_group cd group = Some cs ↔
  Forall2 (λ code c, cd !! code = Some (Some c) ∧ sections c ≠ []) group cs.
Proof.
  revert cs. induction group as [|code rest IH]; intros cs; simpl.
  - split; [intros [= <-]; constructor|].
    intros ->%Forall2_nil_inv_l. done.
  - split.
    + destruct (cd !! code) as [[c|]|] eqn:Hc; try done.
      destruct (sections c) as [|s ss] eqn:Hs; [done|].
      destruct (concrete_group cd rest) as [cs'|] eqn:Hrest; [|done].
      intros [= <-]. constructor; [by rewrite Hs|]. by apply IH.
    + intros (c & cs' & [Hc Hs] & Hrest & ->)%Forall2_cons_inv_l.
      rewrite Hc. destruct (sections c) as [|s ss]; [done|].
      apply IH in Hrest. by rewrite Hrest.
Qed.

Lemma concrete_group_sections
    (cd : gmap string (option Course)) (group : list string) :
  ∀ cs, concrete_group cd group = Some cs →
        Forall (λ c, sections c ≠ []) cs.
Proof.
  induction group as [|code rest IH]; intros cs; simpl.
  - intros [= <-]. constructor.
  - destruct (cd !! code) as [[c|]|]; try done.
    destruct (sections c) as [|s ss] eqn:Hs; [done|].
    destruct (concrete_group cd rest) as [cs'|]; [|done].
    intros [= <-]. constructor; [by rewrite Hs | by apply IH].
Qed.

Lemma concrete_groups_courses cd groups group c :
  group ∈ concrete_groups cd groups → c ∈ group → sections c ≠ [].
Proof.
  unfold concrete_groups. intros (g & _ & Hg)%list_elem_of_omap Hc.
  apply concrete_group_sections in Hg.
  rewrite Forall_forall in Hg. by apply Hg.
Qed.

Lemma hass_groups_courses hd group c :
  group ∈ hass_groups hd → c ∈ group → sections c ≠ [].
Proof.
  unfold hass_groups. intros (c' & -> & Hc')%list_elem_of_fmap Hc.
  apply list_elem_of_singleton in Hc as ->.
  by apply list_elem_of_filter in Hc' as [Hs _].
Qed.

Lemma course_combinations_from_some reqs : ∀ combos slates,
  course_combinations_from combos reqs = Some slates →
  length slates = (length combos * group_product reqs)%nat
  ∧ ∀ slate,
      slate ∈ slates ↔
      ∃ pre choice, pre ∈ combos ∧ one_group_per_requirement reqs choice
                    ∧ slate = pre ++ concat choice.
Proof.
  unfold one_group_per_requirement.
  induction reqs as [|req rest IH]; intros combos slates;
    cbn [course_combinations_from group_product foldr].
  - intros [= <-]. split; [lia|]. intros slate. split.
    + intros Hin. exists slate, []. split_and!; [done|constructor|].
      by rewrite app_nil_r.
    + intros (pre & choice & Hpre & ->%Forall2_nil_inv_l & ->).
      by rewrite app_nil_r.
  - fold (group_product rest).
    destruct (subject_course_groups req) as [|g gs] eqn:Hg; [done|].
    intros Hrec. apply IH in Hrec as [Hlen Hmem]. split.
    + rewrite Hlen.
      rewrite (length_flat_map_const _ _ (length combos))
        by (intros; apply length_map).
      lia.
    + intros slate. rewrite Hmem. split.
      * intros (pre' & choice & Hpre' & Hchoice & ->).
        apply list_elem_of_In, in_flat_map in Hpre' as (group & Hgroup & Hpre').
        apply in_map_iff in Hpre' as (pre & <- & Hpre).
        exists pre, (group :: choice).
        rewrite <- !list_elem_of_In in *.
        split_and!; [done|constructor; [by rewrite Hg|done]|].
        simpl. by rewrite app_assoc.
      * intros (pre & choice & Hpre & Hchoice & ->).
        apply Forall2_cons_inv_l in Hchoice
          as (group & choice' & Hgroup & Hchoice' & ->).
        rewrite Hg in Hgroup.
        exists (pre ++ group), choice'. split_and!; [|done|].
        -- apply list_elem_of_In, in_flat_map. exists group.
           split; [by apply list_elem_of_In|].
           apply in_map_iff. exists pre. by rewrite <- list_elem_of_In.
        -- simpl. by rewrite app_assoc.
Qed.

Lemma course_combinations_from_none_inv reqs : ∀ combos,
  course_combinations_from combos reqs = None →
  ∃ req, req ∈ reqs ∧ subject_course_groups req = [].
Proof.
  induction reqs as [|req rest IH]; intros combos; simpl; [done|].
  destruct (subject_course_groups req) as [|g gs] eqn:Hg.
  - intros _. exists req. split; [by left|done].
  - intros (r & Hr & Hnone)%IH. exists r. split; [by right|done].
Qed.

(** X5: the course slates are the concatenations of one group per
    requirement, in the order of the requirements, each behind a partial
    slate; there are as many as products of the group counts; and there is
    no slate at all exactly when a requirement has no group. *)
Theorem course_combinations_from_product
    (reqs : list CourseRequirement) (combos : list (list Course)) :
  (course_combinations_from combos reqs = None ↔
   ∃ req, req ∈ reqs ∧ subject_course_groups req = [])
  ∧ ∀ slates,
      course_combinations_from combos reqs = Some slates →
      length slates = (length combos * group_product reqs)%nat
      ∧ ∀ slate,
          slate ∈ slates ↔
          ∃ pre choice, pre ∈ combos ∧ one_group_per_requirement reqs choice
                        ∧ slate = pre ++ concat choice.
Proof.
  split.
  - split; [apply course_combinations_from_none_inv|].
    apply course_combinations_from_none.
  - apply course_combinations_from_some.
Qed.

(** Every requirement of the dictionary comes from the spec or is the
    synthesized one. *)
Lemma dict_set_elem_of_inv {K V : Type} `{EqDecision K} (key k : K) (v w : V)
    (d : list (K * V)) :
  (k, w) ∈ dict_set key v d → (k, w) = (key, v) ∨ (k, w) ∈ d.
Proof.
  induction d as [|[k' w'] d IH]; simpl.
  - intros ->%list_elem_of_singleton. by left.
  - destruct (decide (k' = key)).
    + intros [->|Hin]%elem_of_cons; [by left|]. right. by right.
    + intros [->|Hin]%elem_of_cons; [right; by left|].
      destruct (IH Hin) as [?|?]; [by left|]. right. by right.
Qed.

Lemma resolve_requirements_groups opts t name req group :
  (name, req) ∈ resolve_requirements opts t →
  group ∈ subject_course_groups req →
  (∃ groups, group ∈ concrete_groups (courses_dict t) groups)
  ∨ group ∈ hass_groups (hass_dict t).
Proof.
  unfold resolve_requirements. intros Hin Hgroup.
  apply dict_set_elem_of_inv in Hin as [[= _ ->]|Hin]; [by right|].
  left. revert Hin.
  assert (∀ (spec : list (string * list (list string)))
            (reqs : list (string * CourseRequirement)),
            (∀ n r g, (n, r) ∈ reqs → g ∈ subject_course_groups r →
               ∃ groups, g ∈ concrete_groups (courses_dict t) groups) →
            (name, req)
            ∈ foldl (λ reqs '(name, groups),
                       dict_set name
                         {| subject_course_groups :=
                              concrete_groups (courses_dict t) groups |}
                         reqs) reqs spec →
            ∃ groups, group ∈ concrete_groups (courses_dict t) groups) as H.
  { induction spec as [|[n g] spec IH]; intros reqs Hreqs; simpl.
    - intros Hin. by eapply Hreqs.
    - apply IH. intros n' r' g' Hin' Hg'.
      apply dict_set_elem_of_inv in Hin' as [[= _ ->]|Hin'].
      + by exists g.
      + by eapply Hreqs. }
  apply H. intros n r g Hnil. by apply elem_of_nil in Hnil.
Qed.

(** X6: no course without sections reaches the search engine: every
    course of every slate of a run has a section. *)
Theorem course_slates_have_sections
    (opts : OptimizationOptions) (t : Tables) (slates : list (list Course))
    (slate : list Course) (c : Course) :
  course_slates opts t = Some slates →
  slate ∈ slates → c ∈ slate → sections c ≠ [].
Proof.
  unfold course_slates. intros Hslates Hslate Hc.
  apply course_combinations_from_some in Hslates as [_ Hmem].
  apply Hmem in Hslate
    as (pre & choice & ->%list_elem_of_singleton & Hchoice & ->).
  simpl in Hc.
  apply list_elem_of_In, in_concat in Hc as (group & Hgroup & Hc).
  apply list_elem_of_In in Hgroup, Hc.
  apply list_elem_of_lookup in Hgroup as [i Hi].
  destruct (Forall2_lookup_r _ _ _ _ _ Hchoice Hi) as (req & Hreq & Hin).
  apply list_lookup_fmap_Some in Hreq as ([name req'] & -> & Hreq).
  apply list_elem_of_lookup_2 in Hreq. simpl in Hin.
  destruct (resolve_requirements_groups opts t name req' group Hreq Hin)
    as [[groups Hg]|Hg].
  - by eapply concrete_groups_courses.
  - by eapply hass_groups_courses.
Qed.

End Resolver.

(** ** Course tables *)

Section CourseTables.
Context `{RT : PyRuntime}.

Lemma add_section_header self section self' :
  add_section self section = Ok self' →
  subject_course self' = subject_course self
  ∧ course_label self' = course_label self
  ∧ (labelled self → labelled self').
Proof.
  unfold add_section, labelled.
  destruct (extract_meeting_times section) as [[|m mts]|]; simpl;
    intros [= <-]; split_and!; try done.
  intros Hself. simpl. apply Forall_app. split; [done|].
  by apply Forall_singleton.
Qed.

Lemma new_course_labelled sc ti cr : labelled (new_course sc ti cr).
Proof. by apply Forall_nil. Qed.

Lemma dict_set_keys {K V : Type} `{EqDecision K} (key : K) (v : V)
    (d : list (K * V)) :
  map fst (dict_set key v d)
  = if decide (key ∈ map fst d) then map fst d else map fst d ++ [key].
Proof.
  induction d as [|[k w] d IH]; simpl; [done|].
  destruct (decide (k = key)) as [->|Hne]; simpl.
  - rewrite decide_True by (by left). done.
  - rewrite IH. destruct (decide (key ∈ map fst d)) as [Hin|Hnin].
    + rewrite decide_True by (by right). done.
    + rewrite decide_False; [done|].
      intros [?|?]%elem_of_cons; congruence.
Qed.

Lemma dict_set_NoDup {K V : Type} `{EqDecision K} (key : K) (v : V)
    (d : list (K * V)) :
  NoDup (map fst d) → NoDup (map fst (dict_set key v d)).
Proof.
  intros Hd. rewrite dict_set_keys.
  destruct (decide (key ∈ map fst d)); [done|].
  apply NoDup_app. split_and!; [done| |apply NoDup_singleton].
  intros x Hx ->%list_elem_of_singleton. done.
Qed.

Lemma add_required_consistent cd sc ti cr section cd' :
  add_required cd sc ti cr section = Ok cd' →
  (∀ code c, cd !! code = Some (Some c) →
     subject_course c = Some code ∧ labelled c) →
  dom cd' = dom cd
  ∧ ∀ code c, cd' !! code = Some (Some c) →
      subject_course c = Some code ∧ labelled c.
Proof.
  unfold add_required. intros Hadd Hcd.
  destruct sc as [code|]; [|by simplify_eq].
  destruct (cd !! code) as [slot|] eqn:Eslot; [|by simplify_eq].
  destruct (add_section _ section) as [c'|] eqn:Ec'; simpl in Hadd; [|done].
  injection Hadd as <-.
  apply add_section_header in Ec' as (Hsc & _ & Hlab). split.
  - rewrite dom_insert_L.
    apply subseteq_union_1_L, singleton_subseteq_l, elem_of_dom.
    by eexists.
  - intros code' c Hc.
    destruct (decide (code = code')) as [<-|Hne].
    + rewrite lookup_insert_eq in Hc. simplify_eq.
      destruct slot as [c0|]; simpl in *.
      * destruct (Hcd code c0 Eslot) as [Hsc0 Hlab0].
        split; [congruence|auto].
      * split; [done|]. apply Hlab, new_course_labelled.
    + rewrite lookup_insert_ne in Hc by done. by apply Hcd.
Qed.

Lemma add_hass_consistent opts hd su sc ti cr section hd' :
  add_hass opts hd su sc ti cr section = Ok hd' →
  NoDup (map fst hd) →
  Forall (λ kc, subject_course (snd kc) = fst kc ∧ labelled (snd kc)) hd →
  NoDup (map fst hd')
  ∧ Forall (λ kc, subject_course (snd kc) = fst kc ∧ labelled (snd kc)) hd'.
Proof.
  unfold add_hass. intros Hadd Hnodup Hhd.
  destruct (bool_decide _); [|by simplify_eq].
  destruct (add_section _ section) as [c'|] eqn:Ec'; simpl in Hadd; [|done].
  injection Hadd as <-.
  apply add_section_header in Ec' as (Hsc & _ & Hlab).
  split; [by apply dict_set_NoDup|].
  apply dict_set_Forall; [|done]. simpl.
  destruct (dict_get sc hd) as [c0|] eqn:Eget; simpl in *.
  - apply dict_get_elem_of in Eget.
    destruct (proj1 (Forall_forall _ _) Hhd _ Eget) as [Hsc0 Hlab0].
    simpl in *. split; [congruence|auto].
  - split; [done|]. apply Hlab, new_course_labelled.
Qed.

Lemma add_record_consistent opts t section t' :
  add_record opts t section = Ok t' →
  consistent_tables opts t → consistent_tables opts t'.
Proof.
  unfold add_record. intros Hadd (Hdom & Hcd & Hnodup & Hhd).
  destruct (get_default (seatsAvailable section) 0) as [seats|]; [|done].
  destruct (seats <? _); [by simplify_eq|].
  destruct (compute_section_credits section) as [cr|]; simpl in Hadd; [|done].
  destruct (subject_filtered _ _); [by simplify_eq|].
  destruct (add_required _ _ _ _ _) as [cd|] eqn:Ecd; simpl in Hadd; [|done].
  destruct (add_hass _ _ _ _ _ _ _) as [hd|] eqn:Ehd; simpl in Hadd; [|done].
  injection Hadd as <-.
  destruct (add_required_consistent _ _ _ _ _ _ Ecd Hcd) as [Hdom' Hcd'].
  destruct (add_hass_consistent _ _ _ _ _ _ _ _ Ehd Hnodup Hhd)
    as [Hnodup' Hhd'].
  split_and!; simpl; [congruence|done..].
Qed.

Lemma initial_tables_consistent opts :
  consistent_tables opts (initial_tables opts).
Proof.
  split_and!; simpl.
  - rewrite dom_list_to_map_L. f_equal.
    rewrite <- list_fmap_compose. apply list_fmap_id.
  - intros code c Hc. apply elem_of_list_to_map_2 in Hc.
    by apply list_elem_of_fmap in Hc as (? & ? & _).
  - constructor.
  - constructor.
Qed.

(** X7: in the tables a catalog normalizes to, the required courses are
    keyed by exactly the codes of the requirement spec, every course is
    stored under its own code, the elective courses have distinct keys,
    and every section refers back to the course it is stored in. *)
Theorem build_tables_consistent
    (opts : OptimizationOptions) (courses_data : list RawSection)
    (t : Tables) :
  build_tables opts courses_data = Ok t → consistent_tables opts t.
Proof.
  unfold build_tables.
  generalize (initial_tables_consistent opts).
  generalize (initial_tables opts).
  induction courses_data as [|section rest IH]; intros t0 Ht0; simpl.
  - by intros [= <-].
  - destruct (add_record opts t0 section) as [t1|] eqn:E1; simpl; [|done].
    apply IH. by eapply add_record_consistent.
Qed.

Lemma rfold_app {A S : Type} (step : S → A → result S) (l1 l2 : list A) :
  ∀ acc, rfold step acc (l1 ++ l2)
         = do acc' <- rfold step acc l1; rfold step acc' l2.
Proof.
  induction l1 as [|x l1 IH]; intros acc; simpl; [done|].
  destruct (step acc x); simpl; [apply IH|done].
Qed.

Lemma add_record_below_seat_threshold opts t section :
  below_seat_threshold opts section → add_record opts t section = Ok t.
Proof.
  intros (seats & Hseats & Hlow). unfold add_record. rewrite Hseats.
  destruct (Z.ltb_spec seats (min_seats_available opts)); [done|lia].
Qed.

(** X8: a record below the seat threshold is ignored, whatever else it
    holds: the tables are those of the catalog without it, and it cannot
    make the normalization raise. *)
Theorem low_seat_record_ignored
    (opts : OptimizationOptions) (before after : list RawSection)
    (section : RawSection) :
  below_seat_threshold opts section →
  build_tables opts (before ++ section :: after)
  = build_tables opts (before ++ after).
Proof.
  intros Hlow. unfold build_tables. rewrite !rfold_app.
  destruct (rfold (add_record opts) (initial_tables opts) before) as [t|];
    simpl; [|done].
  by rewrite add_record_below_seat_threshold.
Qed.

End CourseTables.

(** ** Returned schedules *)

Section Returned.
Context `{RT : PyRuntime}.

Lemma build_tables_all_below opts courses_data :
  Forall (below_seat_threshold opts) courses_data →
  build_tables opts courses_data = Ok (initial_tables opts).
Proof.
  intros Hall. unfold build_tables. generalize (initial_tables opts).
  induction Hall as [|section rest Hlow _ IH]; intros t0; simpl; [done|].
  rewrite add_record_below_seat_threshold by done. simpl. apply IH.
Qed.

(** X9: a catalog that is empty, or of which every record is below the
    seat threshold, gives the empty mapping, whatever the requirements
    are: no elective course is left. *)
Theorem no_usable_record_empty_output
    (courses_data : list RawSection) (kw : Keywords) :
  0 < max_schedules (_resolve_options kw) →
  Forall (below_seat_threshold (_resolve_options kw)) courses_data →
  optimize_courses courses_data kw = Ok [].
Proof.
  intros Hmax Hlow.
  apply (no_candidates_empty_output _ _ (initial_tables (_resolve_options kw)));
    [done|by apply build_tables_all_below|].
  eapply unfulfillable_no_candidates;
    [apply elective_requirement_resolved|done].
Qed.

Lemma length_slice_to {A : Type} (n : Z) (l : list A) :
  0 ≤ n → length (slice_to n l) = (Z.to_nat n `min` length l)%nat.
Proof.
  intros Hn. unfold slice_to.
  destruct (Z.ltb_spec n 0); [lia|]. apply length_take.
Qed.

Lemma elem_of_slice_to {A : Type} (x : A) (n : Z) (l : list A) :
  x ∈ slice_to n l → x ∈ l.
Proof.
  unfold slice_to. destruct (n <? 0); intros Hx.
  - rewrite <- (take_drop (length l - Z.to_nat (- n)) l).
    apply elem_of_app. by left.
  - rewrite <- (take_drop (Z.to_nat n) l). apply elem_of_app. by left.
Qed.

(** X10: the number of schedules returned is [max_schedules] or the
    number of candidates found, whichever is less. *)
Theorem optimize_courses_count
    (courses_data : list RawSection) (kw : Keywords) (t : Tables)
    (out : list (string * ScheduleOut)) :
  build_tables (_resolve_options kw) courses_data = Ok t →
  optimize_courses courses_data kw = Ok out →
  length out
  = (Z.to_nat (max_schedules (_resolve_options kw))
     `min` length (candidates (_resolve_options kw) t))%nat.
Proof.
  intros Hbuild Hout.
  pose proof (optimize_courses_max_positive _ _ _ Hout) as Hmax.
  pose proof (optimize_courses_ok _ _ t Hmax Hbuild) as Hok.
  set (top := assemble_output _) in Hok.
  rewrite Hout in Hok. injection Hok as ->. subst top.
  rewrite assemble_output_length, length_slice_to by lia.
  rewrite sort_by_score_desc_perm.
  unfold score_schedules. by rewrite length_map.
Qed.

Lemma generate_section_combinations_sound slate combo :
  combo ∈ generate_section_combinations {| courses := slate |} →
  one_section_per_course slate combo ∧ conflict_free combo.
Proof.
  unfold generate_section_combinations. simpl.
  intros (pre & suf & -> & ->%list_elem_of_singleton & Hsuf & Hext)
    %elem_of_section_combinations_from.
  split; [done|].
  apply extends_free_nil_conflict_free; [|done].
  intros i j s t _ Hi. by rewrite lookup_nil in Hi.
Qed.

Lemma candidates_sound opts t combo :
  combo ∈ candidates opts t →
  ∃ slates slate,
    course_slates opts t = Some slates ∧ slate ∈ slates
    ∧ one_section_per_course slate combo ∧ conflict_free combo.
Proof.
  unfold candidates, find_valid_schedules, course_slates.
  destruct (course_combinations_from _ _) as [slates|]; simpl;
    [|by intros ?%elem_of_nil].
  intros (slate & Hslate & Hcombo)%list_elem_of_In%in_flat_map.
  apply list_elem_of_In in Hslate, Hcombo.
  apply generate_section_combinations_sound in Hcombo as [Hone Hfree].
  by exists slates, slate.
Qed.

(** X11: every schedule the optimizer returns is a candidate of one of the
    course slates of the run: it takes one section of each course of that
    slate, no two of its sections have overlapping meeting times, and its
    score is the one [evaluate_schedule] gives it. *)
Theorem returned_schedules_sound
    (courses_data : list RawSection) (kw : Keywords) (t : Tables)
    (out : list (string * ScheduleOut)) (label : string)
    (entry : ScheduleOut) :
  build_tables (_resolve_options kw) courses_data = Ok t →
  optimize_courses courses_data kw = Ok out →
  (label, entry) ∈ out →
  ∃ slates slate combo,
    course_slates (_resolve_options kw) t = Some slates ∧ slate ∈ slates
    ∧ one_section_per_course slate combo ∧ conflict_free combo
    ∧ entry
      = format_entry
          (combo,
           evaluate_schedule combo (scoring (_resolve_options kw))
             (Some (penalties (_resolve_options kw)))).
Proof.
  intros Hbuild Hout Hin.
  pose proof (optimize_courses_max_positive _ _ _ Hout) as Hmax.
  pose proof (optimize_courses_ok _ _ t Hmax Hbuild) as Hok.
  set (top := assemble_output _) in Hok.
  rewrite Hout in Hok. injection Hok as ->. subst top.
  apply (list_elem_of_fmap_2 snd) in Hin. simpl in Hin.
  change (snd <$> ?l) with (map snd l) in Hin.
  rewrite assemble_output_entries in Hin.
  apply list_elem_of_fmap in Hin as (x & -> & Hx).
  apply elem_of_slice_to in Hx.
  rewrite sort_by_score_desc_perm in Hx.
  simpl in Hx. unfold score_schedules in Hx.
  apply list_elem_of_fmap in Hx as (combo & -> & Hcombo).
  apply candidates_sound in Hcombo as (slates & slate & ? & ? & ? & ?).
  by exists slates, slate, combo.
Qed.

(** X26: the search never takes the same section twice, even for a slate
    that lists a course more than once (a course code may stand in groups
    of two requirements): a section with a meeting of positive duration
    conflicts with itself. *)
Theorem generate_section_combinations_no_repeated_section
    (self : CourseCombo) (combo : list CSection) :
  Forall valid_course (courses self) →
  combo ∈ generate_section_combinations self →
  NoDup combo.
Proof.
  intros Hvalid Hcombo. destruct self as [slate]. simpl in Hvalid.
  apply generate_section_combinations_sound in Hcombo as [Hone Hfree].
  apply NoDup_alt. intros i j s Hi Hj.
  destruct (decide (i = j)) as [|Hij]; [done|]. exfalso.
  destruct (Forall2_lookup_r _ _ _ _ _ Hone Hi) as (c & Hc & Hs).
  apply list_elem_of_lookup_2 in Hc.
  rewrite Forall_forall in Hvalid. specialize (Hvalid c Hc).
  unfold valid_course in Hvalid. rewrite Forall_forall in Hvalid.
  destruct (Hvalid s Hs) as [Hne Hpos].
  destruct (meeting_times s) as [|m ms] eqn:Hm; [done|].
  apply Forall_cons in Hpos as [Hpos _].
  assert (m ∈ meeting_times s) as Hin by (rewrite Hm; by left).
  pose proof (Hfree i j s s Hij Hi Hj m m Hin Hin) as Hover.
  unfold overlaps_with, positive_duration in *.
  rewrite bool_decide_false in Hover by (intros H; by apply H).
  destruct (Z.leb_spec (end_time m) (begin_time m)); [lia|].
  destruct (Z.geb_spec (begin_time m) (end_time m)); [lia|]. done.
Qed.

End Returned.

(** ** Scoring model: what the score depends on *)

Section ScoreDependence.
Context `{RT : PyRuntime}.

(** X12: without extension hooks, the score of a schedule depends on its
    meeting times only: two non-empty schedules with the same meeting
    times, in the same order, have the same score, however the meetings
    are grouped into sections and whatever the courses are. *)
Theorem evaluate_schedule_meeting_times_only
    (schedule1 schedule2 : list CSection) (weights : ScoringWeights)
    (penalties : option (list penalty_hook)) :
  schedule1 ≠ [] → schedule2 ≠ [] →
  default [] penalties = [] →
  flat_map meeting_times schedule1 = flat_map meeting_times schedule2 →
  evaluate_schedule schedule1 weights penalties
  = evaluate_schedule schedule2 weights penalties.
Proof.
  intros H1 H2 Hhooks Hsame.
  destruct schedule1 as [|s1 r1]; [done|].
  destruct schedule2 as [|s2 r2]; [done|].
  unfold evaluate_schedule, unrounded_score. rewrite Hsame, Hhooks.
  destruct (foldl (collect_meeting weights) _ _) as [score days].
  by destruct (foldl (compactness_day weights) _ _) as [score' spans].
Qed.

Lemma collect_meeting_within weights rate acc mt :
  within_thresholds weights mt →
  collect_meeting (with_early_late_rate weights rate) acc mt
  = collect_meeting weights acc mt.
Proof.
  intros [Hearly Hlate]. unfold collect_meeting. destruct acc as [score days].
  simpl.
  destruct (Z.ltb_spec (begin_time mt) (early_class_threshold weights));
    [lia|].
  destruct (end_time mt >? late_class_threshold weights) eqn:E; [|done].
  apply Z.gtb_lt in E. lia.
Qed.

Lemma collect_meetings_within weights rate mts : ∀ acc,
  Forall (within_thresholds weights) mts →
  foldl (collect_meeting (with_early_late_rate weights rate)) acc mts
  = foldl (collect_meeting weights) acc mts.
Proof.
  induction mts as [|mt mts IH]; intros acc Hall; simpl; [done|].
  apply Forall_cons in Hall as [Hmt Hall].
  rewrite collect_meeting_within by done. by apply IH.
Qed.

(** X13: when no meeting of the schedule begins before the early threshold
    or ends after the late threshold, the rate of the early and late
    penalty has no effect on the score. *)
Theorem evaluate_schedule_no_early_late_penalty
    (schedule : list CSection) (weights : ScoringWeights) (rate : float)
    (penalties : option (list penalty_hook)) :
  Forall (within_thresholds weights) (flat_map meeting_times schedule) →
  evaluate_schedule schedule (with_early_late_rate weights rate) penalties
  = evaluate_schedule schedule weights penalties.
Proof.
  intros Hall. destruct schedule as [|s rest]; [done|].
  unfold evaluate_schedule, unrounded_score.
  by rewrite collect_meetings_within.
Qed.

End ScoreDependence.

(** ** Options *)

Section OptionsResolution.
Context `{RT : PyRuntime}.

Lemma _clone_requirements_spec_eq spec : _clone_requirements_spec spec = spec.
Proof.
  unfold _clone_requirements_spec.
  induction spec as [|[key groups] spec IH]; simpl; [done|].
  rewrite IH. f_equal. f_equal. apply map_id.
Qed.

(** X14: the copy of a requirement spec holds what the spec holds, and
    resolved options are stable: resolving again from the resolved options
    alone, without other keywords, gives the same options. *)
Theorem _resolve_options_stable (kw : Keywords) :
  requirements_spec (_resolve_options kw)
  = dict_or (kw_requirements_spec kw)
            (requirements_spec (default default_options (kw_options kw)))
  ∧ _resolve_options (options_only (_resolve_options kw))
    = _resolve_options kw.
Proof.
  split.
  - unfold _resolve_options. simpl. apply _clone_requirements_spec_eq.
  - generalize (_resolve_options kw). intros o.
    unfold _resolve_options, options_only. simpl.
    rewrite _clone_requirements_spec_eq. by destruct o.
Qed.

End OptionsResolution.

(** ** Time strings and meeting blocks *)

Section TimeStrings.
Context `{RT : PyRuntime}.

Lemma substring_0_length s : String.substring 0 (String.length s) s = s.
Proof. induction s as [|c s IH]; simpl; [done|]. by rewrite IH. Qed.

Lemma substring_0_0 s : String.substring 0 0 s = "".
Proof. by destruct s. Qed.

Lemma str_take2_app a b :
  String.length a = 2%nat → str_take2 (a +:+ b) = a.
Proof.
  destruct a as [|c1 [|c2 [|c3 a]]]; try done. intros _.
  unfold str_take2. simpl. by rewrite substring_0_0.
Qed.

Lemma str_drop2_app a b :
  String.length a = 2%nat → str_drop2 (a +:+ b) = b.
Proof.
  destruct a as [|c1 [|c2 [|c3 a]]]; try done. intros _.
  unfold str_drop2. simpl. rewrite Nat.sub_0_r. apply substring_0_length.
Qed.

Lemma format_02d_length n :
  0 ≤ n < 100 → String.length (format_02d n) = 2%nat.
Proof.
  intros Hn.
  assert (forallb (λ k, Nat.eqb (String.length (format_02d k)) 2)
                  (seqZ 0 100) = true) as Hall by (vm_compute; reflexivity).
  rewrite forallb_forall in Hall.
  apply Nat.eqb_eq, Hall, list_elem_of_In, elem_of_seqZ. lia.
Qed.

(** X15: writing minutes as "HHMM" and reading them back gives the minutes
    again, for times below 100 hours, when [int] reads two-digit
    numerals. *)
Theorem hhmm_round_trip (minutes : Z) :
  int_reads_two_digits →
  0 ≤ minutes < 6000 →
  hhmm_to_minutes (minutes_to_hhmm minutes) = Some minutes.
Proof.
  intros Hint Hrange. unfold hhmm_to_minutes, minutes_to_hhmm.
  assert (0 ≤ minutes / 60 < 100) as Hh.
  { split; [apply Z.div_pos; lia|]. apply Z.div_lt_upper_bound; lia. }
  assert (0 ≤ minutes mod 60 < 100) as Hm.
  { pose proof (Z.mod_pos_bound minutes 60). lia. }
  rewrite str_take2_app, str_drop2_app by (by apply format_02d_length).
  rewrite !Hint by done. simpl. f_equal.
  pose proof (Z.div_mod minutes 60). lia.
Qed.

Lemma omap_filter_map {A B : Type} (P : A → Prop) `{∀ x, Decision (P x)}
    (f : A → B) (g : A → option B) (l : list A) :
  (∀ x, g x = if decide (P x) then Some (f x) else None) →
  omap g l = map f (filter P l).
Proof.
  intros Hg. induction l as [|x l IH]; [done|].
  rewrite filter_cons. cbn [omap list_omap]. rewrite Hg.
  destruct (decide (P x)); simpl; by rewrite <- IH.
Qed.

(** X16: a block with well-formed times, begin before end, contributes one
    meeting per day flag that is set, in the order Monday to Friday, all
    with the block's begin and end: at most five, on distinct days. *)
Theorem block_meeting_times_per_flag
    (faculty_block : option RawFacultyBlock) (begin end_ : string)
    (begin_minutes end_minutes : Z) :
  let mt := block_time_dict faculty_block in
  get (beginTime mt) = Some (JStr begin) → begin ≠ "" →
  get (endTime mt) = Some (JStr end_) → end_ ≠ "" →
  hhmm_to_minutes begin = Some begin_minutes →
  hhmm_to_minutes end_ = Some end_minutes →
  begin_minutes < end_minutes →
  ∃ meetings,
    block_meeting_times faculty_block = Ok meetings
    ∧ meetings
      = map (λ d, {| day := d; begin_time := begin_minutes;
                     end_time := end_minutes |})
            (filter (flagged mt) MEETING_KEYS)
    ∧ NoDup (map day meetings)
    ∧ (length meetings ≤ 5)%nat.
Proof.
  intros mt Hb Hbne He Hene Hbm Hem Hlt.
  eexists. split; [|split; [reflexivity|]].
  - unfold block_meeting_times. fold mt. rewrite Hb, He.
    cbn [truthy]. rewrite !bool_decide_eq_false_2 by done.
    cbn [negb orb hhmm_to_minutes_of rbind]. rewrite Hbm.
    cbn [rbind]. rewrite Hem.
    destruct (Z.geb_spec begin_minutes end_minutes); [lia|].
    f_equal. apply omap_filter_map. intros d.
    destruct (decide (flagged mt d)) as [Hd|Hd]; unfold flagged in Hd.
    + by rewrite Hd.
    + by destruct (get (day_flag mt d)) as [[]|].
  - rewrite map_map. simpl. rewrite map_id. split.
    + apply NoDup_filter. by apply (bool_decide_unpack _).
    + rewrite length_map. etrans; [apply length_filter|]. done.
Qed.

End TimeStrings.

(** ** Calendar export: weekdays in the term *)

Section TermWeekdays.

Lemma date_add_Some d n r :
  date_add d n = Some r ↔ r = d + n ∧ DATE_MIN ≤ r ≤ DATE_MAX.
Proof.
  unfold date_add. cbv zeta.
  destruct (Z.leb_spec DATE_MIN (d + n)), (Z.leb_spec (d + n) DATE_MAX);
    simpl; split; try (intros [= <-]; lia); try (intros [-> ?]; (done || lia)).
Qed.

Lemma date_add_None d n :
  date_add d n = None ↔ d + n < DATE_MIN ∨ DATE_MAX < d + n.
Proof.
  unfold date_add. cbv zeta.
  destruct (Z.leb_spec DATE_MIN (d + n)), (Z.leb_spec (d + n) DATE_MAX);
    simpl; split; try done; try lia; intros _; lia.
Qed.

Lemma falls_on_forward start target :
  let delta := (target - weekday_of start) mod 7 in
  0 ≤ delta < 7 ∧ falls_on target (start + delta) ∧
  ∀ d, start ≤ d → falls_on target d → start + delta ≤ d.
Proof.
  unfold falls_on, weekday_of. cbv zeta.
  split; [apply Z.mod_pos_bound; lia|]. split.
  - Z.to_euclidean_division_equations; lia.
  - intros d Hd Hon. Z.to_euclidean_division_equations; lia.
Qed.

Lemma falls_on_backward end_ target :
  let delta := (weekday_of end_ - target) mod 7 in
  0 ≤ delta < 7 ∧ falls_on target (end_ - delta) ∧
  ∀ d, d ≤ end_ → falls_on target d → d ≤ end_ - delta.
Proof.
  unfold falls_on, weekday_of. cbv zeta.
  split; [apply Z.mod_pos_bound; lia|]. split.
  - Z.to_euclidean_division_equations; lia.
  - intros d Hd Hon. Z.to_euclidean_division_equations; lia.
Qed.

(** X17: for a start date [next_weekday_on_or_after] returns the earliest
    date on or after it on which the target weekday falls; it is less than
    a week later.  It overflows only when no such date exists up to
    [date.max], so never for a start six days or more before it. *)
Theorem next_weekday_on_or_after_least (start target_weekday : Z) :
  DATE_MIN ≤ start ≤ DATE_MAX →
  match next_weekday_on_or_after start target_weekday with
  | Some first =>
      start ≤ first < start + 7 ∧ first ≤ DATE_MAX ∧
      falls_on target_weekday first ∧
      ∀ d, start ≤ d → falls_on target_weekday d → first ≤ d
  | None =>
      DATE_MAX < start + 6 ∧
      ∀ d, start ≤ d ≤ DATE_MAX → ¬ falls_on target_weekday d
  end.
Proof.
  intros Hstart. unfold next_weekday_on_or_after. cbv zeta.
  destruct (falls_on_forward start target_weekday) as (Hdelta & Hon & Hleast).
  cbv zeta in Hdelta, Hon, Hleast.
  destruct (date_add _ _) as [first|] eqn:Hadd.
  - apply date_add_Some in Hadd as [-> Hrange].
    repeat split; try lia; done.
  - apply date_add_None in Hadd. split; [lia|].
    intros d Hd Hd_on. specialize (Hleast d (proj1 Hd) Hd_on). lia.
Qed.

(** X18: for an end date [last_weekday_on_or_before] returns the latest
    date on or before it on which the target weekday falls; it is less
    than a week earlier.  It overflows only when no such date exists from
    [date.min] on. *)
Theorem last_weekday_on_or_before_greatest (end_ target_weekday : Z) :
  DATE_MIN ≤ end_ ≤ DATE_MAX →
  match last_weekday_on_or_before end_ target_weekday with
  | Some last =>
      end_ - 7 < last ≤ end_ ∧ DATE_MIN ≤ last ∧
      falls_on target_weekday last ∧
      ∀ d, d ≤ end_ → falls_on target_weekday d → d ≤ last
  | None =>
      end_ - 6 < DATE_MIN ∧
      ∀ d, DATE_MIN ≤ d ≤ end_ → ¬ falls_on target_weekday d
  end.
Proof.
  intros Hend. unfold last_weekday_on_or_before. cbv zeta.
  destruct (falls_on_backward end_ target_weekday) as (Hdelta & Hon & Hmost).
  cbv zeta in Hdelta, Hon, Hmost.
  destruct (date_add _ _) as [last|] eqn:Hadd.
  - apply date_add_Some in Hadd as [-> Hrange].
    replace (end_ + - _) with (end_ - (weekday_of end_ - target_weekday) mod 7)
      in * by lia.
    repeat split; try lia; done.
  - apply date_add_None in Hadd. split; [lia|].
    intros d Hd Hd_on. specialize (Hmost d (proj2 Hd) Hd_on). lia.
Qed.

(** X19: the first and the last date of a weekly event, as the exporter
    derives them from the bounds of the term, are in order exactly when the
    weekday falls on some date of the term; both are then dates of the
    term. *)
Theorem term_weekday_occurs (term_start term_end target_weekday first last : Z) :
  next_weekday_on_or_after term_start target_weekday = Some first →
  last_weekday_on_or_before term_end target_weekday = Some last →
  (first ≤ last ↔
     ∃ d, term_start ≤ d ≤ term_end ∧ falls_on target_weekday d) ∧
  (first ≤ last →
     term_start ≤ first ≤ term_end ∧ term_start ≤ last ≤ term_end).
Proof.
  unfold next_weekday_on_or_after, last_weekday_on_or_before. cbv zeta.
  intros [-> _]%date_add_Some [-> _]%date_add_Some.
  destruct (falls_on_forward term_start target_weekday)
    as (Hdelta & Hon & Hleast).
  destruct (falls_on_backward term_end target_weekday)
    as (Hdelta' & Hon' & Hmost).
  cbv zeta in Hdelta, Hon, Hleast, Hdelta', Hon', Hmost.
  set (f := (target_weekday - weekday_of term_start) mod 7) in *.
  set (b := (weekday_of term_end - target_weekday) mod 7) in *.
  replace (term_end + - b) with (term_end - b) by lia.
  split; [split|].
  - intros Hle. exists (term_start + f). split; [lia | done].
  - intros (d & Hd & Hd_on).
    specialize (Hleast d (proj1 Hd) Hd_on).
    specialize (Hmost d (proj2 Hd) Hd_on). lia.
  - lia.
Qed.

(** X25: the dates [build_event_lines] gives a weekly event are in order:
    the recurrence never ends before its first occurrence, which is the
    first date of the term's start or later with the weekday.  When the
    weekday falls on a date of the term, the recurrence ends on the last
    such date; when it does not, the event is still written, with a single
    occurrence that lies after the end of the term. *)
Theorem event_first_last_ordered
    (term_start term_end weekday_index first_date last_date : Z) :
  event_first_last term_start term_end weekday_index
  = Some (first_date, last_date) →
  first_date ≤ last_date
  ∧ term_start ≤ first_date < term_start + 7
  ∧ falls_on weekday_index first_date ∧ falls_on weekday_index last_date
  ∧ (occurs_in_term term_start term_end weekday_index →
       term_end - 7 < last_date ≤ term_end)
  ∧ (¬ occurs_in_term term_start term_end weekday_index →
       last_date = first_date ∧ term_end < first_date).
Proof.
  unfold event_first_last, occurs_in_term.
  destruct (next_weekday_on_or_after _ _) as [first|] eqn:Hfirst; [|done].
  destruct (last_weekday_on_or_before _ _) as [last|] eqn:Hlast; [|done].
  simpl. intros [= <- <-].
  unfold next_weekday_on_or_after, last_weekday_on_or_before in *.
  cbv zeta in Hfirst, Hlast.
  apply date_add_Some in Hfirst as [-> _].
  apply date_add_Some in Hlast as [-> _].
  destruct (falls_on_forward term_start weekday_index)
    as (Hdelta & Hon & Hleast).
  destruct (falls_on_backward term_end weekday_index)
    as (Hdelta' & Hon' & Hmost).
  cbv zeta in Hdelta, Hon, Hleast, Hdelta', Hon', Hmost.
  set (f := (weekday_index - weekday_of term_start) mod 7) in *.
  set (b := (weekday_of term_end - weekday_index) mod 7) in *.
  replace (term_end + - b) with (term_end - b) by lia.
  destruct (Z.ltb_spec (term_end - b) (term_start + f)) as [Hlt|Hge].
  - split_and!; try lia; try done.
    + intros (d & Hd & Hd_on).
      specialize (Hleast d (proj1 Hd) Hd_on).
      specialize (Hmost d (proj2 Hd) Hd_on). lia.
    + intros _. split; [done|].
      destruct (Z.lt_ge_cases term_end (term_start + f)) as [|Hin]; [done|].
      specialize (Hmost (term_start + f) Hin Hon). lia.
  - split_and!; try lia; try done.
    intros Hnone. destruct Hnone. exists (term_start + f). split; [lia|done].
Qed.

End TermWeekdays.

(** ** Calendar export: reading the optimizer's output *)

Section ReadBack.
Context `{RT : PyRuntime}.

Lemma all_digits_app a b :
  all_digits (a +:+ b) = all_digits a && all_digits b.
Proof.
  induction a as [|c a IH]; simpl; [done|].
  by rewrite IH, andb_assoc.
Qed.

Lemma length_append a b :
  String.length (a +:+ b) = (String.length a + String.length b)%nat.
Proof. induction a as [|c a IH]; simpl; [done|]. by rewrite IH. Qed.

Lemma format_02d_digits n :
  0 ≤ n < 100 → all_digits (format_02d n) = true.
Proof.
  intros Hn.
  assert (forallb (λ k, all_digits (format_02d k)) (seqZ 0 100) = true)
    as Hall by (vm_compute; reflexivity).
  rewrite forallb_forall in Hall. apply Hall.
  apply list_elem_of_In, elem_of_seqZ. lia.
Qed.

Lemma minutes_to_hhmm_shape minutes :
  0 ≤ minutes < 6000 →
  String.length (minutes_to_hhmm minutes) = 4%nat ∧
  str_isdigit (minutes_to_hhmm minutes) = true.
Proof.
  intros Hm. unfold minutes_to_hhmm.
  assert (0 ≤ minutes / 60 < 100) as Hh
    by (split; [apply Z.div_pos; lia | apply Z.div_lt_upper_bound; lia]).
  assert (0 ≤ minutes mod 60 < 100) as Hr
    by (pose proof (Z.mod_pos_bound minutes 60); lia).
  pose proof (format_02d_length _ Hh) as Hlh.
  pose proof (format_02d_length _ Hr) as Hlr.
  split.
  - by rewrite length_append, Hlh, Hlr.
  - unfold str_isdigit. rewrite all_digits_app, !format_02d_digits by done.
    rewrite bool_decide_false; [done|].
    intros Heq. apply (f_equal String.length) in Heq.
    rewrite length_append, Hlh, Hlr in Heq. done.
Qed.

Lemma parse_hhmm_minutes_to_hhmm minutes :
  int_reads_two_digits → strip_keeps_digits →
  0 ≤ minutes < 6000 →
  parse_hhmm (minutes_to_hhmm minutes)
  = make_time (minutes / 60) (minutes mod 60).
Proof.
  intros Hint Hstrip Hm.
  destruct (minutes_to_hhmm_shape minutes Hm) as [Hlen Hdig].
  unfold parse_hhmm. cbv zeta. rewrite (Hstrip _ Hdig), Hlen, Hdig. simpl.
  assert (0 ≤ minutes / 60 < 100) as Hh
    by (split; [apply Z.div_pos; lia | apply Z.div_lt_upper_bound; lia]).
  assert (0 ≤ minutes mod 60 < 100) as Hr
    by (pose proof (Z.mod_pos_bound minutes 60); lia).
  unfold minutes_to_hhmm, int_of_str.
  rewrite str_take2_app, str_drop2_app by (by apply format_02d_length).
  by rewrite (Hint _ Hh), (Hint _ Hr).
Qed.

(** X20: the exporter reads back the times the optimizer writes.  A time
    of day before midnight, written by [minutes_to_hhmm], is parsed by
    [parse_hhmm] to its hour and minute; a time of 24:00 or later, which
    the optimizer also writes with four digits, makes [parse_hhmm] raise
    [ValueError]. *)
Theorem parse_hhmm_reads_optimizer_times (minutes : Z) :
  int_reads_two_digits → strip_keeps_digits →
  0 ≤ minutes < 6000 →
  (minutes < 1440 →
     parse_hhmm (minutes_to_hhmm minutes)
     = Ok {| hour := minutes / 60; minute := minutes mod 60 |}) ∧
  (1440 ≤ minutes →
     parse_hhmm (minutes_to_hhmm minutes)
     = Raise (ValueError "hour must be in 0..23")).
Proof.
  intros Hint Hstrip Hm.
  rewrite parse_hhmm_minutes_to_hhmm by done.
  pose proof (Z.mod_pos_bound minutes 60).
  unfold make_time. split; intros Hday.
  - assert (0 ≤ minutes / 60 ≤ 23) as Hh
      by (split; [apply Z.div_pos; lia
                 | apply Z.lt_succ_r, Z.div_lt_upper_bound; lia]).
    rewrite (proj2 (Z.leb_le 0 _)), (proj2 (Z.leb_le _ 23)) by lia.
    rewrite (proj2 (Z.leb_le 0 _)), (proj2 (Z.leb_le _ 59)) by lia.
    done.
  - assert (24 ≤ minutes / 60) as Hh by (apply Z.div_le_lower_bound; lia).
    rewrite (proj2 (Z.leb_le 0 _)) by lia.
    rewrite (proj2 (Z.leb_gt _ 23)) by lia. done.
Qed.

(** X21: the strict parser of the exporter agrees with the parser of the
    optimizer: a string that [parse_hhmm] accepts is, stripped, read by
    [hhmm_to_minutes] as the same time of day, which is before
    midnight. *)
Theorem parse_hhmm_agrees_with_hhmm_to_minutes (hhmm : string) (t : PyTime) :
  parse_hhmm hhmm = Ok t →
  hhmm_to_minutes (py_strip hhmm) = Some (hour t * 60 + minute t) ∧
  0 ≤ hour t ≤ 23 ∧ 0 ≤ minute t ≤ 59 ∧
  String.length (py_strip hhmm) = 4%nat.
Proof.
  unfold parse_hhmm, hhmm_to_minutes, int_of_str. cbv zeta.
  destruct (String.length (py_strip hhmm) =? 4)%nat eqn:Hlen; [|done].
  destruct (str_isdigit (py_strip hhmm)); [|done]. simpl.
  destruct (py_int (str_take2 _)) as [h|]; [|done]. simpl.
  destruct (py_int (str_drop2 _)) as [m|]; [|done]. simpl.
  unfold make_time.
  destruct (Z.leb_spec 0 h), (Z.leb_spec h 23); simpl; try done.
  destruct (Z.leb_spec 0 m), (Z.leb_spec m 59); simpl; try done.
  intros [= <-]. simpl. apply Nat.eqb_eq in Hlen. done.
Qed.

Lemma DAY_NAME_TO_INDEX_lookup name index :
  DAY_NAME_TO_INDEX !! name = Some index →
  (name, index) ∈
    [ ("monday", 0); ("tuesday", 1); ("wednesday", 2); ("thursday", 3);
      ("friday", 4); ("saturday", 5); ("sunday", 6) ].
Proof. apply elem_of_list_to_map_2. Qed.

(** X22: [sanitize_day] never indexes [INDEX_TO_RRULE_DAY] out of range:
    the index it returns is a [datetime] weekday, from 0 to 6, the code it
    returns is the entry of the table at that index, and the only
    exception it raises is the [ValueError] for a name that, stripped and
    in lower case, is no key of [DAY_NAME_TO_INDEX]. *)
Theorem sanitize_day_in_range (day_name : string) :
  match sanitize_day day_name with
  | Ok (index, rrule_day) =>
      0 ≤ index < 7 ∧
      INDEX_TO_RRULE_DAY !! Z.to_nat index = Some rrule_day ∧
      DAY_NAME_TO_INDEX !! str_lower (py_strip day_name) = Some index
  | Raise e =>
      e = ValueError ("Unknown day name: " +:+ day_name) ∧
      DAY_NAME_TO_INDEX !! str_lower (py_strip day_name) = None
  end.
Proof.
  unfold sanitize_day.
  destruct (DAY_NAME_TO_INDEX !! _) as [index|] eqn:Hlookup; [|done].
  pose proof (DAY_NAME_TO_INDEX_lookup _ _ Hlookup) as Hin.
  repeat (apply elem_of_cons in Hin as [[= _ ->]|Hin]; [by repeat split|]).
  by apply elem_of_nil in Hin.
Qed.

(** X23: the exporter reads back the days the optimizer writes: the day
    name of a formatted meeting is accepted by [sanitize_day], with the
    index [enumerate(MEETING_KEYS)] gives the day in the optimizer, which is
    a weekday from Monday (0) to Friday (4). *)
Theorem sanitize_day_reads_optimizer_days (mt : MeetingTime) :
  strip_keeps_day_names →
  ∃ rrule_day,
    sanitize_day (out_day (format_meeting mt))
    = Ok (Z.of_nat (day_index (day mt)), rrule_day) ∧
    INDEX_TO_RRULE_DAY !! day_index (day mt) = Some rrule_day.
Proof.
  intros Hstrip. unfold sanitize_day, format_meeting. simpl.
  rewrite Hstrip. destruct (day mt); eexists; split; reflexivity.
Qed.

End ReadBack.

(** ** Calendar export: bounds of the term *)

Section TermBounds.
Context `{RT : PyRuntime}.

Lemma foldl_min_spec l x :
  foldl Z.min x l ∈ x :: l ∧ Forall (λ y, foldl Z.min x l ≤ y) (x :: l).
Proof.
  revert x. induction l as [|y l IH]; intros x; simpl.
  - split; [left | by repeat constructor].
  - destruct (IH (Z.min x y)) as [Hin Hle]. split.
    + apply elem_of_cons in Hin as [Hin|Hin]; [|by do 2 right].
      rewrite Hin. destruct (Z.min_spec x y) as [[_ ->]|[_ ->]];
        [left | right; left].
    + apply Forall_cons in Hle as [Hmin Hle].
      repeat constructor; [lia | lia | done].
Qed.

Lemma foldl_max_spec l x :
  foldl Z.max x l ∈ x :: l ∧ Forall (λ y, y ≤ foldl Z.max x l) (x :: l).
Proof.
  revert x. induction l as [|y l IH]; intros x; simpl.
  - split; [left | by repeat constructor].
  - destruct (IH (Z.max x y)) as [Hin Hle]. split.
    + apply elem_of_cons in Hin as [Hin|Hin]; [|by do 2 right].
      rewrite Hin. destruct (Z.max_spec x y) as [[_ ->]|[_ ->]];
        [right; left | left].
    + apply Forall_cons in Hle as [Hmax Hle].
      repeat constructor; [lia | lia | done].
Qed.

(** The dates a comprehension of [derive_term_bounds] collects. *)
Lemma scheduled_dates_spec (schedules : list (string * ScheduleOut))
    (metadata : list (string * SectionMeta))
    (date_of : SectionMeta → option Z) (d : Z) :
  d ∈ omap (λ '(crn, meta),
              if bool_decide (crn ∈ scheduled_crns schedules)
              then date_of meta else None) metadata
  ↔ ∃ meta, scheduled_meta schedules metadata meta ∧ date_of meta = Some d.
Proof.
  rewrite list_elem_of_omap. split.
  - intros ([crn meta] & Hin & Hd). case_bool_decide; [|done].
    exists meta. split; [by exists crn | done].
  - intros (meta & (crn & Hin & Hcrn) & Hd). exists (crn, meta).
    split; [done|]. by rewrite bool_decide_true.
Qed.

(** X24: [derive_term_bounds] returns the earliest start date and the
    latest end date among the metadata entries of the scheduled sections
    that have one: each bound is the date of such an entry, no such entry
    starts before the first or ends after the second, and a bound is
    [None] exactly when no such entry has the date. *)
Theorem derive_term_bounds_extremes
    (schedules : list (string * ScheduleOut))
    (metadata : list (string * SectionMeta)) :
  let has (date_of : SectionMeta → option Z) (d : Z) :=
    ∃ meta, scheduled_meta schedules metadata meta ∧ date_of meta = Some d in
  match (derive_term_bounds schedules metadata).1 with
  | Some first =>
      has start_date first ∧ ∀ d, has start_date d → first ≤ d
  | None => ∀ d, ¬ has start_date d
  end ∧
  match (derive_term_bounds schedules metadata).2 with
  | Some last =>
      has end_date last ∧ ∀ d, has end_date d → d ≤ last
  | None => ∀ d, ¬ has end_date d
  end.
Proof.
  cbv zeta. unfold derive_term_bounds. cbv zeta. simpl. split.
  - pose proof (scheduled_dates_spec schedules metadata start_date) as Hspec.
    destruct (omap _ metadata) as [|x l].
    + intros d Hd. apply Hspec in Hd. by apply elem_of_nil in Hd.
    + simpl. destruct (foldl_min_spec l x) as [Hin Hle]. split.
      * by apply Hspec.
      * intros d Hd. apply Hspec in Hd.
        rewrite Forall_forall in Hle. by apply Hle.
  - pose proof (scheduled_dates_spec schedules metadata end_date) as Hspec.
    destruct (omap _ metadata) as [|x l].
    + intros d Hd. apply Hspec in Hd. by apply elem_of_nil in Hd.
    + simpl. destruct (foldl_max_spec l x) as [Hin Hle]. split.
      * by apply Hspec.
      * intros d Hd. apply Hspec in Hd.
        rewrite Forall_forall in Hle. by apply Hle.
Qed.

End TermBounds.

(** ** Further examples *)

Section MoreExamples.
Import CPython.
Local Existing Instance runtime.

Ltac elems H :=
  repeat (apply elem_of_cons in H as [->|H]); try (by apply elem_of_nil in H).

(** The run time [CPython] reads the numerals it is asked to read, and its
    [strip] leaves digits and day names alone. *)
Lemma read_int_two_digits : int_reads_two_digits.
Proof.
  intros n Hn.
  assert (forallb (λ k, bool_decide (read_int (format_02d k) = Some k))
            (seqZ 0 100) = true) as Hall by (vm_compute; reflexivity).
  rewrite forallb_forall in Hall.
  change (read_int (format_02d n) = Some n).
  eapply bool_decide_eq_true_1, Hall, list_elem_of_In, elem_of_seqZ. lia.
Qed.

Lemma digit_is_no_space c : char_isdigit c = true → is_space c = false.
Proof. by destruct c as [[] [] [] [] [] [] [] []]. Qed.

Lemma lstrip_digits s : all_digits s = true → lstrip s = s.
Proof.
  destruct s as [|c s]; simpl; [done|].
  intros [Hc _]%andb_prop. by rewrite (digit_is_no_space c Hc).
Qed.

Lemma rev_app_rev_app s1 s2 s3 :
  String.rev_app (String.rev_app s1 s2) s3 = String.rev_app s2 (s1 +:+ s3).
Proof.
  revert s2. induction s1 as [|c s1 IH]; intros s2; simpl; [done|].
  by rewrite IH.
Qed.

Lemma all_digits_rev_app s1 s2 :
  all_digits (String.rev_app s1 s2) = all_digits s1 && all_digits s2.
Proof.
  revert s2. induction s1 as [|c s1 IH]; intros s2; simpl; [done|].
  rewrite IH. simpl. by rewrite andb_assoc, (andb_comm (all_digits s1)).
Qed.

Lemma append_empty_r s : s +:+ "" = s.
Proof.
  induction s as [|c s IH]; [done|].
  change (String c (s +:+ "") = String c s). by rewrite IH.
Qed.

Lemma strip_digits : strip_keeps_digits.
Proof.
  intros s [_ Hs]%andb_prop. change (strip s = s). unfold strip.
  rewrite (lstrip_digits s Hs). unfold String.rev.
  rewrite lstrip_digits
    by (by rewrite all_digits_rev_app, Hs).
  by rewrite rev_app_rev_app, append_empty_r.
Qed.

Lemma strip_day_names : strip_keeps_day_names.
Proof. by intros []. Qed.

(** *** Search engine *)

Lemma generate_section_combinations_no_conflicts_witness :
  length (generate_section_combinations
            {| courses := [course_of "A" [A1]; course_of "B" [B2; B3]] |})
  = 2%nat.
Proof.
  apply (generate_section_combinations_no_conflicts
           {| courses := [course_of "A" [A1]; course_of "B" [B2; B3]] |}).
  simpl. split; [|split; [|done]].
  - intros c' s s' Hc Hs Hs'. elems Hc. simpl in Hs, Hs'.
    elems Hs; elems Hs'; reflexivity.
  - intros c' s s' Hc. elems Hc.
Defined.

Lemma generate_section_combinations_all_conflicting_witness :
  generate_section_combinations
    {| courses := [course_of "A" [A1]; course_of "C" [C1];
                   course_of "B" [B1]] |}
  = [].
Proof.
  apply (generate_section_combinations_all_conflicting
           {| courses := [course_of "A" [A1]; course_of "C" [C1];
                          course_of "B" [B1]] |}
           0 2 (course_of "A" [A1]) (course_of "B" [B1]));
    [done | reflexivity | reflexivity |].
  intros s t Hs Ht. simpl in Hs, Ht. elems Hs; elems Ht; reflexivity.
Defined.

Lemma generate_section_combinations_no_repeated_section_witness :
  length (generate_section_combinations
            {| courses := [course_of "B" [B1; B2]; course_of "B" [B1; B2]] |})
  = 2%nat
  ∧ Forall NoDup
      (generate_section_combinations
         {| courses := [course_of "B" [B1; B2]; course_of "B" [B1; B2]] |}).
Proof.
  split; [reflexivity|].
  assert (valid_section B1) as HB1
    by (split; [done | repeat constructor; unfold positive_duration; simpl; lia]).
  assert (valid_section B2) as HB2
    by (split; [done | repeat constructor; unfold positive_duration; simpl; lia]).
  assert (valid_course (course_of "B" [B1; B2])) as HB
    by (unfold valid_course; simpl; by repeat constructor).
  apply Forall_forall. intros combo Hcombo.
  apply (generate_section_combinations_no_repeated_section
           {| courses := [course_of "B" [B1; B2]; course_of "B" [B1; B2]] |}
           combo); [|done].
  simpl. by repeat constructor.
Defined.

(** *** Resolver and course tables *)

Lemma demo_tables_built kw :
  is_ok (build_tables (_resolve_options kw) demo_data) = true →
  build_tables (_resolve_options kw) demo_data = Ok (tables_of kw demo_data).
Proof. apply build_tables_tables_of. Qed.

Lemma course_slates_have_sections_witness :
  length (slates_of demo_kw5 demo_data) = 2%nat
  ∧ Forall (Forall (λ c, sections c ≠ [])) (slates_of demo_kw5 demo_data).
Proof.
  assert (length (slates_of demo_kw5 demo_data) = 2%nat) as Hlen
    by (vm_compute; reflexivity).
  split; [done|]. unfold slates_of in *.
  destruct (course_slates _ _) as [slates|] eqn:Hslates; [|done]. simpl.
  apply Forall_forall. intros slate Hslate.
  apply Forall_forall. intros c Hc.
  exact (course_slates_have_sections _ _ _ _ _ Hslates Hslate Hc).
Defined.

Lemma build_tables_consistent_witness :
  consistent_tables (_resolve_options demo_kw) (tables_of demo_kw demo_data).
Proof.
  apply (build_tables_consistent _ demo_data).
  apply demo_tables_built. vm_compute. reflexivity.
Defined.

Lemma low_seat_record_ignored_witness :
  build_tables (_resolve_options demo_kw)
    (take 1 demo_data ++ sold_out_record :: drop 1 demo_data)
  = build_tables (_resolve_options demo_kw)
      (take 1 demo_data ++ drop 1 demo_data).
Proof.
  apply (low_seat_record_ignored (_resolve_options demo_kw)).
  exists 0. split; [reflexivity | vm_compute; reflexivity].
Defined.

(** *** Returned schedules *)

Lemma no_usable_record_empty_output_witness :
  optimize_courses [sold_out_record; sold_out_record] demo_kw = Ok [].
Proof.
  apply no_usable_record_empty_output; [vm_compute; reflexivity|].
  repeat constructor;
    (exists 0; split; [reflexivity | vm_compute; reflexivity]).
Defined.

Lemma optimize_courses_count_witness :
  length (candidates (_resolve_options demo_kw) (tables_of demo_kw demo_data))
  = 2%nat
  ∧ length (output_of demo_kw demo_data)
    = (Z.to_nat (max_schedules (_resolve_options demo_kw))
       `min` length (candidates (_resolve_options demo_kw)
                                (tables_of demo_kw demo_data)))%nat.
Proof.
  split; [vm_compute; reflexivity|].
  apply (optimize_courses_count demo_data demo_kw).
  - apply demo_tables_built. vm_compute. reflexivity.
  - apply optimize_courses_output_of. vm_compute. reflexivity.
Defined.

Lemma returned_schedules_sound_witness :
  length (output_of demo_kw5 demo_data) = 2%nat
  ∧ Forall
      (λ e, ∃ slates slate combo,
         course_slates (_resolve_options demo_kw5)
                       (tables_of demo_kw5 demo_data) = Some slates
         ∧ slate ∈ slates
         ∧ one_section_per_course slate combo ∧ conflict_free combo
         ∧ snd e
           = format_entry
               (combo,
                evaluate_schedule combo (scoring (_resolve_options demo_kw5))
                  (Some (penalties (_resolve_options demo_kw5)))))
      (output_of demo_kw5 demo_data).
Proof.
  split; [vm_compute; reflexivity|].
  apply Forall_forall. intros [label entry] Hin.
  apply (returned_schedules_sound demo_data demo_kw5
           (tables_of demo_kw5 demo_data) (output_of demo_kw5 demo_data)
           label entry).
  - apply demo_tables_built. vm_compute. reflexivity.
  - apply optimize_courses_output_of. vm_compute. reflexivity.
  - done.
Defined.

(** *** Scoring *)

Lemma evaluate_schedule_meeting_times_only_witness :
  evaluate_schedule [A1] default_scoring None
  = evaluate_schedule [Z9] default_scoring None.
Proof.
  by apply evaluate_schedule_meeting_times_only.
Defined.

Lemma evaluate_schedule_no_early_late_penalty_witness :
  evaluate_schedule [C1] (with_early_late_rate default_scoring (float_of_int 100)) None
  = evaluate_schedule [C1] default_scoring None.
Proof.
  apply evaluate_schedule_no_early_late_penalty.
  repeat constructor; vm_compute; discriminate.
Defined.

(** *** Time strings *)

Lemma hhmm_round_trip_witness :
  hhmm_to_minutes (minutes_to_hhmm 570) = Some 570.
Proof.
  apply hhmm_round_trip; [apply read_int_two_digits | lia].
Defined.

Lemma block_meeting_times_per_flag_witness :
  ∃ meetings,
    block_meeting_times (block "0900" "0950" [Mon; Thu] Absent) = Ok meetings
    ∧ meetings = [meeting Mon 540 590; meeting Thu 540 590]
    ∧ NoDup (map day meetings)
    ∧ (length meetings ≤ 5)%nat.
Proof.
  apply (block_meeting_times_per_flag
           (block "0900" "0950" [Mon; Thu] Absent) "0900" "0950" 540 590);
    (reflexivity || done).
Defined.

(** *** Calendar export *)

Lemma next_weekday_on_or_after_least_witness :
  next_weekday_on_or_after jan_1_2026 0 = Some (jan_1_2026 + 4)
  ∧ ∀ d, jan_1_2026 ≤ d → falls_on 0 d → jan_1_2026 + 4 ≤ d.
Proof.
  assert (next_weekday_on_or_after jan_1_2026 0 = Some (jan_1_2026 + 4))
    as Hnext by reflexivity.
  assert (DATE_MIN ≤ jan_1_2026 ≤ DATE_MAX) as Hrange by done.
  pose proof (next_weekday_on_or_after_least jan_1_2026 0 Hrange) as Hleast.
  rewrite Hnext in Hleast. destruct Hleast as (_ & _ & _ & Hleast).
  split; [exact Hnext | exact Hleast].
Defined.

Lemma last_weekday_on_or_before_greatest_witness :
  last_weekday_on_or_before may_2_2026 4 = Some (may_2_2026 - 1)
  ∧ ∀ d, d ≤ may_2_2026 → falls_on 4 d → d ≤ may_2_2026 - 1.
Proof.
  assert (last_weekday_on_or_before may_2_2026 4 = Some (may_2_2026 - 1))
    as Hlast by reflexivity.
  assert (DATE_MIN ≤ may_2_2026 ≤ DATE_MAX) as Hrange by done.
  pose proof (last_weekday_on_or_before_greatest may_2_2026 4 Hrange)
    as Hmost.
  rewrite Hlast in Hmost. destruct Hmost as (_ & _ & _ & Hmost).
  split; [exact Hlast | exact Hmost].
Defined.

Lemma term_weekday_occurs_witness :
  ∃ d, jan_1_2026 ≤ d ≤ may_2_2026 ∧ falls_on 0 d.
Proof.
  apply (term_weekday_occurs jan_1_2026 may_2_2026 0
           (jan_1_2026 + 4) (may_2_2026 - 5));
    [reflexivity | reflexivity | done].
Defined.

Lemma event_first_last_ordered_witness :
  event_first_last jan_1_2026 may_2_2026 0
  = Some (jan_1_2026 + 4, may_2_2026 - 5)
  ∧ jan_1_2026 + 4 ≤ may_2_2026 - 5
  ∧ falls_on 0 (may_2_2026 - 5).
Proof.
  assert (event_first_last jan_1_2026 may_2_2026 0
          = Some (jan_1_2026 + 4, may_2_2026 - 5)) as Hdates by reflexivity.
  destruct (event_first_last_ordered _ _ _ _ _ Hdates)
    as (Hle & _ & _ & Hon & _).
  split_and!; [exact Hdates | exact Hle | exact Hon].
Defined.

Lemma parse_hhmm_reads_optimizer_times_witness :
  parse_hhmm (minutes_to_hhmm 570) = Ok {| hour := 9; minute := 30 |}
  ∧ parse_hhmm (minutes_to_hhmm 1500)
    = Raise (ValueError "hour must be in 0..23").
Proof.
  split.
  - apply (parse_hhmm_reads_optimizer_times 570);
      [apply read_int_two_digits | apply strip_digits | lia | lia].
  - apply (parse_hhmm_reads_optimizer_times 1500);
      [apply read_int_two_digits | apply strip_digits | lia | lia].
Defined.

Lemma parse_hhmm_agrees_with_hhmm_to_minutes_witness :
  hhmm_to_minutes (py_strip " 0930 ") = Some 570
  ∧ String.length (py_strip " 0930 ") = 4%nat.
Proof.
  destruct (parse_hhmm_agrees_with_hhmm_to_minutes " 0930 "
              {| hour := 9; minute := 30 |}) as (Hread & _ & _ & Hlen);
    [reflexivity|]. done.
Defined.

Lemma sanitize_day_reads_optimizer_days_witness :
  ∃ rrule_day,
    sanitize_day (out_day (format_meeting (meeting Thu 540 590)))
    = Ok (3, rrule_day)
    ∧ INDEX_TO_RRULE_DAY !! 3%nat = Some rrule_day.
Proof.
  apply (sanitize_day_reads_optimizer_days (meeting Thu 540 590)).
  apply strip_day_names.
Defined.

End MoreExamples.
